(** * Resume tailoring backend: response extraction, renderers, artifacts

    A shallow embedding of the string-processing core of the repository
    ([resume_tailor.py], [job_analysis.py], [markdown_utils.py], [main.py])
    together with the properties stated for it.

    Conventions.
    - A Python [str] is a [string]; every [ascii] stands for one code point
      below 256.
    - Python exceptions are values of [exn]; code that can raise returns an
      [outcome].
    - The output directory is a finite map from path to file content.
    - Library calls the repository does not define ([json.loads],
      [json.dumps], the oracle's [generate_content], the PDF engine, the JWT
      decoder, the clock) are parameters of the sections that use them. *)

From Stdlib Require Import Ascii String List Arith Lia Bool ZArith DecimalString.
From stdpp Require Import base option list strings gmap.

Local Open Scope nat_scope.
Set Warnings "-register-all".

(** ** Python string primitives *)

Module PyStr.

(** [str.startswith]: [startswith p s] is [s.startswith(p)]. *)
Fixpoint startswith (p s : string) : bool :=
  match p with
  | EmptyString => true
  | String a p' =>
      match s with
      | EmptyString => false
      | String b s' => Ascii.eqb a b && startswith p' s'
      end
  end.

(** Slice [s[n:]]. *)
Fixpoint drop_str (n : nat) (s : string) : string :=
  match n with
  | O => s
  | S n' => match s with EmptyString => EmptyString | String _ s' => drop_str n' s' end
  end.

(** [partition sep s] cuts [s] at the leftmost occurrence of [sep]:
    the text before it and the text after it. *)
Fixpoint partition (sep s : string) : option (string * string) :=
  if startswith sep s then Some (EmptyString, drop_str (String.length sep) s)
  else match s with
       | EmptyString => None
       | String c s' =>
           match partition sep s' with
           | Some (a, b) => Some (String c a, b)
           | None => None
           end
       end.

(** [sub in s]. *)
Definition contains (sub s : string) : bool :=
  match partition sub s with Some _ => true | None => false end.

(** [s.split(sep, 1)] for a non-empty separator: one piece when [sep] does
    not occur, the two pieces around its leftmost occurrence otherwise. *)
Definition split1 (sep s : string) : list string :=
  match partition sep s with
  | Some (a, b) => [a; b]
  | None => [s]
  end.

(** [str.isspace] on one code point below 256: TAB..CR, FS..US, space,
    NEL and the no-break space. *)
Definition isspace (c : ascii) : bool :=
  let n := nat_of_ascii c in
  ((9 <=? n) && (n <=? 13)) || ((28 <=? n) && (n <=? 32))
  || (n =? 133) || (n =? 160).

Fixpoint lstrip (s : string) : string :=
  match s with
  | EmptyString => EmptyString
  | String c s' => if isspace c then lstrip s' else s
  end.

Fixpoint rstrip (s : string) : string :=
  match s with
  | EmptyString => EmptyString
  | String c s' =>
      match rstrip s' with
      | EmptyString => if isspace c then EmptyString else String c EmptyString
      | r => String c r
      end
  end.

(** [s.strip()]. *)
Definition strip (s : string) : string := rstrip (lstrip s).

(** [s.replace(old, new)]: a single left-to-right pass over
    non-overlapping occurrences.  [skip] counts the characters of the
    current occurrence that are still to be dropped. *)
Fixpoint replace_from (skip : nat) (old new s : string) : string :=
  match s with
  | EmptyString => EmptyString
  | String c s' =>
      match skip with
      | S k => replace_from k old new s'
      | O =>
          if startswith old s
          then new +:+ replace_from (String.length old - 1) old new s'
          else String c (replace_from 0 old new s')
      end
  end.

(** With an empty [old], Python inserts [new] before every character and
    at the end. *)
Fixpoint intersperse_all (new s : string) : string :=
  match s with
  | EmptyString => new
  | String c s' => new +:+ String c (intersperse_all new s')
  end.

Definition replace (old new s : string) : string :=
  match old with
  | EmptyString => intersperse_all new s
  | _ => replace_from 0 old new s
  end.

(** [sep.join(l)]. *)
Fixpoint join (sep : string) (l : list string) : string :=
  match l with
  | [] => EmptyString
  | [x] => x
  | x :: l' => x +:+ sep +:+ join sep l'
  end.

(** Truthiness of a [str]. *)
Definition truthy (s : string) : bool :=
  match s with EmptyString => false | _ => true end.

End PyStr.

Import PyStr.

Definition dquote : string := String (ascii_of_nat 34) EmptyString.

(** ** Python values, exceptions, outcomes *)

(** What [json.loads] produces.  Numbers are kept to the integers; no
    property below inspects a number. *)
Inductive pyval : Type :=
  | PNone
  | PBool (b : bool)
  | PInt (z : Z)
  | PStr (s : string)
  | PList (l : list pyval)
  | PDict (d : list (string * pyval)).

Inductive exn : Type :=
  | JSONDecodeError
  | IndexError
  | KeyError (key : string)
  | TypeError
  | FileNotFoundError (path : string)
  | OracleError (msg : string)
  | RenderError (msg : string)
  | HTTPError (status_code : nat) (detail : string)
  | Exception (msg : string).

Inductive outcome (A : Type) : Type :=
  | Return (a : A)
  | Raise (e : exn).
Arguments Return {A} a.
Arguments Raise {A} e.

Definition outcome_bind {A B : Type} (f : A -> outcome B) (m : outcome A) : outcome B :=
  match m with
  | Return a => f a
  | Raise e => Raise e
  end.

#[global] Instance outcome_ret : MRet outcome := fun A a => Return a.
#[global] Instance outcome_mbind : MBind outcome := fun A B f m => outcome_bind f m.

(** Truthiness of a decoded JSON value. *)
Definition pyval_truthy (v : pyval) : bool :=
  match v with
  | PNone => false
  | PBool b => b
  | PInt z => negb (Z.eqb z 0)
  | PStr s => truthy s
  | PList l => match l with [] => false | _ => true end
  | PDict d => match d with [] => false | _ => true end
  end.

(** [l[i]] on a list of strings. *)
Definition item (i : nat) (l : list string) : outcome string :=
  match l !! i with
  | Some x => Return x
  | None => Raise IndexError
  end.

(** ** Response extraction

    [analyze_job_description] (job_analysis.py, lines 87-93) and
    [tailor_resume] (resume_tailor.py, lines 63-69) carry the same text:

      if '```json' in text and '```' in text.split('```json', 1)[1]: ...
      elif '```' in text and '```' in text.split('```', 1)[1]: ...
      else: json_str = text                                            *)

Definition fence : string := "```".
Definition fence_json : string := "```json".

(** [sep in text and '```' in text.split(sep, 1)[1]], with Python's
    short-circuit [and]. *)
Definition fenced_by (sep text : string) : outcome bool :=
  if contains sep text
  then rest ← item 1 (split1 sep text); mret (contains fence rest)
  else mret false.

(** [text.split(sep, 1)[1].split('```', 1)[0].strip()]. *)
Definition fence_interior (sep text : string) : outcome string :=
  rest ← item 1 (split1 sep text);
  body ← item 0 (split1 fence rest);
  mret (strip body).

Definition extract_json_str (text : string) : outcome string :=
  tagged ← fenced_by fence_json text;
  if (tagged : bool) then fence_interior fence_json text
  else
    plain ← fenced_by fence text;
    if (plain : bool) then fence_interior fence text
    else mret text.


(** ** The resume record

    The data model of the tailored resume, with the shapes the renderers
    test for ([isinstance(..., dict)], [isinstance(..., list)], otherwise a
    bare string).  A key that may be missing is an [option]; a mapping whose
    iteration order matters is an association list in insertion order, its
    keys distinct as those of a [dict]. *)

(** A skills value: a list of strings or a bare string. *)
Inductive skill_value : Type :=
  | SkillList (l : list string)
  | SkillText (s : string).

Inductive skills_field : Type :=
  | SkillsDict (d : list (string * skill_value))
  | SkillsList (l : list string)
  | SkillsText (s : string).

Module Edu.
Record t : Type := Make {
  degree : option string;
  university : option string;
  period : option string;
  description : option string
}.
End Edu.

Inductive education_item : Type :=
  | EduItemDict (e : Edu.t)
  | EduItemText (s : string).

Inductive education_field : Type :=
  | EducationDict (e : Edu.t)
  | EducationList (l : list education_item)
  | EducationText (s : string).

Module Ref.
Record t : Type := Make {
  name : option string;
  text : option string;
  link : option string
}.
End Ref.

Module Exp.
Record t : Type := Make {
  title : option string;
  company : option string;
  period : option string;
  summary : option string;
  highlights : option (list string);
  skills : option skill_value
}.
End Exp.

Module Resume.
Record t : Type := Make {
  name : string;
  contact : list (string * string);
  summary : string;
  experience : list Exp.t;
  skills : skills_field;
  education : education_field;
  references : option (list Ref.t)
}.
End Resume.

(** [d.get(key, dflt)] on an optional key. *)
Definition get (dflt : string) (field : option string) : string :=
  default dflt field.

(** [d[key]] on a mapping with string values, [None] when the key is
    missing. *)
Fixpoint lookup_key (key : string) (d : list (string * string)) : option string :=
  match d with
  | [] => None
  | (k, v) :: d' => if String.eqb k key then Some v else lookup_key key d'
  end.

(** Truthiness of a skills value: an empty list and an empty string are
    false. *)
Definition skill_value_truthy (v : skill_value) : bool :=
  match v with
  | SkillList [] => false
  | SkillList _ => true
  | SkillText s => truthy s
  end.

(** [", ".join(l)] for a list, [str(s)] for a string. *)
Definition skill_value_text (v : skill_value) : string :=
  match v with
  | SkillList l => join ", " l
  | SkillText s => s
  end.

Definition nl : string := String (ascii_of_nat 10) EmptyString.

(** ** resume_tailor.py: convert_json_to_text *)

(** [f"{exp.get('title', '')} at {exp.get('company', '')}"]. *)
Definition title_company (exp : Exp.t) : string :=
  get "" (Exp.title exp) +:+ " at " +:+ get "" (Exp.company exp).

(** What one pass of the [for exp in ...] loop appends. *)
Definition experience_text (exp : Exp.t) : list string :=
  [title_company exp]
  ++ match Exp.period exp with Some p => [p] | None => [] end
  ++ match Exp.skills exp with
     | Some v => if skill_value_truthy v then ["Skills: " +:+ skill_value_text v] else []
     | None => []
     end
  ++ match Exp.summary exp with Some s => [s] | None => [] end
  ++ match Exp.highlights exp with
     | Some hs => map (fun highlight => "• " +:+ highlight) hs
     | None => []
     end
  ++ [""].

Definition references_text (refs : option (list Ref.t)) : list string :=
  match refs with
  | Some (r :: rs) =>
      ["PROFESSIONAL REFERENCES"]
      ++ map (fun ref => get "" (Ref.name ref) +:+ " - Link: " +:+ get "" (Ref.link ref))
             (r :: rs)
      ++ [""]
  | _ => []
  end.

Definition skills_text_lines (skills : skills_field) : list string :=
  match skills with
  | SkillsDict d =>
      map (fun '(category, skill_list) => category +:+ ": " +:+ skill_value_text skill_list) d
  | SkillsList l => [join ", " l]
  | SkillsText s => [s]
  end.

Definition edu_text (edu : Edu.t) : list string :=
  [get "" (Edu.degree edu) +:+ " - " +:+ get "" (Edu.university edu)]
  ++ match Edu.period edu with Some p => [p] | None => [] end
  ++ match Edu.description edu with Some d => [d] | None => [] end.

Definition education_text (education : education_field) : list string :=
  match education with
  | EducationDict e => edu_text e
  | EducationList l =>
      flat_map (fun edu => match edu with
                           | EduItemDict e => edu_text e
                           | EduItemText s => [s]
                           end) l
  | EducationText s => [s]
  end.

(** The list [text_content] at the point where it is joined. *)
Definition text_content (tailored_resume : Resume.t) : list string :=
  [Resume.name tailored_resume]
  ++ map (fun '(key, value) => key +:+ ": " +:+ value) (Resume.contact tailored_resume)
  ++ ["----"]
  ++ ["SUMMARY"; Resume.summary tailored_resume; ""]
  ++ references_text (Resume.references tailored_resume)
  ++ ["EXPERIENCE"]
  ++ flat_map experience_text (Resume.experience tailored_resume)
  ++ ["SKILLS"]
  ++ skills_text_lines (Resume.skills tailored_resume)
  ++ [""]
  ++ ["EDUCATION"]
  ++ education_text (Resume.education tailored_resume).

(** ** resume_tailor.py: convert_json_to_markdown, the pure part *)

(** The fragment templates read from [output_template.md] and
    [output_template/]. *)
Record Templates : Type := MkTemplates {
  template_content : string;
  top_section_template : string;
  summary_section_template : string;
  references_section_template : string;
  reference_item_template : string;
  experiences_section_template : string;
  experience_item_template : string;
  experience_highlights_template : string;
  experience_highlight_item_template : string;
  skills_section_template : string;
  skill_section_item_template : string;
  education_section_template : string;
  location_section_template : string
}.

(** [s1 + s2 + ...], what repeated [+=] builds. *)
Definition concat_str (l : list string) : string := fold_right String.append EmptyString l.

Definition contact_link (key value : string) : string :=
  "<a href=" +:+ dquote +:+ value +:+ dquote +:+ " style=" +:+ dquote
  +:+ "margin: 0 0.5em; color: #0366d6; text-decoration: underline;"
  +:+ dquote +:+ ">" +:+ key +:+ "</a>".

Definition contacts_html (contact : list (string * string)) : string :=
  join " | "
    (map (fun '(key, value) => contact_link key value)
         (filter (fun kv => negb (String.eqb (fst kv) "location")) contact)).

(** [""] unless ["location" in contact and contact["location"]]. *)
Definition location_section (T : Templates) (contact : list (string * string)) : string :=
  match lookup_key "location" contact with
  | Some location =>
      if truthy location
      then replace "{{location}}" location (location_section_template T)
      else EmptyString
  | None => EmptyString
  end.

Definition top_section (T : Templates) (r : Resume.t) : string :=
  let s := top_section_template T in
  let s := replace "{{name}}" (Resume.name r) s in
  let s := replace "{{location_section}}" (location_section T (Resume.contact r)) s in
  replace "{{contacts}}" (contacts_html (Resume.contact r)) s.

Definition summary_section (T : Templates) (r : Resume.t) : string :=
  replace "{{summary}}" (Resume.summary r) (summary_section_template T).

(** Lines 299-304: the company string and the location parsed out of it. *)
Definition split_company (company : string) : outcome (string * string) :=
  if contains "(" company && contains ")" company then
    let company_parts := split1 "(" company in
    p0 ← item 0 company_parts;
    p1 ← item 1 company_parts;
    mret (strip p0, strip (replace ")" "" p1))
  else mret (company, EmptyString).

(** Lines 306-313: the period split into from / to. *)
Definition split_period (period : string) : outcome (string * string) :=
  if contains "-" period then
    let date_parts := split1 "-" period in
    from_date ← item 0 date_parts;
    to_date ← item 1 date_parts;
    mret (strip from_date, strip to_date)
  else mret (period, EmptyString).

(** Lines 317-322. *)
Definition experience_skills_text (exp : Exp.t) : string :=
  match Exp.skills exp with
  | Some v => if skill_value_truthy v then skill_value_text v else EmptyString
  | None => EmptyString
  end.

(** Lines 325-334. *)
Definition highlights_html (T : Templates) (exp : Exp.t) : string :=
  let highlights := default [] (Exp.highlights exp) in
  if match highlights with [] => false | _ => true end
     && existsb (fun h => truthy (strip h)) highlights
  then
    let highlight_items :=
      concat_str
        (map (fun highlight =>
                replace "{{highlight}}" highlight (experience_highlight_item_template T))
             (filter (fun highlight => truthy highlight && truthy (strip highlight))
                     highlights)) in
    replace "{{highlights}}" highlight_items (experience_highlights_template T)
  else EmptyString.

Definition experience_item (T : Templates) (exp : Exp.t) : outcome string :=
  let title := get "" (Exp.title exp) in
  '(company, location) ← split_company (get "" (Exp.company exp));
  '(from_date, to_date) ← split_period (get "" (Exp.period exp));
  let description := get "" (Exp.summary exp) in
  let s := experience_item_template T in
  let s := replace "{{position}}" title s in
  let s := replace "{{company_name}}" company s in
  let s := replace "{{location}}" location s in
  let s := replace "{{from}}" from_date s in
  let s := replace "{{to}}" to_date s in
  let s := replace "{{description}}" description s in
  let s := replace "{{skills}}" (experience_skills_text exp) s in
  mret (replace "{{highlights}}" (highlights_html T exp) s).

(** The loop over [tailored_resume["experience"]]. *)
Fixpoint experiences (T : Templates) (l : list Exp.t) : outcome string :=
  match l with
  | [] => mret EmptyString
  | exp :: l' =>
      it ← experience_item T exp;
      rest ← experiences T l';
      mret (it +:+ nl +:+ rest)
  end.

Definition skills_html (T : Templates) (skills : skills_field) : string :=
  match skills with
  | SkillsDict d =>
      concat_str
        (map (fun '(category, skill_list) =>
                let s := skill_section_item_template T in
                let s := replace "{{category}}" category s in
                replace "{{skills}}" (skill_value_text skill_list) s +:+ nl) d)
  | _ => EmptyString
  end.

Definition skills_section (T : Templates) (r : Resume.t) : string :=
  replace "{{skills}}" (skills_html T (Resume.skills r)) (skills_section_template T).

(** Lines 372-384. *)
Definition education_section (T : Templates) (r : Resume.t) : string :=
  match Resume.education r with
  | EducationDict education =>
      let degree := get "Bachelor of Information Technology" (Edu.degree education) in
      let university := get "James Cook University, Singapore" (Edu.university education) in
      let period := get "Jan 2009 - Dec 2011" (Edu.period education) in
      let description :=
        get "Major concentration in Software Development, Algorithm Design, and Database Management Systems with distinction."
            (Edu.description education) in
      let s := education_section_template T in
      let s := replace "{{degree}}" degree s in
      let s := replace "{{university}}" university s in
      let s := replace "{{period}}" period s in
      replace "{{description}}" description s
  | _ => education_section_template T
  end.

Definition reference_item (T : Templates) (ref : Ref.t) : string :=
  let s := reference_item_template T in
  let s := replace "{{name}}" (get "" (Ref.name ref)) s in
  let s := replace "{{text}}" (get "" (Ref.text ref)) s in
  replace "{{link}}" (get "#" (Ref.link ref)) s.

Definition references_section (T : Templates) (r : Resume.t) : string :=
  match Resume.references r with
  | Some (ref :: refs) =>
      replace "{{references}}"
        (concat_str (map (reference_item T) (ref :: refs)))
        (references_section_template T)
  | _ => EmptyString
  end.

(** The six splices into the top-level template (lines 400-405), given
    the experiences section. *)
Definition assemble (T : Templates) (r : Resume.t) (experiences_section : string) : string :=
  let s := template_content T in
  let s := replace "{{top_section}}" (top_section T r) s in
  let s := replace "{{summary_section}}" (summary_section T r) s in
  let s := replace "{{references_section}}" (references_section T r) s in
  let s := replace "{{experiences_section}}" experiences_section s in
  let s := replace "{{skills_section}}" (skills_section T r) s in
  replace "{{education_section}}" (education_section T r) s.

Definition markdown_of (T : Templates) (r : Resume.t) : outcome string :=
  exps ← experiences T (Resume.experience r);
  mret (assemble T r (replace "{{experiences}}" exps (experiences_section_template T))).

(** ** Path helpers *)

(** [os.path.basename]: what follows the last ["/"]. *)
Fixpoint basename (p : string) : string :=
  match p with
  | EmptyString => EmptyString
  | String c p' =>
      if Ascii.eqb c "/" then basename p'
      else if contains "/" p' then basename p'
      else p
  end.

(** The cut at the last occurrence of a character: the text before it
    and the text after it. *)
Fixpoint rpartition_char (x : ascii) (s : string) : option (string * string) :=
  match s with
  | EmptyString => None
  | String c s' =>
      match rpartition_char x s' with
      | Some (a, b) => Some (String c a, b)
      | None => if Ascii.eqb c x then Some (EmptyString, s') else None
      end
  end.

Fixpoint all_dots (s : string) : bool :=
  match s with
  | EmptyString => true
  | String c s' => Ascii.eqb c "." && all_dots s'
  end.

(** [os.path.splitext(name)[0]] on a name without ["/"]: the extension
    starts at the last dot unless only dots precede it. *)
Definition splitext_root (name : string) : string :=
  match rpartition_char "." name with
  | Some (root, _) => if all_dots root then name else root
  | None => name
  end.

(** ** job_analysis.py: helpers of the cover letter and the answers *)

(** The skills summary both prompt builders compute (lines 133-147 and
    250-264). *)
Definition prompt_skills_text (skills : skills_field) : string :=
  match skills with
  | SkillsDict d =>
      join nl (map (fun '(category, skill_list) =>
                      category +:+ ": " +:+ skill_value_text skill_list) d)
  | SkillsList l => join ", " l
  | SkillsText s => s
  end.

(** Lines 150-156. *)
Definition experience_highlights (experience : list Exp.t) : list string :=
  flat_map (fun exp =>
              match Exp.highlights exp with Some hs => hs | None => [] end
              ++ match Exp.summary exp with Some s => [s] | None => [] end)
           experience.

(** Lines 270-283: one entry of [experience_text]. *)
Definition experience_info (exp : Exp.t) : string :=
  join nl
    (["Position: " +:+ get "" (Exp.title exp);
      "Company: " +:+ get "" (Exp.company exp);
      "Period: " +:+ get "" (Exp.period exp)]
     ++ match Exp.summary exp with Some s => ["Summary: " +:+ s] | None => [] end
     ++ match Exp.highlights exp with
        | Some (h :: hs) => "Highlights:" :: map (fun highlight => "- " +:+ highlight) (h :: hs)
        | _ => []
        end).

(** [re.findall(r'```(?:markdown)?(.*?)```', text, re.DOTALL)], first
    group of the first match: the leftmost fence opens, an immediately
    following [markdown] is skipped, the next fence closes.  [None] when
    there is no match. *)
Definition first_code_block (text : string) : option string :=
  match partition fence text with
  | Some (_, rest) =>
      let rest := if startswith "markdown" rest then drop_str 8 rest else rest in
      match partition fence rest with
      | Some (body, _) => Some body
      | None => None
      end
  | None => None
  end.

(** Lines 197-204. *)
Definition clean_cover_letter (text : string) : string :=
  if contains fence text then
    match first_code_block text with
    | Some body => strip body
    | None => text
    end
  else text.

(** Lines 211-215: the file prefix from the [timestamp] argument, which
    the endpoint uses to pass a template name. *)
Definition cover_letter_prefix (timestamp : string) : string :=
  if truthy timestamp && negb (startswith "2" timestamp)
  then timestamp +:+ "_cover_letter"
  else if truthy timestamp then "cover_letter_" +:+ timestamp
  else "cover_letter".

(** main.py line 187. *)
Definition template_name_of (template : option string) : string :=
  match template with
  | Some t => if truthy t then splitext_root (basename t) else "default"
  | None => "default"
  end.

(** ** main.py: requests and responses *)

Record JobSubmission : Type := MkJobSubmission {
  job_description : string;
  questions : option (list string);
  template : option string;
  return_json : option bool
}.

Inductive response : Type :=
  | Message (msg : string)
  | Token (token username : string)
  | TailoredResumeResponse (resume_url : string) (cover_letter_url : option string)
      (answers : option (list string)) (json_path text_path : option string)
  | FileResponse (path : string) (filename : option string) (inline : bool)
  | TemplateList (names : list string)
  | CoverLetterContent (content : string)
  | HTTPException (status_code : nat) (detail : string).

Inductive route : Type :=
  | ReadRoot
  | Signin (username password : string)
  | TailorResume (job_data : JobSubmission)
  | DownloadResume (filename : string) (mode : option string)
  | DownloadCoverLetter (filename : string) (mode : option string)
  | GetTemplates
  | GetCoverLetterContent (filename : string).

(** A request: the bearer credentials of its [Authorization] header, if
    any, and the route with its parameters. *)
Record request : Type := MkRequest {
  authorization : option string;
  target : route
}.

(** ** A reference JSON decoder

    [json.loads] is a parameter of the service.  To run the service on
    concrete responses, [JsonRef.loads] decodes the fragment of JSON
    without fractions, exponents and [\u] escapes the way [json.loads]
    does: surrounding whitespace is skipped, an object keeps the last value
    of a repeated key, trailing text is an error. *)

Module JsonRef.

Definition is_ws (c : ascii) : bool :=
  let n := nat_of_ascii c in (n =? 32) || (n =? 9) || (n =? 10) || (n =? 13).

Fixpoint skip_ws (s : string) : string :=
  match s with
  | String c s' => if is_ws c then skip_ws s' else s
  | EmptyString => EmptyString
  end.

Definition digit_of (c : ascii) : option Z :=
  let n := nat_of_ascii c in
  if (48 <=? n) && (n <=? 57) then Some (Z.of_nat (n - 48)) else None.

Fixpoint digits (acc : Z) (s : string) : Z * string :=
  match s with
  | String c s' =>
      match digit_of c with
      | Some d => digits (10 * acc + d) s'
      | None => (acc, s)
      end
  | EmptyString => (acc, s)
  end.

(** A float continues with [.], [e] or [E]: outside the fragment. *)
Definition continues_float (s : string) : bool :=
  match s with
  | String c _ => Ascii.eqb c "." || Ascii.eqb c "e" || Ascii.eqb c "E"
  | EmptyString => false
  end.

(** An integer without a leading zero, after an optional sign. *)
Definition number (negative : bool) (s : string) : option (pyval * string) :=
  match s with
  | String c s' =>
      match digit_of c with
      | Some d =>
          let '(n, rest) := if Z.eqb d 0 then (0%Z, s') else digits d s' in
          if continues_float rest then None
          else Some (PInt (if negative then Z.opp n else n), rest)
      | None => None
      end
  | EmptyString => None
  end.

Definition unescape (c : ascii) : option ascii :=
  let n := nat_of_ascii c in
  if (n =? 34) || (n =? 92) || (n =? 47) then Some c
  else if n =? 110 then Some (ascii_of_nat 10)
  else if n =? 116 then Some (ascii_of_nat 9)
  else if n =? 114 then Some (ascii_of_nat 13)
  else if n =? 98 then Some (ascii_of_nat 8)
  else if n =? 102 then Some (ascii_of_nat 12)
  else None.

(** The characters of a string literal after its opening quote. *)
Fixpoint chars (s : string) : option (string * string) :=
  match s with
  | EmptyString => None
  | String c s' =>
      let n := nat_of_ascii c in
      if n =? 34 then Some (EmptyString, s')
      else if n <? 32 then None
      else if n =? 92 then
        match s' with
        | String e s'' =>
            match unescape e, chars s'' with
            | Some u, Some (body, rest) => Some (String u body, rest)
            | _, _ => None
            end
        | EmptyString => None
        end
      else
        match chars s' with
        | Some (body, rest) => Some (String c body, rest)
        | None => None
        end
  end.

(** [d[key] = v] on an insertion-ordered mapping. *)
Fixpoint dict_set (key : string) (v : pyval) (d : list (string * pyval)) : list (string * pyval) :=
  match d with
  | [] => [(key, v)]
  | (k, x) :: d' => if String.eqb k key then (k, v) :: d' else (k, x) :: dict_set key v d'
  end.

Definition next_is (code : nat) (s : string) : option string :=
  match skip_ws s with
  | String c s' => if nat_of_ascii c =? code then Some s' else None
  | EmptyString => None
  end.

Fixpoint value (fuel : nat) (s : string) : option (pyval * string) :=
  match fuel with
  | O => None
  | S fuel' =>
      match skip_ws s with
      | EmptyString => None
      | String c r =>
          let n := nat_of_ascii c in
          if n =? 110 then
            if startswith "ull" r then Some (PNone, drop_str 3 r) else None
          else if n =? 116 then
            if startswith "rue" r then Some (PBool true, drop_str 3 r) else None
          else if n =? 102 then
            if startswith "alse" r then Some (PBool false, drop_str 4 r) else None
          else if n =? 34 then
            match chars r with
            | Some (body, rest) => Some (PStr body, rest)
            | None => None
            end
          else if n =? 45 then number true r
          else if n =? 91 then
            match next_is 93 r with
            | Some rest => Some (PList [], rest)
            | None => elements fuel' [] r
            end
          else if n =? 123 then
            match next_is 125 r with
            | Some rest => Some (PDict [], rest)
            | None => members fuel' [] r
            end
          else number false (String c r)
      end
  end
with elements (fuel : nat) (acc : list pyval) (s : string) : option (pyval * string) :=
  match fuel with
  | O => None
  | S fuel' =>
      match value fuel' s with
      | Some (v, rest) =>
          match next_is 44 rest with
          | Some rest' => elements fuel' (acc ++ [v]) rest'
          | None =>
              match next_is 93 rest with
              | Some rest' => Some (PList (acc ++ [v]), rest')
              | None => None
              end
          end
      | None => None
      end
  end
with members (fuel : nat) (acc : list (string * pyval)) (s : string) : option (pyval * string) :=
  match fuel with
  | O => None
  | S fuel' =>
      match next_is 34 s with
      | Some r =>
          match chars r with
          | Some (key, rest) =>
              match next_is 58 rest with
              | Some rest' =>
                  match value fuel' rest' with
                  | Some (v, rest'') =>
                      match next_is 44 rest'' with
                      | Some more => members fuel' (dict_set key v acc) more
                      | None =>
                          match next_is 125 rest'' with
                          | Some after => Some (PDict (dict_set key v acc), after)
                          | None => None
                          end
                      end
                  | None => None
                  end
              | None => None
              end
          | None => None
          end
      | None => None
      end
  end.

Definition loads (s : string) : option pyval :=
  match value (2 * String.length s + 2) s with
  | Some (v, rest) =>
      match skip_ws rest with
      | EmptyString => Some v
      | _ => None
      end
  | None => None
  end.

(** A compact encoder, inverse to [loads] on the fragment. *)
Fixpoint escape (s : string) : string :=
  match s with
  | EmptyString => EmptyString
  | String c s' =>
      let n := nat_of_ascii c in
      if (n =? 34) || (n =? 92) then String (ascii_of_nat 92) (String c (escape s'))
      else if n =? 10 then String (ascii_of_nat 92) (String "n" (escape s'))
      else String c (escape s')
  end.

Definition quoted (s : string) : string := dquote +:+ escape s +:+ dquote.

Definition decimal (z : Z) : string :=
  NilEmpty.string_of_int (Z.to_int z).

Fixpoint dumps (v : pyval) : string :=
  match v with
  | PNone => "null"
  | PBool true => "true"
  | PBool false => "false"
  | PInt z => decimal z
  | PStr s => quoted s
  | PList l => "[" +:+ join ", " (map dumps l) +:+ "]"
  | PDict d =>
      "{" +:+ join ", " (map (fun kv => quoted (fst kv) +:+ ": " +:+ dumps (snd kv)) d)
      +:+ "}"
  end.

End JsonRef.

(** ** Notions used to state the properties *)

(** [first_at sep a]: in [a ++ sep ++ ...] the leftmost occurrence of
    [sep] is the one right after [a] (no occurrence starts inside [a]). *)
Fixpoint first_at (sep a : string) : bool :=
  match a with
  | EmptyString => true
  | String c a' => negb (startswith sep (a +:+ sep)) && first_at sep a'
  end.

(** The company split as the specification words it: the company is what
    precedes the first ["("], the location what lies between the first
    ["("] and the last [")"], both trimmed; without parentheses the string
    is kept whole and the location is empty. *)
Definition split_company_first_last (company : string) : string * string :=
  match partition "(" company with
  | Some (before, rest) =>
      match rpartition_char ")" rest with
      | Some (inner, _) => (strip before, strip inner)
      | None => (company, EmptyString)
      end
  | None => (company, EmptyString)
  end.

(** What follows the name in [text_content]. *)
Definition after_name (r : Resume.t) : list string := tail (text_content r).

(** The routes whose endpoints declare [Depends(get_current_user)]. *)
Definition protected (t : route) : bool :=
  match t with
  | TailorResume _ | GetTemplates | GetCoverLetterContent _ => true
  | _ => false
  end.


Definition set_education (r : Resume.t) (education : education_field) : Resume.t :=
  Resume.Make (Resume.name r) (Resume.contact r) (Resume.summary r)
    (Resume.experience r) (Resume.skills r) education (Resume.references r).


(** *** Templates as text and placeholders *)

Definition is_brace (c : ascii) : bool := Ascii.eqb c "{" || Ascii.eqb c "}".

(** No ["{"] and no ["}"] in the string. *)
Fixpoint brace_free (s : string) : bool :=
  match s with
  | EmptyString => true
  | String c s' => negb (is_brace c) && brace_free s'
  end.

(** The token a fragment template holds for the placeholder [name]. *)
Definition placeholder (name : string) : string := "{{" +:+ name +:+ "}}".

(** A fragment template seen as a sequence of literal text and
    placeholders. *)
Inductive segment : Type :=
  | Lit (text : string)
  | Hole (name : string).

Fixpoint render (segs : list segment) : string :=
  match segs with
  | [] => EmptyString
  | Lit text :: segs' => text +:+ render segs'
  | Hole name :: segs' => placeholder name +:+ render segs'
  end.

(** Literal text is free of braces; a placeholder carries one of the
    [allowed] names. *)
Definition segment_ok (allowed : list string) (sg : segment) : bool :=
  match sg with
  | Lit text => brace_free text
  | Hole name => brace_free name && existsb (String.eqb name) allowed
  end.

Definition segments_ok (allowed : list string) (segs : list segment) : bool :=
  forallb (segment_ok allowed) segs.

(** [fills allowed s]: [s] is such a sequence, its placeholders among
    [allowed]. *)
Definition fills (allowed : list string) (s : string) : Prop :=
  exists segs, s = render segs /\ segments_ok allowed segs = true.

(** Substituting a value for one placeholder of the sequence. *)
Definition subst_hole (name value : string) (segs : list segment) : list segment :=
  map (fun sg => match sg with
                 | Hole m => if String.eqb m name then Lit value else sg
                 | Lit _ => sg
                 end) segs.

(** The thirteen fragment templates as sequences. *)
Record TemplateSegments : Type := MkSegments {
  main_segments : list segment;
  top_segments : list segment;
  summary_segments : list segment;
  references_segments : list segment;
  reference_item_segments : list segment;
  experiences_segments : list segment;
  experience_item_segments : list segment;
  highlights_segments : list segment;
  highlight_item_segments : list segment;
  skills_segments : list segment;
  skill_item_segments : list segment;
  education_segments : list segment;
  location_segments : list segment
}.

Definition render_templates (S : TemplateSegments) : Templates :=
  MkTemplates
    (render (main_segments S)) (render (top_segments S))
    (render (summary_segments S)) (render (references_segments S))
    (render (reference_item_segments S)) (render (experiences_segments S))
    (render (experience_item_segments S)) (render (highlights_segments S))
    (render (highlight_item_segments S)) (render (skills_segments S))
    (render (skill_item_segments S)) (render (education_segments S))
    (render (location_segments S)).

(** Every fragment holds only the placeholders the renderer substitutes
    in it. *)
Definition templates_ok (S : TemplateSegments) : bool :=
  segments_ok ["top_section"; "summary_section"; "references_section";
               "experiences_section"; "skills_section"; "education_section"]
              (main_segments S)
  && segments_ok ["name"; "location_section"; "contacts"] (top_segments S)
  && segments_ok ["summary"] (summary_segments S)
  && segments_ok ["references"] (references_segments S)
  && segments_ok ["name"; "text"; "link"] (reference_item_segments S)
  && segments_ok ["experiences"] (experiences_segments S)
  && segments_ok ["position"; "company_name"; "location"; "from"; "to";
                  "description"; "skills"; "highlights"]
                 (experience_item_segments S)
  && segments_ok ["highlights"] (highlights_segments S)
  && segments_ok ["highlight"] (highlight_item_segments S)
  && segments_ok ["skills"] (skills_segments S)
  && segments_ok ["category"; "skills"] (skill_item_segments S)
  && segments_ok ["degree"; "university"; "period"; "description"]
                 (education_segments S)
  && segments_ok ["location"] (location_segments S).

(** A resume none of whose strings holds a brace and whose education is
    a mapping. *)
Definition plain_opt (o : option string) : bool :=
  match o with Some s => brace_free s | None => true end.

Definition plain_skill_value (v : skill_value) : bool :=
  match v with
  | SkillList l => forallb brace_free l
  | SkillText s => brace_free s
  end.

Definition plain_exp (e : Exp.t) : bool :=
  plain_opt (Exp.title e) && plain_opt (Exp.company e) && plain_opt (Exp.period e)
  && plain_opt (Exp.summary e)
  && match Exp.highlights e with Some l => forallb brace_free l | None => true end
  && match Exp.skills e with Some v => plain_skill_value v | None => true end.

Definition plain_ref (ref : Ref.t) : bool :=
  plain_opt (Ref.name ref) && plain_opt (Ref.text ref) && plain_opt (Ref.link ref).

Definition plain_pair (kv : string * string) : bool :=
  brace_free (fst kv) && brace_free (snd kv).

Definition plain_skills (skills : skills_field) : bool :=
  match skills with
  | SkillsDict d => forallb (fun kv => brace_free (fst kv) && plain_skill_value (snd kv)) d
  | _ => true
  end.

Definition plain_education (education : education_field) : bool :=
  match education with
  | EducationDict e =>
      plain_opt (Edu.degree e) && plain_opt (Edu.university e)
      && plain_opt (Edu.period e) && plain_opt (Edu.description e)
  | _ => false
  end.

Definition plain_resume (r : Resume.t) : bool :=
  brace_free (Resume.name r)
  && forallb plain_pair (Resume.contact r)
  && brace_free (Resume.summary r)
  && forallb plain_exp (Resume.experience r)
  && plain_skills (Resume.skills r)
  && plain_education (Resume.education r)
  && match Resume.references r with Some l => forallb plain_ref l | None => true end.

(** The four keys of an education mapping the markdown renderer reads,
    with the field and the fallback of each (lines 375-378). *)
Inductive edu_key : Type := KDegree | KUniversity | KPeriod | KDescription.



Definition edu_key_default (k : edu_key) : string :=
  match k with
  | KDegree => "Bachelor of Information Technology"
  | KUniversity => "James Cook University, Singapore"
  | KPeriod => "Jan 2009 - Dec 2011"
  | KDescription =>
      "Major concentration in Software Development, Algorithm Design, and Database Management Systems with distinction."
  end.




(** No proper non-empty suffix of [pat] is a prefix of [pat]: two
    occurrences of [pat] cannot overlap. *)
Definition no_border (pat : string) : bool :=
  forallb (fun k => negb (startswith (drop_str k pat) pat))
          (seq 1 (String.length pat - 1)).

(** The last character of [s] is [c]. *)
Fixpoint ends_with_char (c : ascii) (s : string) : bool :=
  match s with
  | EmptyString => false
  | String d EmptyString => Ascii.eqb d c
  | String _ s' => ends_with_char c s'
  end.

(** ** Reading a decoded document as a resume record

    The reference instance of the service's [resume_of]: keys the
    renderers index with [d[key]] are required, keys they read with
    [.get] or guard with [in] are optional, and a value of another shape
    than the renderers handle is a [TypeError]. *)

Module ResumeRef.

Fixpoint dict_get (key : string) (d : list (string * pyval)) : option pyval :=
  match d with
  | [] => None
  | (k, v) :: d' => if String.eqb k key then Some v else dict_get key d'
  end.

Definition as_str (v : pyval) : outcome string :=
  match v with PStr s => Return s | _ => Raise TypeError end.

Fixpoint all_of {A B : Type} (f : A -> outcome B) (l : list A) : outcome (list B) :=
  match l with
  | [] => Return []
  | x :: l' =>
      y ← f x;
      ys ← all_of f l';
      mret (y :: ys)
  end.

Definition required (key : string) (d : list (string * pyval)) : outcome pyval :=
  match dict_get key d with Some v => Return v | None => Raise (KeyError key) end.

Definition optional {A : Type} (f : pyval -> outcome A) (key : string)
    (d : list (string * pyval)) : outcome (option A) :=
  match dict_get key d with
  | Some v => a ← f v; mret (Some a)
  | None => Return None
  end.

Definition as_strs (v : pyval) : outcome (list string) :=
  match v with PList l => all_of as_str l | _ => Raise TypeError end.

Definition as_skill_value (v : pyval) : outcome skill_value :=
  match v with
  | PList l => l' ← all_of as_str l; mret (SkillList l')
  | PStr s => Return (SkillText s)
  | _ => Raise TypeError
  end.

Definition as_skills (v : pyval) : outcome skills_field :=
  match v with
  | PDict d =>
      d' ← all_of (fun kv => x ← as_skill_value (snd kv); mret (fst kv, x)) d;
      mret (SkillsDict d')
  | PList l => l' ← all_of as_str l; mret (SkillsList l')
  | PStr s => Return (SkillsText s)
  | _ => Raise TypeError
  end.

Definition as_edu (d : list (string * pyval)) : outcome Edu.t :=
  degree ← optional as_str "degree" d;
  university ← optional as_str "university" d;
  period ← optional as_str "period" d;
  description ← optional as_str "description" d;
  mret (Edu.Make degree university period description).

Definition as_education (v : pyval) : outcome education_field :=
  match v with
  | PDict d => e ← as_edu d; mret (EducationDict e)
  | PList l =>
      l' ← all_of (fun x => match x with
                            | PDict d => e ← as_edu d; mret (EduItemDict e)
                            | PStr s => Return (EduItemText s)
                            | _ => Raise TypeError
                            end) l;
      mret (EducationList l')
  | PStr s => Return (EducationText s)
  | _ => Raise TypeError
  end.

Definition as_exp (v : pyval) : outcome Exp.t :=
  match v with
  | PDict d =>
      title ← optional as_str "title" d;
      company ← optional as_str "company" d;
      period ← optional as_str "period" d;
      summary ← optional as_str "summary" d;
      highlights ← optional as_strs "highlights" d;
      skills ← optional as_skill_value "skills" d;
      mret (Exp.Make title company period summary highlights skills)
  | _ => Raise TypeError
  end.

Definition as_ref (v : pyval) : outcome Ref.t :=
  match v with
  | PDict d =>
      name ← optional as_str "name" d;
      text ← optional as_str "text" d;
      link ← optional as_str "link" d;
      mret (Ref.Make name text link)
  | _ => Raise TypeError
  end.

Definition as_contact (v : pyval) : outcome (list (string * string)) :=
  match v with
  | PDict d => all_of (fun kv => x ← as_str (snd kv); mret (fst kv, x)) d
  | _ => Raise TypeError
  end.

Definition as_list {A : Type} (f : pyval -> outcome A) (v : pyval) : outcome (list A) :=
  match v with PList l => all_of f l | _ => Raise TypeError end.

Definition resume_of (v : pyval) : outcome Resume.t :=
  match v with
  | PDict d =>
      name ← required "name" d ≫= as_str;
      contact ← required "contact" d ≫= as_contact;
      summary ← required "summary" d ≫= as_str;
      experience ← required "experience" d ≫= as_list as_exp;
      skills ← required "skills" d ≫= as_skills;
      education ← required "education" d ≫= as_education;
      references ← optional (as_list as_ref) "references" d;
      mret (Resume.Make name contact summary experience skills education references)
  | _ => Raise TypeError
  end.

End ResumeRef.

(** ** A concrete setting to run the service in *)

Module Sample.

Definition two_digits (n : nat) : string :=
  String (ascii_of_nat (48 + (n / 10) mod 10))
    (String (ascii_of_nat (48 + n mod 10)) EmptyString).

(** The environment is a count of oracle calls; the clock advances one
    second with each of them. *)
Definition clock (n : nat) : string := "20250301_0900" +:+ two_digits n.

Definition base_document : pyval :=
  PDict [("name", PStr "Ada Park");
         ("contact", PDict [("email", PStr "mailto:ada@example.org");
                            ("location", PStr "Singapore")]);
         ("summary", PStr "Backend engineer.");
         ("experience",
          PList [PDict [("title", PStr "Engineer");
                        ("company", PStr "Acme Corp (Remote)");
                        ("period", PStr "Jan 2020 - Mar 2022");
                        ("summary", PStr "Built services.");
                        ("highlights", PList [PStr "Cut latency"]);
                        ("skills", PList [PStr "Python"; PStr "AWS"])];
                 PDict [("title", PStr "Developer");
                        ("company", PStr "Initech");
                        ("period", PStr "2019")]]);
         ("skills", PDict [("Languages", PList [PStr "Python"; PStr "Go"])]);
         ("education", PDict [("degree", PStr "BSc Computing")])].

Definition base_resume : Resume.t :=
  Resume.Make "Ada Park"
    [("email", "mailto:ada@example.org"); ("location", "Singapore")]
    "Backend engineer."
    [Exp.Make (Some "Engineer") (Some "Acme Corp (Remote)") (Some "Jan 2020 - Mar 2022")
       (Some "Built services.") (Some ["Cut latency"]) (Some (SkillList ["Python"; "AWS"]));
     Exp.Make (Some "Developer") (Some "Initech") (Some "2019") None None None]
    (SkillsDict [("Languages", SkillList ["Python"; "Go"])])
    (EducationDict (Edu.Make (Some "BSc Computing") None None None))
    None.

(** Fragment templates in which every placeholder the renderer
    substitutes occurs once. *)
Definition templates : Templates :=
  MkTemplates
    "{{top_section}}{{summary_section}}{{references_section}}{{experiences_section}}{{skills_section}}{{education_section}}"
    "# {{name}}
{{location_section}}{{contacts}}
"
    "## Summary
{{summary}}
"
    "## References
{{references}}"
    "- {{name}}: {{text}} ({{link}})
"
    "## Experience
{{experiences}}"
    "### {{position}}, {{company_name}} [{{location}}] {{from}} to {{to}}
{{description}}
Skills: {{skills}}
{{highlights}}"
    "<ul>{{highlights}}</ul>"
    "<li>{{highlight}}</li>"
    "## Skills
{{skills}}"
    "**{{category}}**: {{skills}}"
    "## Education
{{degree}}, {{university}}, {{period}}. {{description}}
"
    "{{location}} | ".

Definition package_files : gmap string string :=
  list_to_map
    [("resume_templates/base.json", JsonRef.dumps base_document);
     ("output_template.md", template_content templates);
     ("output_template/top_section.md", top_section_template templates);
     ("output_template/summary_section.md", summary_section_template templates);
     ("output_template/references_section.md", references_section_template templates);
     ("output_template/reference_item.md", reference_item_template templates);
     ("output_template/experiences_section.md", experiences_section_template templates);
     ("output_template/experience_item.md", experience_item_template templates);
     ("output_template/experience_highlights.md", experience_highlights_template templates);
     ("output_template/experience_highlight_item.md",
      experience_highlight_item_template templates);
     ("output_template/skills_section.md", skills_section_template templates);
     ("output_template/skill_section_item.md", skill_section_item_template templates);
     ("output_template/education_section.md", education_section_template templates);
     ("output_template/location_section.md", location_section_template templates)].

(** An oracle that answers every prompt with the same text. *)
Definition constant_oracle (reply : string) (n : nat) (prompt : string) : nat * outcome string :=
  (S n, Return reply).

(** An oracle that answers a tailoring request with the base document in
    a tagged block, a cover-letter request with a numbered draft and
    anything else with a numbered answer. *)
Definition oracle (n : nat) (prompt : string) : nat * outcome string :=
  (S n,
   Return
     (if contains "I need to tailor my resume" prompt
      then "Here is the tailored resume:" +:+ nl +:+ "```json" +:+ nl
           +:+ JsonRef.dumps base_document +:+ nl +:+ "```"
      else if contains "cover letter" prompt
      then "Dear Hiring Manager, this is draft " +:+ two_digits n +:+ "."
      else "  Answer " +:+ two_digits n +:+ "  ")).

(** A PDF engine that wraps the markdown it is given. *)
Definition markdown_pdf (toc_level : nat) (markdown css title author : string) : outcome string :=
  Return ("%PDF " +:+ title +:+ nl +:+ markdown).

(** A token decoder that knows one token. *)
Definition jwt_decode (token : string) : option (option string) :=
  if String.eqb token "token-of-ada" then Some (Some "ada") else None.

Definition users : list (string * string) := [("ada", "secret")].

Definition exn_str (e : exn) : string :=
  match e with
  | Exception msg => msg
  | FileNotFoundError path => "No such file or directory: " +:+ path
  | _ => "error"
  end.

(** The same templates as sequences of text and placeholders. *)
Definition segments : TemplateSegments :=
  MkSegments
    [Hole "top_section"; Hole "summary_section"; Hole "references_section";
     Hole "experiences_section"; Hole "skills_section"; Hole "education_section"]
    [Lit "# "; Hole "name"; Lit nl; Hole "location_section"; Hole "contacts"; Lit nl]
    [Lit "## Summary"; Lit nl; Hole "summary"; Lit nl]
    [Lit "## References"; Lit nl; Hole "references"]
    [Lit "- "; Hole "name"; Lit ": "; Hole "text"; Lit " ("; Hole "link"; Lit ")"; Lit nl]
    [Lit "## Experience"; Lit nl; Hole "experiences"]
    [Lit "### "; Hole "position"; Lit ", "; Hole "company_name"; Lit " [";
     Hole "location"; Lit "] "; Hole "from"; Lit " to "; Hole "to"; Lit nl;
     Hole "description"; Lit nl; Lit "Skills: "; Hole "skills"; Lit nl;
     Hole "highlights"]
    [Lit "<ul>"; Hole "highlights"; Lit "</ul>"]
    [Lit "<li>"; Hole "highlight"; Lit "</li>"]
    [Lit "## Skills"; Lit nl; Hole "skills"]
    [Lit "**"; Hole "category"; Lit "**: "; Hole "skills"]
    [Lit "## Education"; Lit nl; Hole "degree"; Lit ", "; Hole "university"; Lit ", ";
     Hole "period"; Lit ". "; Hole "description"; Lit nl]
    [Hole "location"; Lit " | "].

(** A summary that quotes a placeholder, and an education given as a
    list. *)
Definition quoting_resume : Resume.t :=
  Resume.Make "Ada Park" [("email", "mailto:ada@example.org")]
    "Backend engineer; see {{name}} above." [] (SkillsList []) 
    (EducationDict (Edu.Make (Some "BSc Computing") None None None)) None.

Definition listed_education_resume : Resume.t :=
  Resume.Make "Ada Park" [("email", "mailto:ada@example.org")]
    "Backend engineer." [] (SkillsList [])
    (EducationList [EduItemDict (Edu.Make (Some "BSc Computing") (Some "NUS") None None)])
    None.

(** Responses and inputs used in the runs below. *)
Definition job : string := "Senior Backend Engineer: Python, AWS".

Definition refusal : string := "I am sorry, I cannot produce a tailored resume.".

Definition fenced_prefix : string := "Here is the result:" +:+ nl.
Definition fenced_body : string := nl +:+ JsonRef.dumps base_document +:+ nl.
Definition fenced_suffix : string := nl +:+ "Let me know if it fits.".
Definition fenced_response : string :=
  fenced_prefix +:+ fence_json +:+ fenced_body +:+ fence +:+ fenced_suffix.

(** An object one of whose strings holds a fence. *)
Definition fence_note : pyval := PDict [("note", PStr "wrap code in ``` fences")].
Definition fence_note_response : string :=
  "```json" +:+ nl +:+ JsonRef.dumps fence_note +:+ nl +:+ "```".

(** Prose that mentions the tag before the block. *)
Definition tagged_prose_response : string :=
  "I put it in a ```json block: ```json" +:+ nl +:+ "{}" +:+ nl +:+ "```".

Definition three_questions : list string :=
  ["Why do you want this role?"; "What is your notice period?"; "Where are you based?"].

(** A tailoring request for the template [base.json] with three
    questions, and the worlds before and after serving it. *)
Definition tailor_request : request :=
  MkRequest (Some "token-of-ada")
    (TailorResume (MkJobSubmission job (Some three_questions) (Some "base.json") (Some true))).

Definition issue_token (e : nat) (username : string) : string := "token-of-" +:+ username.

(** An oracle that is out of service. *)
Definition failing_oracle (n : nat) (prompt : string) : nat * outcome string :=
  (S n, Raise (OracleError "service unavailable")).


End Sample.

(** ** The world a request runs in

    [files] is the output directory (path to content).  [env] stands for
    everything outside the process: the oracle service and the wall clock.
    Calling the oracle moves [env]; reading the clock does not. *)

Section Service.

Context {Env : Type}.

(** [model.generate_content(prompt).text]: the oracle may answer or fail. *)
Variable generate_content : Env -> string -> Env * outcome string.

(** [datetime.now().strftime("%Y%m%d_%H%M%S")]. *)
Variable now : Env -> string.

(** [json.loads]; [None] is [json.JSONDecodeError]. *)
Variable json_loads : string -> option pyval.

(** [json.dumps(v, indent=2)]. *)
Variable json_dumps_indent : pyval -> string.

Record world : Type := World {
  files : gmap string string;
  env : Env
}.

Definition M (A : Type) : Type := world -> world * outcome A.

Definition M_ret {A : Type} (a : A) : M A := fun w => (w, Return a).

Definition M_bind {A B : Type} (m : M A) (f : A -> M B) : M B :=
  fun w =>
    match m w with
    | (w', Return a) => f a w'
    | (w', Raise e) => (w', Raise e)
    end.

#[global] Instance M_mret : MRet M := @M_ret.
#[global] Instance M_mbind : MBind M := fun A B f m => M_bind m f.

Definition raise {A : Type} (e : exn) : M A := fun w => (w, Raise e).

Definition lift {A : Type} (o : outcome A) : M A := fun w => (w, o).

(** [try: body  except <selected exceptions>: handler]. *)
Definition try_except {A : Type} (body : M A) (select : exn -> bool)
    (handler : exn -> M A) : M A :=
  fun w =>
    match body w with
    | (w', Raise e) => if select e then handler e w' else (w', Raise e)
    | r => r
    end.

Definition is_JSONDecodeError (e : exn) : bool :=
  match e with JSONDecodeError => true | _ => false end.

(** [with open(path, "w") as f: f.write(content)]: creates the file or
    truncates and rewrites an existing one. *)
Definition write_file (path content : string) : M unit :=
  fun w => (World (<[path := content]> (files w)) (env w), Return tt).

Definition call_model (prompt : string) : M string :=
  fun w =>
    let '(e', r) := generate_content (env w) prompt in
    (World (files w) e', r).

Definition strftime_now : M string := fun w => (w, Return (now (env w))).

Definition loads (s : string) : M pyval :=
  match json_loads s with
  | Some v => M_ret v
  | None => raise JSONDecodeError
  end.

(** The files shipped next to the code ([os.path.dirname(__file__)]): the
    resume templates and the markdown fragment templates, by relative
    path.  They are only read. *)
Variable package_files : gmap string string.

(** [with open(os.path.join(os.path.dirname(__file__), rel), "r") as f:
    f.read()]. *)
Definition read_package_file (rel : string) : M string :=
  match package_files !! rel with
  | Some content => M_ret content
  | None => raise (FileNotFoundError rel)
  end.

(** [Path("output") / name]. *)
Definition output_path (name : string) : string := "output/" +:+ name.

(** *** job_analysis.py: analyze_job_description *)

Definition analysis_prompt (job_description : string) : string :=
  "
    Analyze the following job description and extract key information in a structured JSON format:

    JOB DESCRIPTION:
    "
  +:+ job_description
  +:+ "

    Please identify and return a JSON object with the following elements:
    1. job_title: The title of the job
    2. company_name: The name of the company (if available)
    3. key_responsibilities: A list of the main job responsibilities
    4. required_skills: A list of technical skills required for the job
    5. preferred_skills: A list of skills mentioned as preferred or a plus
    6. required_experience: Details about years of experience or specific experience required
    7. education_requirements: Any educational requirements mentioned
    8. keywords: A list of important keywords from the job description that should be included in a resume
    9. industry: The industry this job belongs to
    10. company_values: Any mentions of company culture or values

    Format your response as a valid JSON object without any additional text.
    ".

(** The [except json.JSONDecodeError] branch: a simplified structure with
    the raw text. *)
Definition raw_analysis_fallback (text : string) : pyval :=
  PDict [("raw_analysis", PStr text);
         ("job_title", PStr "Unknown");
         ("required_skills", PList []);
         ("keywords", PList [])].

Definition analyze_job_description (job_description : string) : M pyval :=
  text ← call_model (analysis_prompt job_description);
  try_except
    (json_str ← lift (extract_json_str text);
     loads json_str)
    is_JSONDecodeError
    (fun _ => M_ret (raw_analysis_fallback text)).

(** *** resume_tailor.py: tailor_resume *)

Definition tailoring_prompt (job_description resume_json : string) : string :=
  "
    I need to tailor my resume for a specific job. I'll provide my current resume structure in JSON format and the job description.
    
    JOB DESCRIPTION:
    "
  +:+ job_description
  +:+ "
    
    MY CURRENT RESUME (in JSON format):
    "
  +:+ resume_json
  +:+ "
    
    Based on the job description, please create a tailored version of my resume by modifying the following sections:
    
    1. Summary: Rewrite to emphasize skills and experiences relevant to this specific job
       - Use <strong>bold</strong> formatting for technical skills (e.g. <strong>JavaScript</strong>, <strong>Python</strong>, <strong>AWS</strong>, etc)
       - Make the summary concise and focused on the job requirements
    
    2. Experience: For each experience entry:
       - Keep the company name and period the same
       - Adjust the job title to match the job description
       - Tailor the summary to match the job description, to highlight relevant achievements, using markdown for technical terms
       - The 'highlights' section is optional
       - If you include highlights, use markdown to bold important technical terms
       - re-write and tailor each highlight to better match the job requirements
       - Adjust the skills to better match the job requirements (add or remove skills as needed)
    
    3. Skills: Reorganize and emphasize skills relevant to the job
       - Prioritize skills mentioned in the job description
       - Filter out unrelevant skills
       - Keep the same structure but adjust the content
    
    Do NOT modify:
    - Name and contact information
    - Company names and dates
    - Education section structure
    
    Important: Use <strong>bold</strong> syntax directly in your text for all technical terms and skills (like <strong>JavaScript</strong>, <strong>Python</strong>, <strong>AWS</strong>, etc). And convert all markdown syntax(**bold**) to <strong>bold</strong> format. And NEVER use junior for any title.
    
    Return ONLY a JSON object with the same structure as the input but with tailored content. 
    Do not include any explanations or additional text outside the JSON.
    ".


Definition tailor_resume (job_description template : string) : M (string * pyval) :=
  content ← read_package_file template;
  resume_structure ← loads content;
  text ← call_model
    (tailoring_prompt job_description (json_dumps_indent resume_structure));
  try_except
    (json_str ← lift (extract_json_str text);
     tailored_resume ← loads json_str;
     timestamp ← strftime_now;
     let json_file_path := output_path ("tailored_resume_" +:+ timestamp +:+ ".json") in
     write_file json_file_path (json_dumps_indent tailored_resume);;
     M_ret (json_file_path, tailored_resume))
    is_JSONDecodeError
    (fun _ =>
     timestamp ← strftime_now;
     let raw_file_path := output_path ("tailored_resume_raw_" +:+ timestamp +:+ ".txt") in
     write_file raw_file_path text;;
     raise (Exception ("Failed to parse tailored resume as JSON. Raw output saved to "
                       +:+ raw_file_path))).

(** *** resume_tailor.py: convert_json_to_text

    The renderers are given the resume object itself; their variant that
    is given a path and loads the JSON file first is left out. *)

Definition convert_json_to_text (tailored_resume : Resume.t) : M (string * string) :=
  let full_text := join nl (text_content tailored_resume) in
  timestamp ← strftime_now;
  let text_file_path := output_path ("tailored_resume_text_" +:+ timestamp +:+ ".txt") in
  write_file text_file_path full_text;;
  mret (text_file_path, full_text).

(** *** resume_tailor.py: convert_json_to_markdown *)

Definition load_template (filename : string) : M string :=
  read_package_file ("output_template/" +:+ filename).

Definition load_templates : M Templates :=
  template_content ← read_package_file "output_template.md";
  top_section_template ← load_template "top_section.md";
  summary_section_template ← load_template "summary_section.md";
  references_section_template ← load_template "references_section.md";
  reference_item_template ← load_template "reference_item.md";
  experiences_section_template ← load_template "experiences_section.md";
  experience_item_template ← load_template "experience_item.md";
  experience_highlights_template ← load_template "experience_highlights.md";
  experience_highlight_item_template ← load_template "experience_highlight_item.md";
  skills_section_template ← load_template "skills_section.md";
  skill_section_item_template ← load_template "skill_section_item.md";
  education_section_template ← load_template "education_section.md";
  location_section_template ← load_template "location_section.md";
  mret (MkTemplates template_content top_section_template summary_section_template
          references_section_template reference_item_template
          experiences_section_template experience_item_template
          experience_highlights_template experience_highlight_item_template
          skills_section_template skill_section_item_template
          education_section_template location_section_template).

Definition convert_json_to_markdown (tailored_resume : Resume.t) : M string :=
  T ← load_templates;
  template_content ← lift (markdown_of T tailored_resume);
  timestamp ← strftime_now;
  let markdown_file_path :=
    output_path ("tailored_resume_markdown_" +:+ timestamp +:+ ".md") in
  write_file markdown_file_path template_content;;
  mret template_content.

(** *** markdown_utils.py *)

(** The PDF engine: [MarkdownPdf(toc_level)], one section with the user
    CSS, title and author, rendered to the bytes [pdf.save] writes. *)
Variable markdown_pdf : nat -> string -> string -> string -> string -> outcome string.

Definition document_css : string :=
  "
        @page {
            margin: 1in 1in 1in 1in;
        }

        body {
            font-family: 'Helvetica', 'Arial', sans-serif;
            line-height: 1.6;
            color: #333333;
            font-size: 11pt;
        }

        a {
            color: #0066cc;
            text-decoration: none;
        }

        h1, h2, h3, h4 {
            color: #222222;
            margin-top: 1.5em;
            margin-bottom: 0.5em;
        }

        h1 {
            font-size: 20pt;
            text-align: center;
        }

        h2 {
            font-size: 16pt;
            border-bottom: 1px solid #cccccc;
            padding-bottom: 0.2em;
        }

        h3 {
            font-size: 14pt;
        }

        p {
            margin-top: 0.5em;
            margin-bottom: 0.5em;
        }

        ul {
            margin-top: 0.5em;
            margin-bottom: 0.5em;
        }

        li {
            margin-bottom: 0.3em;
        }

        blockquote {
            margin: 1em 0;
            padding-left: 1em;
            border-left: 4px solid #dddddd;
            color: #555555;
        }

        pre {
            background-color: #f5f5f5;
            padding: 0.5em;
            border-radius: 4px;
            overflow-x: auto;
        }

        code {
            font-family: 'Courier New', monospace;
            background-color: #f5f5f5;
            padding: 2px 4px;
            border-radius: 3px;
        }
        ".

Definition resume_css : string :=
  "
        :root {
            --primary-color: #0A3662;
            --secondary-color: #0366d6;
            --text-color: #333333;
            --light-gray: #666666;
            --border-color: #dddddd;
        }

        @page {
            margin: 0.75in 0.75in 0.5in 0.75in;
        }

        body {
            font-family: 'Helvetica', 'Arial', sans-serif;
            line-height: 1.5;
            color: var(--text-color);
            font-size: 10pt;
        }

        /* Center text alignment */
        .text-center {
            text-align: center;
        }

        /* Header styling */
        h1 {
            font-size: 2.5em;
            color: var(--primary-color);
            margin-bottom: 0.5em;
            font-weight: bold;
            text-align: center;
        }

        h2 {
            font-size: 1.5em;
            color: var(--primary-color);
            border-bottom: 1.5px solid var(--primary-color);
            padding-bottom: 0.2em;
            margin: 1.5em 0 0.5em 0;
        }

        h3 {
            font-size: 1.2em;
            color: var(--primary-color);
            margin: 0.8em 0 0.3em 0;
        }

        /* Links */
        a {
            color: var(--secondary-color);
            text-decoration: none;
        }

        /* Text styling */
        p {
            margin: 0.5em 0;
        }

        em {
            font-style: italic;
            color: var(--light-gray);
        }

        strong {
            font-weight: bold;
        }

        /* Summary section */
        .summary {
            border-left: 3px solid var(--primary-color);
            padding-left: 1em;
            margin: 1em 0;
        }

        /* Experience section */
        .experience-entry {
            margin-bottom: 1.5em;
        }

        .job-title {
            color: var(--primary-color);
            margin-bottom: 0.5em;
        }

        .job-meta {
            color: var(--light-gray);
            margin: 0.2em 0;
        }

        .job-location {
            font-weight: 500;
        }

        /* List styling */
        ul {
            margin: 0.5em 0;
            padding-left: 1.5em;
        }

        li {
            margin-bottom: 0.3em;
        }

        /* Skills section */
        .skills-grid {
            display: grid;
            grid-template-columns: repeat(2, 1fr);
            gap: 1em;
            margin: 1em 0;
        }

        .skill-category {
            border: 1px solid var(--border-color);
            padding: 1em;
            border-radius: 4px;
        }

        /* Contact section */
        .contact-links {
            display: flex;
            justify-content: center;
            margin: 1em 0;
        }

        .contact-link {
            margin: 0 10px;
        }
        ".

(** [pdf.save(output_path)]. *)
Definition save_pdf (toc_level : nat) (markdown css title author output_path : string) : M string :=
  bytes ← lift (markdown_pdf toc_level markdown css title author);
  write_file output_path bytes;;
  mret output_path.

Definition generate_pdf_from_markdown (markdown_content : string)
    (output_path_arg : option string) : M string :=
  pdf_path ← match output_path_arg with
             | Some p => mret p
             | None =>
                 timestamp ← strftime_now;
                 mret (output_path ("document_" +:+ timestamp +:+ ".pdf"))
             end;
  let markdown_path := replace ".pdf" ".md" pdf_path in
  write_file markdown_path markdown_content;;
  save_pdf 2 markdown_content document_css "Document" "Resumer Application" pdf_path.

Definition generate_pdf_from_json (resume_data : Resume.t)
    (output_path_arg : option string) : M string :=
  markdown_content ← convert_json_to_markdown resume_data;
  pdf_path ← match output_path_arg with
             | Some p => mret p
             | None =>
                 timestamp ← strftime_now;
                 mret (output_path ("tailored_resume_" +:+ timestamp +:+ ".pdf"))
             end;
  let markdown_path := replace ".pdf" ".md" pdf_path in
  write_file markdown_path markdown_content;;
  save_pdf 3 markdown_content resume_css
    ("Resume - " +:+ Resume.name resume_data) (Resume.name resume_data) pdf_path.

(** *** job_analysis.py: generate_cover_letter *)

(** [json.dumps(v)]. *)
Variable json_dumps : pyval -> string.

Definition cover_letter_prompt (name contact_json summary skills_text highlights_json job_description : string) : string :=
  "
    I need to create a professional cover letter for a job application. I'll provide my resume information and the job description.
    
    CANDIDATE INFORMATION:
    Name: "
  +:+ name
  +:+ "
    Contact: "
  +:+ contact_json
  +:+ "
    Professional Summary: "
  +:+ summary
  +:+ "
    Key Skills: "
  +:+ skills_text
  +:+ "
    Experience Highlights: 
    "
  +:+ highlights_json
  +:+ "
    
    JOB DESCRIPTION:
    "
  +:+ job_description
  +:+ "
    
    Please write a professional, personalized cover letter that:
    1. Addresses the hiring manager respectfully (use "
  +:+ dquote
  +:+ "Dear Hiring Manager"
  +:+ dquote
  +:+ " if no specific name)
    2. Introduces myself and states the position I'm applying for
    3. Explains why I'm interested in the role and company
    4. Highlights 2-3 of my most relevant skills/experiences for this specific job
    5. Connects my experience to the job requirements
    6. Includes a strong closing paragraph with a call to action
    7. Uses a professional sign-off with my name
    
    The cover letter should be 3-4 paragraphs, concise but persuasive, and demonstrate that I'm the right fit for this role.
    
    FORMAT REQUIREMENTS:
    - Use proper Markdown syntax throughout
    - Put the date in the top-right corner in italics
    - Bold all technical skills and important terms (like **React**, **AWS**, **Python**, **project management**, etc.)
    - Use a clean, professional layout with appropriate spacing
    - Format my name at the bottom with my title underneath
    
    Return ONLY the cover letter text with Markdown formatting.
    ".

Definition generate_cover_letter (resume_data : Resume.t) (job_description : string)
    (timestamp_arg : option string) : M string :=
  timestamp ← match timestamp_arg with
              | Some t => mret t
              | None => strftime_now
              end;
  let name := Resume.name resume_data in
  let contact := Resume.contact resume_data in
  let summary := Resume.summary resume_data in
  let skills_text := prompt_skills_text (Resume.skills resume_data) in
  let highlights := experience_highlights (Resume.experience resume_data) in
  text ← call_model
    (cover_letter_prompt name
       (json_dumps (PDict (map (fun '(k, v) => (k, PStr v)) contact)))
       summary skills_text
       (json_dumps_indent (PList (map PStr highlights)))
       job_description);
  let cover_letter_markdown := clean_cover_letter text in
  let file_prefix := cover_letter_prefix timestamp in
  let markdown_file_path := output_path (file_prefix +:+ ".md") in
  write_file markdown_file_path cover_letter_markdown;;
  let pdf_path := output_path (file_prefix +:+ ".pdf") in
  generate_pdf_from_markdown cover_letter_markdown (Some pdf_path);;
  mret pdf_path.

(** *** job_analysis.py: generate_question_answers *)

Definition question_prompt (name summary skills_text experience_json job_description question : string) : string :=
  "
        I'm applying for a job and need to answer an application question. I'll provide my resume information, the job description, and the question.
        
        RESUME INFORMATION:
        Name: "
  +:+ name
  +:+ "
        Professional Summary: "
  +:+ summary
  +:+ "
        Skills: "
  +:+ skills_text
  +:+ "
        
        Experience:
        "
  +:+ experience_json
  +:+ "
        
        JOB DESCRIPTION:
        "
  +:+ job_description
  +:+ "
        
        APPLICATION QUESTION:
        "
  +:+ question
  +:+ "
        
        Please provide a well-crafted answer to this question based on my resume and the job description. The answer should:
        1. Be concise but comprehensive (100-200 words)
        2. Highlight relevant experience, skills, and achievements
        3. Demonstrate how my background makes me a good fit for this role
        4. Use specific examples whenever possible
        5. Be professional in tone and language
        6. Use markdown formatting with **bold** for technical skills and important terms (like **JavaScript**, **team management**, etc.)
        7. Use proper paragraph spacing for readability
        
        Return ONLY the answer to the question, with no explanations or additional text.
        ".

(** The prompt of one question (lines 289-316). *)
Definition build_question_prompt (resume_data : Resume.t) (job_description question : string) : string :=
  question_prompt (Resume.name resume_data) (Resume.summary resume_data)
    (prompt_skills_text (Resume.skills resume_data))
    (json_dumps_indent (PList (map (fun exp => PStr (experience_info exp))
                                   (Resume.experience resume_data))))
    job_description question.

(** The loop of lines 286-319, appending to [answers]. *)
Fixpoint answer_questions (resume_data : Resume.t) (job_description : string)
    (questions : list string) (answers : list string) : M (list string) :=
  match questions with
  | [] => mret answers
  | question :: questions' =>
      text ← call_model (build_question_prompt resume_data job_description question);
      answer_questions resume_data job_description questions' (answers ++ [strip text])
  end.

Definition generate_question_answers (questions : list string) (job_description : string)
    (resume_data : Resume.t) : M (list string) :=
  answer_questions resume_data job_description questions [].

(** *** main.py: authentication *)

(** [jwt.decode(token, SECRET_KEY, algorithms=[ALGORITHM])]: [None] is
    [InvalidTokenError], otherwise [payload.get("sub")]. *)
Variable jwt_decode : string -> option (option string).

(** [create_access_token({"sub": username}, expires_delta)]. *)
Variable create_access_token : Env -> string -> string.

(** [load_users()]: user names and passwords of [users.json]. *)
Variable users : list (string * string).

(** The status with which [HTTPBearer] rejects a request that carries no
    bearer credentials. *)
Variable not_authenticated_status : nat.

(** [os.listdir("resume_templates")]. *)
Variable listdir_resume_templates : list string.

(** [str(e)]. *)
Variable exn_str : exn -> string.

(** The decoded JSON document read as the resume record the renderers
    index; a document they cannot index raises. *)
Variable resume_of : pyval -> outcome Resume.t.

Definition credentials_exception : exn :=
  HTTPError 401 "Could not validate credentials".

(** [Depends(security)]. *)
Definition security (req : request) : M string :=
  match authorization req with
  | Some credentials => mret credentials
  | None => raise (HTTPError not_authenticated_status "Not authenticated")
  end.

Definition get_current_user (credentials : string) : M (string * string) :=
  username ← match jwt_decode credentials with
             | Some (Some username) => mret username
             | Some None => raise credentials_exception
             | None => raise credentials_exception
             end;
  match find (fun u => String.eqb (fst u) username) users with
  | Some user => mret user
  | None => raise credentials_exception
  end.

Definition authenticate_user (name password : string) : option (string * string) :=
  find (fun u => String.eqb (fst u) name && String.eqb (snd u) password) users.

(** *** main.py: endpoints *)

Definition read_root : M response := mret (Message "Resumer API is running").

Definition signin (username password : string) : M response :=
  match authenticate_user username password with
  | None => raise (HTTPError 401 "Incorrect username or password")
  | Some user =>
      fun w => (w, Return (Token (create_access_token (env w) (fst user)) (fst user)))
  end.

(** [str(x)] inside an f-string, for an optional string. *)
Definition fmt_opt (x : option string) : string := default "None" x.

Definition tailor_resume_endpoint (job_data : JobSubmission) : M response :=
  try_except
    (let template_file := "resume_templates/" +:+ fmt_opt (template job_data) in
     '(json_path, tailored_json) ← tailor_resume (job_description job_data) template_file;
     tailored_resume ← lift (resume_of tailored_json);
     '(text_path, _) ← convert_json_to_text tailored_resume;
     let template_name := template_name_of (template job_data) in
     let pdf_path := output_path (template_name +:+ "_resume.pdf") in
     generate_pdf_from_json tailored_resume (Some pdf_path);;
     let resume_url := "/download/resume/" +:+ basename pdf_path in
     cover_letter_url ←
       (if pyval_truthy tailored_json then
          cover_letter_path ← generate_cover_letter tailored_resume
                                (job_description job_data) (Some template_name);
          (* [if cover_letter_path:] holds of every [Path] *)
          mret (Some ("/download/cover_letter/" +:+ basename cover_letter_path))
        else mret None);
     answers ←
       match questions job_data with
       | Some (q :: qs) =>
           a ← generate_question_answers (q :: qs) (job_description job_data) tailored_resume;
           mret (Some a)
       | _ => mret None
       end;
     mret (if default false (return_json job_data)
           then TailoredResumeResponse resume_url cover_letter_url answers
                  (Some json_path) (Some text_path)
           else TailoredResumeResponse resume_url cover_letter_url answers None None))
    (fun _ => true)
    (fun e => raise (HTTPError 500 ("Error tailoring resume: " +:+ exn_str e))).

(** [file_path.exists()] for a path under the output directory. *)
Definition exists_file (path : string) : M bool :=
  fun w => (w, Return (bool_decide (is_Some (files w !! path)))).

(** [name.split(marker)[0] if marker in name else dflt]. *)
Definition name_before (marker dflt name : string) : M string :=
  if contains marker name then lift (item 0 (split1 marker name)) else mret dflt.

Definition download_resume (filename : string) (mode : option string) : M response :=
  let file_path := output_path filename in
  found ← exists_file file_path;
  if (found : bool) then
    template_name ← name_before "_resume" "tailored" (basename file_path);
    if bool_decide (mode = Some "download")
    then mret (FileResponse file_path (Some (template_name +:+ "_resume.pdf")) false)
    else mret (FileResponse file_path None true)
  else raise (HTTPError 404 "Resume not found").

Definition download_cover_letter (filename : string) (mode : option string) : M response :=
  let file_path := output_path filename in
  found ← exists_file file_path;
  if (found : bool) then
    template_name ← name_before "_cover_letter" "default" (basename file_path);
    if bool_decide (mode = Some "download")
    then mret (FileResponse file_path (Some (template_name +:+ "_cover_letter.pdf")) false)
    else mret (FileResponse file_path None true)
  else raise (HTTPError 404 "Cover letter not found").

Definition get_templates : M response := mret (TemplateList listdir_resume_templates).

Definition get_cover_letter_content (filename : string) : M response :=
  let md_filename := replace ".pdf" ".md" filename in
  let file_path := output_path md_filename in
  fun w =>
    match files w !! file_path with
    | Some content => (w, Return (CoverLetterContent content))
    | None => (w, Raise (HTTPError 404 "Cover letter markdown not found"))
    end.

(** The application: each route runs the dependencies its endpoint
    declares ([Depends(get_current_user)] on three of them) and then the
    endpoint. *)
Definition dispatch (req : request) : M response :=
  match target req with
  | ReadRoot => read_root
  | Signin username password => signin username password
  | TailorResume job_data =>
      credentials ← security req;
      get_current_user credentials;;
      tailor_resume_endpoint job_data
  | DownloadResume filename mode => download_resume filename mode
  | DownloadCoverLetter filename mode => download_cover_letter filename mode
  | GetTemplates =>
      credentials ← security req;
      get_current_user credentials;;
      get_templates
  | GetCoverLetterContent filename =>
      credentials ← security req;
      get_current_user credentials;;
      get_cover_letter_content filename
  end.

(** What the client receives: an [HTTPException] raised on the way becomes
    the error response, any other exception a 500. *)
Definition serve (req : request) (w : world) : world * response :=
  match dispatch req w with
  | (w', Return r) => (w', r)
  | (w', Raise (HTTPError status_code detail)) => (w', HTTPException status_code detail)
  | (w', Raise _) => (w', HTTPException 500 "Internal Server Error")
  end.

(** *** The oracle over a sequence of prompts

    [oracle_run e prompts] sends the prompts one after the other, starting
    in environment [e], and collects the answers; the first failure ends
    the run. *)
Fixpoint oracle_run (e : Env) (prompts : list string) : Env * outcome (list string) :=
  match prompts with
  | [] => (e, Return [])
  | prompt :: prompts' =>
      match generate_content e prompt with
      | (e1, Return text) =>
          match oracle_run e1 prompts' with
          | (e', Return texts) => (e', Return (text :: texts))
          | (e', Raise x) => (e', Raise x)
          end
      | (e1, Raise x) => (e1, Raise x)
      end
  end.

(** A request is authenticated when it carries a token that decodes to
    the name of a known user. *)
Definition authenticated (auth : option string) : bool :=
  match auth with
  | Some credentials =>
      match jwt_decode credentials with
      | Some (Some username) =>
          match find (fun u => String.eqb (fst u) username) users with
          | Some _ => true
          | None => false
          end
      | _ => false
      end
  | None => false
  end.



(** *** Notions used to state further properties *)

(** The files [convert_json_to_markdown] reads, relative to the package
    directory, in the order it reads them (lines 237-261 and 279). *)
Definition template_paths : list string :=
  [ "output_template.md";
    "output_template/top_section.md";
    "output_template/summary_section.md";
    "output_template/references_section.md";
    "output_template/reference_item.md";
    "output_template/experiences_section.md";
    "output_template/experience_item.md";
    "output_template/experience_highlights.md";
    "output_template/experience_highlight_item.md";
    "output_template/skills_section.md";
    "output_template/skill_section_item.md";
    "output_template/education_section.md";
    "output_template/location_section.md" ].


(** [keeps_files m]: [m] may create and rewrite files, it deletes none. *)
Definition keeps_files {A : Type} (m : M A) : Prop :=
  forall w w' r p, m w = (w', r) -> is_Some (files w !! p) -> is_Some (files w' !! p).

(** The routes that only read. *)
Definition read_only (t : route) : bool :=
  match t with
  | TailorResume _ => false
  | _ => true
  end.

(** * Facts *)

(** ** Strings *)

Section StringFacts.

#[local] Arguments String.append !_ _ / : simpl nomatch.

Implicit Types (s t u p : string) (c : ascii).

Lemma append_nil_r s : s +:+ "" = s.
Proof. induction s as [|c s IH]; simpl; [done | by rewrite IH]. Qed.

Lemma append_assoc s t u : (s +:+ t) +:+ u = s +:+ t +:+ u.
Proof. induction s as [|c s IH]; simpl; [done | by rewrite IH]. Qed.

Lemma length_append s t : String.length (s +:+ t) = String.length s + String.length t.
Proof. induction s as [|c s IH]; simpl; [done | by rewrite IH]. Qed.

Lemma startswith_app p s : startswith p (p +:+ s) = true.
Proof.
  induction p as [|c p IH]; simpl; [done|].
  by rewrite Ascii.eqb_refl, IH.
Qed.

Lemma startswith_inv p s : startswith p s = true -> exists r, s = p +:+ r.
Proof.
  revert s; induction p as [|c p IH]; intros s H; simpl in *.
  - by exists s.
  - destruct s as [|d s]; [done|].
    apply andb_true_iff in H as [Hc Hp].
    apply Ascii.eqb_eq in Hc as ->.
    destruct (IH _ Hp) as [r ->]. by exists r.
Qed.

(** Only the first [length p] characters of [s] matter. *)
Lemma startswith_app_long p s r :
  String.length p <= String.length s -> startswith p (s +:+ r) = startswith p s.
Proof.
  revert s; induction p as [|c p IH]; intros s H; simpl in *; [done|].
  destruct s as [|d s]; simpl in *; [lia|].
  rewrite IH; [done | lia].
Qed.

Lemma drop_str_app p s : drop_str (String.length p) (p +:+ s) = s.
Proof. induction p as [|c p IH]; simpl; done. Qed.

Lemma partition_sound sep s a b :
  partition sep s = Some (a, b) -> s = a +:+ sep +:+ b.
Proof.
  revert a b; induction s as [|c s IH]; intros a b; simpl.
  - destruct (startswith sep "") eqn:E; [|done].
    intros [= <- <-]. apply startswith_inv in E as [r E].
    destruct sep; [done | discriminate].
  - destruct (startswith sep (String c s)) eqn:E.
    + intros [= <- <-]. apply startswith_inv in E as [r E].
      rewrite E at 1. simpl. by rewrite E, drop_str_app.
    + destruct (partition sep s) as [[a' b']|] eqn:P; [|done].
      intros [= <- <-]. simpl. by rewrite (IH _ _ eq_refl).
Qed.

Lemma contains_true sub s :
  contains sub s = true <-> exists a b, partition sub s = Some (a, b).
Proof.
  unfold contains. destruct (partition sub s) as [[a b]|]; split; try done.
  - by exists a, b.
  - by intros (? & ? & ?).
Qed.

Lemma contains_false sub s : contains sub s = false <-> partition sub s = None.
Proof. unfold contains. by destruct (partition sub s) as [[a b]|]. Qed.

(** When [sep] does not occur, [split(sep, 1)] is the whole string. *)
Lemma split1_absent sep s : contains sep s = false -> split1 sep s = [s].
Proof. intros H%contains_false. unfold split1. by rewrite H. Qed.

(** When [sep] occurs, [split(sep, 1)] has two items: index 0 and 1 are
    both in range. *)
Lemma split1_present sep s :
  contains sep s = true ->
  exists a b, split1 sep s = [a; b] /\ s = a +:+ sep +:+ b.
Proof.
  intros (a & b & H)%contains_true. exists a, b.
  unfold split1. rewrite H. split; [done | by apply partition_sound].
Qed.

End StringFacts.

(** ** Response extraction *)

Section ExtractionFacts.

#[local] Arguments String.append !_ _ / : simpl nomatch.

Lemma partition_unfold sep s :
  partition sep s =
  if startswith sep s then Some (EmptyString, drop_str (String.length sep) s)
  else match s with
       | EmptyString => None
       | String c s' =>
           match partition sep s' with
           | Some (a, b) => Some (String c a, b)
           | None => None
           end
       end.
Proof. by destruct s. Qed.

(** The cut falls where [first_at] says. *)
Lemma partition_first_at sep a rest :
  first_at sep a = true -> partition sep (a +:+ sep +:+ rest) = Some (a, rest).
Proof.
  induction a as [|c a IH]; intros H.
  - simpl. rewrite partition_unfold, startswith_app. by rewrite drop_str_app.
  - cbn [first_at] in H. apply andb_true_iff in H as [H1 H2].
    apply negb_true_iff in H1.
    rewrite partition_unfold.
    replace (String c a +:+ sep +:+ rest) with ((String c a +:+ sep) +:+ rest)
      by apply append_assoc.
    rewrite startswith_app_long, H1
      by (rewrite length_append; simpl; lia).
    rewrite append_assoc. simpl. by rewrite (IH H2).
Qed.

Lemma contains_first_at sep a rest :
  first_at sep a = true -> contains sep (a +:+ sep +:+ rest) = true.
Proof. intros H. unfold contains. by rewrite (partition_first_at _ _ _ H). Qed.

Lemma split1_first_at sep a rest :
  first_at sep a = true -> split1 sep (a +:+ sep +:+ rest) = [a; rest].
Proof. intros H. unfold split1. by rewrite (partition_first_at _ _ _ H). Qed.





(** A tagged block whose fences are the leftmost ones is cut out and
    trimmed. *)
Lemma extract_json_str_tagged prefix body suffix :
  first_at fence_json prefix = true ->
  first_at fence body = true ->
  extract_json_str (prefix +:+ fence_json +:+ body +:+ fence +:+ suffix)
  = Return (strip body).
Proof.
  intros Hp Hb. unfold extract_json_str, fenced_by, fence_interior.
  rewrite (contains_first_at _ _ _ Hp), (split1_first_at _ _ _ Hp).
  cbn [item lookup list_lookup mbind outcome_mbind outcome_bind mret outcome_ret].
  rewrite (contains_first_at _ _ _ Hb).
  cbn [item lookup list_lookup mbind outcome_mbind outcome_bind mret outcome_ret].
  by rewrite (split1_first_at _ _ _ Hb).
Qed.

End ExtractionFacts.

(** ** The two callers of the extraction *)

Section CallerFacts.

(** Unfolding the monad of the service. *)
Ltac run :=
  repeat first
    [ progress unfold mbind, mret, M_mbind, M_mret, M_bind, M_ret, lift, raise,
        try_except, strftime_now, write_file, call_model, loads,
        read_package_file
    | progress cbn beta iota delta [files env is_JSONDecodeError] ].

Lemma analyze_job_description_run job_description w e' text s :
  generate_content (env w) (analysis_prompt job_description) = (e', Return text) ->
  extract_json_str text = Return s ->
  analyze_job_description job_description w
  = (World (files w) e',
     Return (match json_loads s with
             | Some v => v
             | None => raw_analysis_fallback text
             end)).
Proof.
  intros Hg Hs. unfold analyze_job_description. run.
  rewrite Hg. run. rewrite Hs. run.
  destruct (json_loads s); by run.
Qed.

(** [tailor_resume] up to the [try]: the template is read and decoded,
    the oracle answers. *)
Lemma tailor_resume_run job_description template w content resume_structure e' text s :
  package_files !! template = Some content ->
  json_loads content = Some resume_structure ->
  generate_content (env w)
    (tailoring_prompt job_description (json_dumps_indent resume_structure))
  = (e', Return text) ->
  extract_json_str text = Return s ->
  tailor_resume job_description template w
  = match json_loads s with
    | Some tailored_resume =>
        let json_file_path := output_path ("tailored_resume_" +:+ now e' +:+ ".json") in
        (World (<[json_file_path := json_dumps_indent tailored_resume]> (files w)) e',
         Return (json_file_path, tailored_resume))
    | None =>
        let raw_file_path := output_path ("tailored_resume_raw_" +:+ now e' +:+ ".txt") in
        (World (<[raw_file_path := text]> (files w)) e',
         Raise (Exception ("Failed to parse tailored resume as JSON. Raw output saved to "
                           +:+ raw_file_path)))
    end.
Proof.
  intros Hf Hc Hg Hs. unfold tailor_resume. run.
  rewrite Hf. run. rewrite Hc. run. rewrite Hg. run. rewrite Hs. run.
  destruct (json_loads s); by run.
Qed.

End CallerFacts.

(** ** Cutting and replacing *)

Section CutFacts.

#[local] Arguments String.append !_ _ / : simpl nomatch.

Implicit Types (s t a b sep old new : string) (c : ascii).

Lemma contains_cons_false sep c s :
  contains sep (String c s) = false ->
  startswith sep (String c s) = false /\ contains sep s = false.
Proof.
  unfold contains. rewrite partition_unfold.
  destruct (startswith sep (String c s)); [done|].
  by destruct (partition sep s) as [[??]|].
Qed.

(** An occurrence of [sep] in the middle is found. *)
Lemma contains_app_mid sep a b : contains sep (a +:+ sep +:+ b) = true.
Proof.
  induction a as [|c a IH]; unfold contains in *; rewrite partition_unfold.
  - simpl. by rewrite startswith_app.
  - simpl.
    destruct (startswith sep (String c (a +:+ sep +:+ b))); [done|].
    by destruct (partition sep (a +:+ sep +:+ b)) as [[??]|].
Qed.

(** For a one-character separator, "leftmost" is "not occurring before". *)
Lemma first_at_char c a :
  contains (String c "") a = false -> first_at (String c "") a = true.
Proof.
  induction a as [|d a IH]; intros H; [done|].
  apply contains_cons_false in H as [H1 H2].
  cbn [first_at]. rewrite (IH H2), andb_true_r.
  rewrite startswith_app_long by (simpl; lia).
  by rewrite H1.
Qed.

(** The rest of an occurrence is skipped. *)
Lemma replace_from_skip old new t rest :
  replace_from (String.length t) old new (t +:+ rest) = replace_from 0 old new rest.
Proof.
  induction t as [|c t IH]; simpl; [|done].
  by destruct rest.
Qed.

Lemma replace_from_unfold old new c s :
  replace_from 0 old new (String c s) =
  if startswith old (String c s)
  then new +:+ replace_from (String.length old - 1) old new s
  else String c (replace_from 0 old new s).
Proof. done. Qed.



(** The leftmost occurrence is replaced and the pass goes on after it. *)
Lemma replace_from_first_at old new a rest :
  old <> "" -> first_at old a = true ->
  replace_from 0 old new (a +:+ old +:+ rest)
  = a +:+ new +:+ replace_from 0 old new rest.
Proof.
  intros Ho. induction a as [|c a IH]; intros H.
  - destruct old as [|o old]; [done|]. simpl.
    rewrite Ascii.eqb_refl, startswith_app. simpl.
    by rewrite Nat.sub_0_r, replace_from_skip.
  - cbn [first_at] in H. apply andb_true_iff in H as [H1 H2].
    apply negb_true_iff in H1.
    change (String c a +:+ old +:+ rest) with (String c (a +:+ old +:+ rest)).
    rewrite replace_from_unfold.
    change (String c (a +:+ old +:+ rest)) with (String c a +:+ old +:+ rest).
    rewrite <- append_assoc, startswith_app_long, H1
      by (rewrite length_append; simpl; lia).
    by rewrite (IH H2).
Qed.

End CutFacts.

(** ** When a fence is the leftmost one *)

Section LeftmostFacts.

#[local] Arguments String.append !_ _ / : simpl nomatch.

Implicit Types (s t a b pat : string) (c : ascii).

Lemma drop_str_app_le n p r :
  n <= String.length p -> drop_str n (p +:+ r) = drop_str n p +:+ r.
Proof.
  revert p. induction n as [|n IH]; intros p H; [done|].
  destruct p as [|c p]; simpl in *; [lia|]. apply IH. lia.
Qed.

(** An occurrence of [pat] that starts inside [x] and runs into a
    following [pat] makes a suffix of [pat] a prefix of [pat]. *)
Lemma startswith_overlap pat x :
  String.length x < String.length pat ->
  startswith pat (x +:+ pat) = true ->
  startswith (drop_str (String.length x) pat) pat = true.
Proof.
  intros Hlen [r E]%startswith_inv.
  assert (pat = drop_str (String.length x) pat +:+ r) as E'.
  { rewrite <- drop_str_app_le by lia. rewrite <- E. by rewrite drop_str_app. }
  rewrite E' at 2. apply startswith_app.
Qed.

(** For a pattern that cannot overlap itself, "leftmost" is "not
    occurring before". *)
Lemma first_at_no_border pat a :
  no_border pat = true -> contains pat a = false -> first_at pat a = true.
Proof.
  intros Hb. induction a as [|c a IH]; intros H; [done|].
  apply contains_cons_false in H as [H1 H2].
  cbn [first_at]. rewrite (IH H2), andb_true_r. apply negb_true_iff.
  destruct (le_lt_dec (String.length pat) (String.length (String c a))) as [Hle|Hlt].
  - by rewrite startswith_app_long.
  - destruct (startswith pat (String c a +:+ pat)) eqn:E; [|done].
    apply startswith_overlap in E; [|done].
    unfold no_border in Hb. rewrite forallb_forall in Hb.
    specialize (Hb (String.length (String c a))).
    rewrite E in Hb. discriminate Hb.
    apply in_seq. simpl in *. lia.
Qed.

Lemma first_at_fence_json prefix :
  contains fence_json prefix = false -> first_at fence_json prefix = true.
Proof. by apply first_at_no_border. Qed.

Lemma ends_with_char_cons c d e s :
  ends_with_char c (String d (String e s)) = ends_with_char c (String e s).
Proof. done. Qed.

(** The closing fence is the leftmost one when the interior holds no
    fence and does not end in a backtick. *)
Lemma first_at_fence body :
  contains fence body = false -> ends_with_char "`" body = false ->
  first_at fence body = true.
Proof.
  induction body as [|c body IH]; intros H He; [done|].
  apply contains_cons_false in H as [H1 H2].
  cbn [first_at]. apply andb_true_iff. split.
  - apply negb_true_iff.
    destruct body as [|d [|e body]].
    + cbn [ends_with_char] in He.
      change (startswith fence (String c "" +:+ fence))
        with (Ascii.eqb "`" c && startswith "``" fence).
      by rewrite Ascii.eqb_sym, He.
    + cbn [ends_with_char] in He.
      change (startswith fence (String c (String d "") +:+ fence))
        with (Ascii.eqb "`" c && (Ascii.eqb "`" d && startswith "`" fence)).
      rewrite (Ascii.eqb_sym "`" d), He. by rewrite andb_false_r.
    + by rewrite startswith_app_long by (simpl; lia).
  - apply IH; [done|]. destruct body as [|d body]; [done|].
    by rewrite ends_with_char_cons in He.
Qed.

End LeftmostFacts.

(** ** The extraction claims *)

Section ExtractionClaims.

#[local] Arguments String.append !_ _ / : simpl nomatch.

(** C1 (as amended).  When the oracle's text, after the fenced block is cut
    out, is not JSON: the job analysis returns the degraded result (raw
    text, job title "Unknown", empty required_skills and keywords) and
    raises nothing; the resume tailoring writes the raw text to
    output/tailored_resume_raw_<timestamp>.txt and raises an exception that
    names this file. *)
Theorem unparsable_response_outcomes
    job_description template w content resume_structure text s e1 e2 :
  extract_json_str text = Return s ->
  json_loads s = None ->
  generate_content (env w) (analysis_prompt job_description) = (e1, Return text) ->
  package_files !! template = Some content ->
  json_loads content = Some resume_structure ->
  generate_content (env w)
    (tailoring_prompt job_description (json_dumps_indent resume_structure))
  = (e2, Return text) ->
  analyze_job_description job_description w
  = (World (files w) e1,
     Return (PDict [("raw_analysis", PStr text);
                    ("job_title", PStr "Unknown");
                    ("required_skills", PList []);
                    ("keywords", PList [])]))
  /\ tailor_resume job_description template w
     = let raw_file_path := "output/tailored_resume_raw_" +:+ now e2 +:+ ".txt" in
       (World (<[raw_file_path := text]> (files w)) e2,
        Raise (Exception ("Failed to parse tailored resume as JSON. Raw output saved to "
                          +:+ raw_file_path))).
Proof.
  intros Hs Hnone Hg1 Hf Hc Hg2. split.
  - rewrite (analyze_job_description_run _ _ _ _ _ Hg1 Hs). by rewrite Hnone.
  - rewrite (tailor_resume_run _ _ _ _ _ _ _ _ Hf Hc Hg2 Hs). by rewrite Hnone.
Qed.

(** C3 (as amended).  A JSON text inside a ```json block is recovered by
    both callers whenever no ```json occurs in the prose before the block
    and the block's interior holds no ``` and does not end in a backtick,
    so that the block's fences are the leftmost ones: the extracted string
    is the interior, trimmed, and what is returned is the object this
    string decodes to. *)
Theorem fenced_object_recovered
    prefix body suffix obj job_description template w content resume_structure e1 e2 :
  contains fence_json prefix = false ->
  contains fence body = false ->
  ends_with_char "`" body = false ->
  json_loads (strip body) = Some obj ->
  generate_content (env w) (analysis_prompt job_description)
  = (e1, Return (prefix +:+ fence_json +:+ body +:+ fence +:+ suffix)) ->
  package_files !! template = Some content ->
  json_loads content = Some resume_structure ->
  generate_content (env w)
    (tailoring_prompt job_description (json_dumps_indent resume_structure))
  = (e2, Return (prefix +:+ fence_json +:+ body +:+ fence +:+ suffix)) ->
  extract_json_str (prefix +:+ fence_json +:+ body +:+ fence +:+ suffix)
  = Return (strip body)
  /\ analyze_job_description job_description w = (World (files w) e1, Return obj)
  /\ tailor_resume job_description template w
     = let json_file_path := "output/tailored_resume_" +:+ now e2 +:+ ".json" in
       (World (<[json_file_path := json_dumps_indent obj]> (files w)) e2,
        Return (json_file_path, obj)).
Proof.
  intros Hp Hb He Hobj Hg1 Hf Hc Hg2.
  pose proof (extract_json_str_tagged prefix body suffix
                (first_at_fence_json _ Hp) (first_at_fence _ Hb He)) as Hs.
  split; [done|]. split.
  - rewrite (analyze_job_description_run _ _ _ _ _ Hg1 Hs). by rewrite Hobj.
  - rewrite (tailor_resume_run _ _ _ _ _ _ _ _ Hf Hc Hg2 Hs). by rewrite Hobj.
Qed.

End ExtractionClaims.

(** ** Company and period *)

Section SplitFacts.

#[local] Arguments String.append !_ _ / : simpl nomatch.

Ltac run_outcome :=
  cbn [item lookup list_lookup mbind mret outcome_mbind outcome_bind outcome_ret].

(** Every string either has no ["-"] or is [a ++ "-" ++ b] with no ["-"]
    in [a]: the two cases below cover every period. *)
Lemma cut_cases sep s :
  contains sep s = false
  \/ exists a b, s = a +:+ sep +:+ b /\ partition sep s = Some (a, b).
Proof.
  destruct (contains sep s) eqn:E; [right | by left].
  apply contains_true in E as (a & b & E). exists a, b.
  split; [by apply partition_sound | done].
Qed.

(** C5.  A period [a ++ "-" ++ b] whose [a] holds no ["-"] (the cut is at
    the first ["-"]) yields from = [a] trimmed and to = [b] trimmed; a
    period without ["-"] yields itself as from and the empty string as
    to. *)
Theorem split_period_first_dash a b :
  contains "-" a = false ->
  split_period (a +:+ "-" +:+ b) = Return (strip a, strip b)
  /\ split_period a = Return (a, "").
Proof.
  intros Ha. split; unfold split_period.
  - rewrite contains_app_mid.
    rewrite (split1_first_at _ _ _ (first_at_char _ _ Ha)). by run_outcome.
  - by rewrite Ha.
Qed.

(** C4 (as amended).  With no ["("] in [a]: the string [a] alone is kept
    whole with an empty location; a string [a ++ "(" ++ b] that holds a
    [")"] somewhere yields company = [a] trimmed and location = [b] with
    every [")"] removed, trimmed; without any [")"] it is kept whole; and
    for a single trailing clause, [a ++ "(" ++ b ++ ")"] with no [")"] in
    [b], the location is [b] trimmed. *)
Theorem split_company_first_paren a b :
  contains "(" a = false ->
  split_company a = Return (a, "")
  /\ (contains ")" (a +:+ "(" +:+ b) = true ->
      split_company (a +:+ "(" +:+ b)
      = Return (strip a, strip (replace ")" "" b)))
  /\ (contains ")" (a +:+ "(" +:+ b) = false ->
      split_company (a +:+ "(" +:+ b) = Return (a +:+ "(" +:+ b, ""))
  /\ (contains ")" b = false ->
      split_company (a +:+ "(" +:+ b +:+ ")") = Return (strip a, strip b)).
Proof.
  intros Ha. pose proof (first_at_char _ _ Ha) as Hf.
  assert (Hcut : forall b', contains ")" (a +:+ "(" +:+ b') = true ->
            split_company (a +:+ "(" +:+ b')
            = Return (strip a, strip (replace ")" "" b'))).
  { intros b' Hb. unfold split_company.
    rewrite contains_app_mid, Hb. cbn [andb].
    rewrite (split1_first_at _ _ _ Hf). by run_outcome. }
  split; [|split; [|split]].
  - unfold split_company. by rewrite Ha.
  - apply Hcut.
  - intros Hb. unfold split_company. by rewrite contains_app_mid, Hb.
  - intros Hb. rewrite Hcut.
    + unfold replace.
      rewrite <- (append_nil_r (b +:+ ")")), append_assoc.
      rewrite replace_from_first_at by (done || by apply first_at_char).
      simpl. by rewrite append_nil_r.
    + rewrite <- (append_nil_r (a +:+ "(" +:+ b +:+ ")")).
      rewrite <- !append_assoc. rewrite append_assoc. apply contains_app_mid.
Qed.

End SplitFacts.

(** ** The plain-text rendering *)

Section TextFacts.

#[local] Arguments String.append !_ _ / : simpl nomatch.

Lemma join_cons sep x y l : join sep (x :: y :: l) = x +:+ sep +:+ join sep (y :: l).
Proof. done. Qed.



Lemma text_content_head (r : Resume.t) :
  text_content r = Resume.name r :: after_name r.
Proof. done. Qed.

Lemma after_name_nonempty (r : Resume.t) : exists x l, after_name r = x :: l.
Proof.
  unfold after_name, text_content. simpl.
  destruct (Resume.contact r) as [|[??] ?]; simpl; by eexists _, _.
Qed.


(** When the name holds no newline, the first line of the text, cut at
    the first newline, is the name. *)
Lemma first_line_is_name (r : Resume.t) :
  contains nl (Resume.name r) = false ->
  exists rest, partition nl (join nl (text_content r)) = Some (Resume.name r, rest).
Proof.
  intros H. rewrite text_content_head.
  destruct (after_name_nonempty r) as (x & l & ->). rewrite join_cons.
  eexists. apply partition_first_at. by apply first_at_char.
Qed.

End TextFacts.

(** ** Answering questions *)

Section AnswerFacts.

#[local] Arguments String.append !_ _ / : simpl nomatch.

Ltac run :=
  repeat first
    [ progress unfold mbind, mret, M_mbind, M_mret, M_bind, M_ret, call_model
    | progress cbn beta iota delta [files env] ].

(** The loop, with its accumulator, against the run of the oracle. *)
Lemma answer_questions_run r job_description qs acc w :
  answer_questions r job_description qs acc w
  = match oracle_run (env w) (map (build_question_prompt r job_description) qs) with
    | (e', Return texts) => (World (files w) e', Return (acc ++ map strip texts))
    | (e', Raise x) => (World (files w) e', Raise x)
    end.
Proof.
  revert acc w. induction qs as [|q qs IH]; intros acc w.
  - cbn [answer_questions map oracle_run]. run.
    rewrite app_nil_r. by destruct w.
  - cbn [answer_questions map oracle_run]. run.
    destruct (generate_content (env w) _) as [e1 [text|x]]; [|done].
    rewrite IH. cbn [files env].
    destruct (oracle_run e1 _) as [e' [texts|x]]; [|done].
    cbn [map]. by rewrite <- app_assoc.
Qed.




(** The first failure of the oracle aborts the whole batch. *)
Lemma question_answers_abort questions job_description r w e' x :
  oracle_run (env w) (map (build_question_prompt r job_description) questions)
  = (e', Raise x) ->
  generate_question_answers questions job_description r w
  = (World (files w) e', Raise x).
Proof.
  intros H. unfold generate_question_answers. by rewrite answer_questions_run, H.
Qed.

End AnswerFacts.

(** ** Authentication of the routes *)

Section RouteFacts.

#[local] Arguments String.append !_ _ / : simpl nomatch.

Ltac run :=
  repeat first
    [ progress unfold mbind, mret, M_mbind, M_mret, M_bind, M_ret, lift, raise,
        exists_file
    | progress cbn beta iota delta [files env authorization target] ].

(** The guard [marker in name] keeps [split(marker)[0]] in range. *)
Lemma name_before_returns marker dflt name w :
  exists template_name, name_before marker dflt name w = (w, Return template_name).
Proof.
  unfold name_before. destruct (contains marker name) eqn:E; run; [|by eexists].
  destruct (split1_present _ _ E) as (a & b & -> & _). by eexists.
Qed.

(** Without a valid token the dependency of a protected route raises. *)
Lemma unauthenticated_dependency auth t w :
  authenticated auth = false ->
  exists status_code detail,
    (credentials ← security (MkRequest auth t); get_current_user credentials) w
    = (w, Raise (HTTPError status_code detail))
    /\ (status_code, detail)
       = match auth with
         | None => (not_authenticated_status, "Not authenticated")
         | Some _ => (401, "Could not validate credentials")
         end.
Proof.
  intros H. unfold security, get_current_user. destruct auth as [c|]; run.
  - eexists _, _. split; [|done]. simpl in H.
    destruct (jwt_decode c) as [[u|]|]; run; try done.
    by destruct (find _ users).
  - by eexists _, _.
Qed.

(** C9.  For a request that is not authenticated (no bearer token, or one
    that does not decode to a known user): both download routes answer as
    they would for anyone, with the file when it exists under the output
    directory and with a 404 otherwise; every protected route (tailoring,
    template listing, cover-letter content) answers with the
    authentication error instead of running its endpoint. *)
Theorem downloads_skip_authentication auth filename mode t w :
  authenticated auth = false ->
  protected t = true ->
  (exists template_name,
     serve (MkRequest auth (DownloadResume filename mode)) w
     = (w, match files w !! ("output/" +:+ filename) with
           | Some _ =>
               if bool_decide (mode = Some "download")
               then FileResponse ("output/" +:+ filename)
                      (Some (template_name +:+ "_resume.pdf")) false
               else FileResponse ("output/" +:+ filename) None true
           | None => HTTPException 404 "Resume not found"
           end))
  /\ (exists template_name,
        serve (MkRequest auth (DownloadCoverLetter filename mode)) w
        = (w, match files w !! ("output/" +:+ filename) with
              | Some _ =>
                  if bool_decide (mode = Some "download")
                  then FileResponse ("output/" +:+ filename)
                         (Some (template_name +:+ "_cover_letter.pdf")) false
                  else FileResponse ("output/" +:+ filename) None true
              | None => HTTPException 404 "Cover letter not found"
              end))
  /\ serve (MkRequest auth t) w
     = (w, match auth with
           | None => HTTPException not_authenticated_status "Not authenticated"
           | Some _ => HTTPException 401 "Could not validate credentials"
           end).
Proof.
  intros Hauth Hprot. split; [|split].
  - destruct (name_before_returns "_resume" "tailored"
                (basename (output_path filename)) w) as [tn Htn].
    exists tn. unfold serve, dispatch, download_resume, output_path in *. run.
    destruct (files w !! ("output/" +:+ filename)) eqn:E; run.
    + rewrite bool_decide_eq_true_2 by done. rewrite Htn.
      by destruct (bool_decide (mode = Some "download")).
    + by rewrite bool_decide_eq_false_2 by (by intros [??]).
  - destruct (name_before_returns "_cover_letter" "default"
                (basename (output_path filename)) w) as [tn Htn].
    exists tn. unfold serve, dispatch, download_cover_letter, output_path in *. run.
    destruct (files w !! ("output/" +:+ filename)) eqn:E; run.
    + rewrite bool_decide_eq_true_2 by done. rewrite Htn.
      by destruct (bool_decide (mode = Some "download")).
    + by rewrite bool_decide_eq_false_2 by (by intros [??]).
  - destruct (unauthenticated_dependency auth t w Hauth) as (sc & d & Hdep & Heq).
    unfold serve, dispatch.
    destruct t; try discriminate Hprot;
      cbn [target]; unfold mbind, M_mbind, M_bind in *;
      (destruct (security _ w) as [w1 [c|x]];
       [destruct (get_current_user c w1) as [w2 [u|x]]|]);
      simplify_eq; destruct auth; by simplify_eq.
Qed.

(** With a valid token a protected route runs its endpoint. *)
Lemma templates_listed_with_token credentials w :
  authenticated (Some credentials) = true ->
  serve (MkRequest (Some credentials) GetTemplates) w
  = (w, TemplateList listdir_resume_templates).
Proof.
  intros H. unfold serve, dispatch, security, get_current_user, get_templates. run.
  simpl in H. destruct (jwt_decode credentials) as [[u|]|]; try done. run.
  by destruct (find _ users).
Qed.

End RouteFacts.


(** ** What a generation writes *)

Section FrameFacts.

#[local] Arguments String.append !_ _ / : simpl nomatch.

Context {A B : Type}.
Implicit Types (P : string -> bool).








End FrameFacts.

Section FrameSteps.

#[local] Arguments String.append !_ _ / : simpl nomatch.

Implicit Types (P : string -> bool).






End FrameSteps.

Section FrameOfGeneration.

#[local] Arguments String.append !_ _ / : simpl nomatch.

Implicit Types (P : string -> bool).















End FrameOfGeneration.

Section InPlace.

#[local] Arguments String.append !_ _ / : simpl nomatch.

Lemma append_pdf_md p : p +:+ ".pdf" <> p +:+ ".md".
Proof. induction p as [|c p IH]; simpl; [done|]. intros [= H]. by apply IH. Qed.

(** Whatever the output directory held before, after a cover letter is
    generated for the template [name] the file
    output/<name>_cover_letter.md holds the new letter. *)
Lemma cover_letter_written_in_place r job_description name w e' text bytes :
  generate_content (env w)
    (cover_letter_prompt (Resume.name r)
       (json_dumps (PDict (map (fun '(k, v) => (k, PStr v)) (Resume.contact r))))
       (Resume.summary r) (prompt_skills_text (Resume.skills r))
       (json_dumps_indent (PList (map PStr (experience_highlights (Resume.experience r)))))
       job_description)
  = (e', Return text) ->
  markdown_pdf 2 (clean_cover_letter text) document_css "Document" "Resumer Application"
  = Return bytes ->
  exists w',
    generate_cover_letter r job_description (Some name) w
    = (w', Return ("output/" +:+ cover_letter_prefix name +:+ ".pdf"))
    /\ files w' !! ("output/" +:+ cover_letter_prefix name +:+ ".md")
       = Some (clean_cover_letter text).
Proof.
  intros Hg Hpdf.
  unfold generate_cover_letter, generate_pdf_from_markdown, save_pdf, output_path,
    call_model, write_file, lift, mbind, mret, M_mbind, M_mret, M_bind, M_ret.
  cbn beta iota delta [files env]. rewrite Hg. cbn beta iota delta [files env].
  rewrite Hpdf. eexists. split; [done|]. cbn [files].
  rewrite <- !append_assoc.
  rewrite lookup_insert_ne by apply append_pdf_md.
  destruct (decide (replace ".pdf" ".md" (("output/" +:+ cover_letter_prefix name) +:+ ".pdf")
                    = ("output/" +:+ cover_letter_prefix name) +:+ ".md")) as [->|Hne].
  - by rewrite lookup_insert_eq.
  - rewrite lookup_insert_ne by done. by rewrite lookup_insert_eq.
Qed.

End InPlace.

(** ** Placeholder substitution on well-formed templates *)

Section TemplateFacts.

#[local] Arguments String.append !_ _ / : simpl nomatch.

Implicit Types (s t v n m : string) (c : ascii) (segs : list segment).

Lemma brace_free_app s t : brace_free (s +:+ t) = brace_free s && brace_free t.
Proof.
  induction s as [|c s IH]; simpl; [done|].
  by rewrite IH, andb_assoc.
Qed.

(** A pattern that starts with ["{"] matches nowhere at a character that
    is not ["{"]. *)
Lemma startswith_open_brace n c s :
  Ascii.eqb c "{" = false -> startswith (placeholder n) (String c s) = false.
Proof.
  intros H. unfold placeholder.
  change ("{{" +:+ n +:+ "}}") with (String "{" (String "{" (n +:+ "}}"))).
  cbn [startswith]. by rewrite Ascii.eqb_sym, H.
Qed.

(** The pass copies text without ["{"]. *)
Lemma replace_from_no_open n v t rest :
  (forall c, In c (list_ascii_of_string t) -> Ascii.eqb c "{" = false) ->
  replace_from 0 (placeholder n) v (t +:+ rest)
  = t +:+ replace_from 0 (placeholder n) v rest.
Proof.
  induction t as [|c t IH]; intros H; [done|].
  change (String c t +:+ rest) with (String c (t +:+ rest)).
  rewrite replace_from_unfold, startswith_open_brace by (apply H; by left).
  rewrite IH; [done|]. intros d Hd. apply H. by right.
Qed.

Lemma brace_free_no_open t c :
  brace_free t = true -> In c (list_ascii_of_string t) -> Ascii.eqb c "{" = false.
Proof.
  induction t as [|d t IH]; simpl; [done|].
  intros [Hd Ht]%andb_true_iff [->|Hin]; [|by apply IH].
  apply negb_true_iff in Hd. unfold is_brace in Hd.
  by apply orb_false_iff in Hd as [? _].
Qed.

Lemma brace_free_no_close t c :
  brace_free t = true -> In c (list_ascii_of_string t) -> Ascii.eqb c "}" = false.
Proof.
  induction t as [|d t IH]; simpl; [done|].
  intros [Hd Ht]%andb_true_iff [->|Hin]; [|by apply IH].
  apply negb_true_iff in Hd. unfold is_brace in Hd.
  by apply orb_false_iff in Hd as [_ ?].
Qed.

(** Two placeholders that match at their start carry the same name. *)
Lemma startswith_name_close n m rest :
  brace_free n = true -> brace_free m = true ->
  startswith (n +:+ "}}") (m +:+ "}}" +:+ rest) = true -> n = m.
Proof.
  revert m. induction n as [|c n IH]; intros m Hn Hm H.
  - destruct m as [|d m]; [done|].
    cbn [brace_free] in Hm. apply andb_true_iff in Hm as [Hd _].
    apply negb_true_iff in Hd. unfold is_brace in Hd.
    apply orb_false_iff in Hd as [_ Hd].
    change (startswith (String "}" "}") (String d (m +:+ "}}" +:+ rest)) = true) in H.
    cbn [startswith] in H. by rewrite Ascii.eqb_sym, Hd in H.
  - cbn [brace_free] in Hn. apply andb_true_iff in Hn as [Hc Hn].
    apply negb_true_iff in Hc. unfold is_brace in Hc.
    apply orb_false_iff in Hc as [_ Hc].
    destruct m as [|d m].
    + change (startswith (String c (n +:+ "}}")) (String "}" (String "}" rest)) = true) in H.
      cbn [startswith] in H. by rewrite Hc in H.
    + change (startswith (String c (n +:+ "}}")) (String d (m +:+ "}}" +:+ rest)) = true) in H.
      cbn [startswith] in H.
      apply andb_true_iff in H as [Hcd H]. apply Ascii.eqb_eq in Hcd as ->.
      cbn [brace_free] in Hm. apply andb_true_iff in Hm as [_ Hm].
      by rewrite (IH m Hn Hm H).
Qed.

Lemma replace_placeholder n v s :
  replace (placeholder n) v s = replace_from 0 (placeholder n) v s.
Proof. done. Qed.

Lemma placeholder_app n rest :
  placeholder n +:+ rest = String "{" (String "{" ((n +:+ "}}") +:+ rest)).
Proof. unfold placeholder. by rewrite <- !append_assoc. Qed.

(** The pass replaces the placeholder it looks for ... *)
Lemma replace_from_hole_same n v rest :
  replace_from 0 (placeholder n) v (placeholder n +:+ rest)
  = v +:+ replace_from 0 (placeholder n) v rest.
Proof. by apply (replace_from_first_at (placeholder n) v "" rest). Qed.

(** ... and copies any other placeholder. *)
Lemma replace_from_hole_other n m v rest :
  brace_free n = true -> brace_free m = true -> n <> m ->
  replace_from 0 (placeholder n) v (placeholder m +:+ rest)
  = placeholder m +:+ replace_from 0 (placeholder n) v rest.
Proof.
  intros Hn Hm Hne. rewrite !placeholder_app.
  rewrite replace_from_unfold.
  assert (startswith (placeholder n) (String "{" (String "{" ((m +:+ "}}") +:+ rest)))
          = false) as ->.
  { destruct (startswith _ _) eqn:E; [|done]. exfalso. apply Hne.
    unfold placeholder in E.
    change ("{{" +:+ n +:+ "}}") with (String "{" (String "{" (n +:+ "}}"))) in E.
    cbn [startswith] in E. rewrite !Ascii.eqb_refl in E. cbn [andb] in E.
    rewrite append_assoc in E. by apply (startswith_name_close n m rest). }
  rewrite replace_from_unfold.
  assert (startswith (placeholder n) (String "{" ((m +:+ "}}") +:+ rest)) = false) as ->.
  { unfold placeholder.
    change ("{{" +:+ n +:+ "}}") with (String "{" (String "{" (n +:+ "}}"))).
    cbn [startswith]. rewrite Ascii.eqb_refl. cbn [andb].
    destruct m as [|d m]; [done|].
    change ((String d m +:+ "}}") +:+ rest) with (String d ((m +:+ "}}") +:+ rest)).
    cbn [brace_free] in Hm. apply andb_true_iff in Hm as [Hd _].
    apply negb_true_iff in Hd. unfold is_brace in Hd.
    apply orb_false_iff in Hd as [Hd _].
    by rewrite Ascii.eqb_sym, Hd. }
  rewrite replace_from_no_open; [done|].
  intros c Hc. rewrite <- (string_of_list_ascii_of_string (m +:+ "}}")) in Hc.
  rewrite list_ascii_of_string_of_list_ascii in Hc.
  assert (In c (list_ascii_of_string m) \/ c = "}"%char) as [Hin| ->].
  { clear -Hc. induction m as [|d m IH]; simpl in Hc.
    - right. by destruct Hc as [<-|[<-|[]]].
    - destruct Hc as [<-|Hc]; [left; by left|].
      destruct (IH Hc) as [?|?]; [left; by right | by right]. }
  - by apply (brace_free_no_open m).
  - done.
Qed.

(** Substituting in the text is substituting in the sequence. *)
Lemma replace_render allowed n v segs :
  brace_free n = true -> segments_ok allowed segs = true ->
  replace (placeholder n) v (render segs) = render (subst_hole n v segs).
Proof.
  intros Hn. rewrite replace_placeholder.
  induction segs as [|[t|m] segs IH]; intros H; [done|..];
    cbn [segments_ok forallb segment_ok] in H;
    apply andb_true_iff in H as [H1 H2];
    cbn [render subst_hole map].
  - rewrite replace_from_no_open by (intros c; by apply brace_free_no_open).
    by rewrite (IH H2).
  - apply andb_true_iff in H1 as [Hm _].
    destruct (String.eqb_spec m n) as [->|Hne]; cbn [render].
    + rewrite replace_from_hole_same. by rewrite (IH H2).
    + rewrite replace_from_hole_other by done. by rewrite (IH H2).
Qed.

Lemma segments_ok_subst n allowed v segs :
  brace_free v = true ->
  segments_ok (n :: allowed) segs = true ->
  segments_ok allowed (subst_hole n v segs) = true.
Proof.
  intros Hv. unfold segments_ok, subst_hole.
  induction segs as [|[t|m] segs IH]; cbn [forallb map segment_ok existsb]; [done|..];
    intros [H1 H2]%andb_true_iff.
  - by rewrite H1, (IH H2).
  - rewrite (IH H2), andb_true_r.
    apply andb_true_iff in H1 as [Hm Hin].
    destruct (String.eqb m n); cbn [segment_ok]; [done|].
    by rewrite Hm.
Qed.

(** One replacement removes one name from the placeholders left. *)
Lemma fills_replace n allowed v s :
  brace_free n = true -> brace_free v = true ->
  fills (n :: allowed) s -> fills allowed (replace (placeholder n) v s).
Proof.
  intros Hn Hv (segs & -> & Hok). exists (subst_hole n v segs). split.
  - by apply (replace_render (n :: allowed)).
  - by apply segments_ok_subst.
Qed.

(** With no placeholder left the text is free of braces. *)
Lemma fills_nil s : fills [] s -> brace_free s = true.
Proof.
  intros (segs & -> & Hok).
  induction segs as [|[t|m] segs IH]; [done|..];
    cbn [segments_ok forallb segment_ok existsb] in Hok;
    apply andb_true_iff in Hok as [H1 H2].
  - cbn [render]. by rewrite brace_free_app, H1, (IH H2).
  - by rewrite andb_false_r in H1.
Qed.

(** A text free of braces holds no placeholder: substituting in it
    changes nothing. *)
Lemma replace_brace_free n v s :
  brace_free s = true -> replace (placeholder n) v s = s.
Proof.
  intros H. rewrite replace_placeholder.
  rewrite <- (append_nil_r s) at 1.
  rewrite replace_from_no_open by (intros c; by apply brace_free_no_open).
  simpl. by rewrite append_nil_r.
Qed.

End TemplateFacts.

(** ** Brace-free values *)

Section BraceFacts.

#[local] Arguments String.append !_ _ / : simpl nomatch.

Implicit Types (s t v sep : string) (c : ascii) (l : list string).

Lemma brace_free_join sep l :
  brace_free sep = true -> forallb brace_free l = true -> brace_free (join sep l) = true.
Proof.
  intros Hsep. induction l as [|x l IH]; [done|].
  cbn [forallb]. intros [Hx Hl]%andb_true_iff.
  destruct l as [|y l]; [done|].
  change (join sep (x :: y :: l)) with (x +:+ sep +:+ join sep (y :: l)).
  by rewrite !brace_free_app, Hx, Hsep, (IH Hl).
Qed.

Lemma brace_free_concat_str l :
  forallb brace_free l = true -> brace_free (concat_str l) = true.
Proof.
  induction l as [|x l IH]; [done|].
  cbn [forallb concat_str fold_right]. intros [Hx Hl]%andb_true_iff.
  rewrite brace_free_app, Hx. by apply IH.
Qed.

Lemma brace_free_lstrip s : brace_free s = true -> brace_free (lstrip s) = true.
Proof.
  induction s as [|c s IH]; [done|]. cbn [lstrip brace_free].
  intros [Hc Hs]%andb_true_iff. destruct (isspace c); [by apply IH|].
  cbn [brace_free]. by rewrite Hc, Hs.
Qed.

Lemma brace_free_rstrip s : brace_free s = true -> brace_free (rstrip s) = true.
Proof.
  induction s as [|c s IH]; [done|]. cbn [rstrip brace_free].
  intros [Hc Hs]%andb_true_iff. specialize (IH Hs).
  destruct (rstrip s) as [|d r].
  - destruct (isspace c); [done|]. cbn [brace_free]. by rewrite Hc.
  - cbn [brace_free] in *. by rewrite Hc, IH.
Qed.

Lemma brace_free_strip s : brace_free s = true -> brace_free (strip s) = true.
Proof. intros H. by apply brace_free_rstrip, brace_free_lstrip. Qed.

Lemma brace_free_replace_from k old new s :
  brace_free new = true -> brace_free s = true ->
  brace_free (replace_from k old new s) = true.
Proof.
  intros Hnew. revert k. induction s as [|c s IH]; intros k; [done|].
  cbn [brace_free]. intros [Hc Hs]%andb_true_iff.
  destruct k as [|k]; cbn [replace_from]; [|by apply IH].
  destruct (startswith old (String c s)).
  - rewrite brace_free_app, Hnew. by apply IH.
  - cbn [brace_free]. rewrite Hc. by apply IH.
Qed.

Lemma brace_free_partition sep s a b :
  partition sep s = Some (a, b) -> brace_free s = true ->
  brace_free a = true /\ brace_free b = true.
Proof.
  intros ->%partition_sound. rewrite !brace_free_app.
  intros [Ha [_ Hb]%andb_true_iff]%andb_true_iff. done.
Qed.

(** The company split always returns, and keeps braces out. *)
Lemma split_company_plain company :
  exists name location,
    split_company company = Return (name, location)
    /\ (brace_free company = true ->
        brace_free name = true /\ brace_free location = true).
Proof.
  unfold split_company.
  destruct (contains "(" company) eqn:E; cbn [andb]; [|by eexists _, _].
  destruct (contains ")" company); [|by eexists _, _].
  apply contains_true in E as (a & b & E). unfold split1. rewrite E.
  eexists _, _. split; [done|]. intros H.
  destruct (brace_free_partition _ _ _ _ E H) as [Ha Hb]. split.
  - by apply brace_free_strip.
  - apply brace_free_strip. by apply brace_free_replace_from.
Qed.

(** So does the period split. *)
Lemma split_period_plain period :
  exists from_date to_date,
    split_period period = Return (from_date, to_date)
    /\ (brace_free period = true ->
        brace_free from_date = true /\ brace_free to_date = true).
Proof.
  unfold split_period.
  destruct (contains "-" period) eqn:E; [|by eexists _, _].
  apply contains_true in E as (a & b & E). unfold split1. rewrite E.
  eexists _, _. split; [done|]. intros H.
  destruct (brace_free_partition _ _ _ _ E H) as [Ha Hb].
  split; by apply brace_free_strip.
Qed.

End BraceFacts.

(** ** The markdown of a plain resume *)

Section RenderingFacts.

#[local] Arguments String.append !_ _ / : simpl nomatch.

Variable S : TemplateSegments.
Hypothesis HS : templates_ok S = true.

#[local] Abbreviation T := (render_templates S).

(** One replacement, by the name of its placeholder. *)
Ltac fill name := apply (fills_replace name); [reflexivity | | ].

Lemma fills_of_segments allowed segs :
  segments_ok allowed segs = true -> fills allowed (render segs).
Proof. intros H. by exists segs. Qed.

Lemma templates_ok_fills :
  fills ["top_section"; "summary_section"; "references_section";
         "experiences_section"; "skills_section"; "education_section"]
        (template_content T)
  /\ fills ["name"; "location_section"; "contacts"] (top_section_template T)
  /\ fills ["summary"] (summary_section_template T)
  /\ fills ["references"] (references_section_template T)
  /\ fills ["name"; "text"; "link"] (reference_item_template T)
  /\ fills ["experiences"] (experiences_section_template T)
  /\ fills ["position"; "company_name"; "location"; "from"; "to";
            "description"; "skills"; "highlights"] (experience_item_template T)
  /\ fills ["highlights"] (experience_highlights_template T)
  /\ fills ["highlight"] (experience_highlight_item_template T)
  /\ fills ["skills"] (skills_section_template T)
  /\ fills ["category"; "skills"] (skill_section_item_template T)
  /\ fills ["degree"; "university"; "period"; "description"]
           (education_section_template T)
  /\ fills ["location"] (location_section_template T).
Proof.
  pose proof HS as H. unfold templates_ok in H.
  repeat (apply andb_true_iff in H as [H ?]).
  repeat split; by apply fills_of_segments.
Qed.

Lemma get_plain dflt o :
  brace_free dflt = true -> plain_opt o = true -> brace_free (get dflt o) = true.
Proof. by destruct o. Qed.

Lemma lookup_key_plain key d v :
  forallb plain_pair d = true -> lookup_key key d = Some v -> brace_free v = true.
Proof.
  induction d as [|[k x] d IH]; [done|]. cbn [forallb lookup_key].
  intros [Hkx Hd]%andb_true_iff. destruct (String.eqb k key); [|by apply IH].
  intros [= <-]. unfold plain_pair in Hkx. by apply andb_true_iff in Hkx as [_ ?].
Qed.

Lemma location_section_plain contact :
  forallb plain_pair contact = true ->
  brace_free (location_section T contact) = true.
Proof.
  intros Hc. unfold location_section.
  destruct (lookup_key "location" contact) as [loc|] eqn:E; [|done].
  destruct (truthy loc); [|done].
  apply fills_nil. fill "location".
  - by apply (lookup_key_plain _ _ _ Hc E).
  - apply templates_ok_fills.
Qed.

Lemma contact_link_plain key value :
  brace_free key = true -> brace_free value = true ->
  brace_free (contact_link key value) = true.
Proof.
  intros Hk Hv. unfold contact_link.
  rewrite !brace_free_app, Hk, Hv. done.
Qed.

Lemma contacts_html_plain contact :
  forallb plain_pair contact = true -> brace_free (contacts_html contact) = true.
Proof.
  intros Hc. unfold contacts_html. apply brace_free_join; [done|].
  induction contact as [|[k v] contact IH]; [done|].
  cbn [forallb] in Hc. apply andb_true_iff in Hc as [Hkv Hc].
  cbn [filter list_filter]. unfold plain_pair in Hkv.
  apply andb_true_iff in Hkv as [Hk Hv].
  case_decide; cbn [map forallb]; [|by apply IH].
  apply andb_true_iff. split; [by apply contact_link_plain | by apply IH].
Qed.

Lemma top_section_plain r :
  plain_resume r = true -> brace_free (top_section T r) = true.
Proof.
  intros H. unfold plain_resume in H.
  repeat (apply andb_true_iff in H as [H ?]).
  unfold top_section. apply fills_nil.
  fill "contacts"; [by apply contacts_html_plain|].
  fill "location_section"; [by apply location_section_plain|].
  fill "name"; [done|]. apply templates_ok_fills.
Qed.

Lemma summary_section_plain r :
  plain_resume r = true -> brace_free (summary_section T r) = true.
Proof.
  intros H. unfold plain_resume in H.
  repeat (apply andb_true_iff in H as [H ?]).
  unfold summary_section. apply fills_nil.
  fill "summary"; [done|]. apply templates_ok_fills.
Qed.

Lemma skill_value_text_plain v :
  plain_skill_value v = true -> brace_free (skill_value_text v) = true.
Proof. destruct v as [l|s]; [|done]. by apply brace_free_join. Qed.

Lemma experience_skills_text_plain exp :
  plain_exp exp = true -> brace_free (experience_skills_text exp) = true.
Proof.
  intros H. unfold plain_exp in H. repeat (apply andb_true_iff in H as [H ?]).
  unfold experience_skills_text. destruct (Exp.skills exp) as [v|]; [|done].
  destruct (skill_value_truthy v); [|done]. by apply skill_value_text_plain.
Qed.

Lemma highlight_items_plain hs :
  forallb brace_free hs = true ->
  forallb brace_free
    (map (fun highlight =>
            replace "{{highlight}}" highlight (experience_highlight_item_template T))
         (filter (fun highlight => truthy highlight && truthy (strip highlight)) hs))
  = true.
Proof.
  induction hs as [|h hs IH]; [done|]. cbn [forallb filter list_filter].
  intros [Hh Hhs]%andb_true_iff.
  case_decide; cbn [map forallb]; [|by apply IH].
  apply andb_true_iff. split; [|by apply IH]. apply fills_nil.
  fill "highlight"; [done|]. apply templates_ok_fills.
Qed.

Lemma highlights_html_plain exp :
  plain_exp exp = true -> brace_free (highlights_html T exp) = true.
Proof.
  intros H. unfold plain_exp in H. repeat (apply andb_true_iff in H as [H ?]).
  unfold highlights_html.
  destruct (_ && _); [|done]. apply fills_nil.
  fill "highlights"; [|apply templates_ok_fills].
  apply brace_free_concat_str, highlight_items_plain.
  by destruct (Exp.highlights exp).
Qed.

Lemma experience_item_plain exp :
  plain_exp exp = true ->
  exists it, experience_item T exp = Return it /\ brace_free it = true.
Proof.
  intros Hexp. pose proof Hexp as H. unfold plain_exp in H.
  repeat (apply andb_true_iff in H as [H ?]).
  unfold experience_item.
  destruct (split_company_plain (get "" (Exp.company exp)))
    as (company & location & -> & Hc).
  destruct (split_period_plain (get "" (Exp.period exp)))
    as (from_date & to_date & -> & Hp).
  destruct Hc as [Hc1 Hc2]; [by apply get_plain|].
  destruct Hp as [Hp1 Hp2]; [by apply get_plain|].
  eexists. split; [done|]. apply fills_nil.
  fill "highlights"; [by apply highlights_html_plain|].
  fill "skills"; [by apply experience_skills_text_plain|].
  fill "description"; [by apply get_plain|].
  fill "to"; [done|]. fill "from"; [done|].
  fill "location"; [done|]. fill "company_name"; [done|].
  fill "position"; [by apply get_plain|].
  apply templates_ok_fills.
Qed.

Lemma experiences_plain l :
  forallb plain_exp l = true ->
  exists exps, experiences T l = Return exps /\ brace_free exps = true.
Proof.
  induction l as [|exp l IH]; [by eexists|]. cbn [forallb experiences].
  intros [He Hl]%andb_true_iff.
  destruct (experience_item_plain exp He) as (it & -> & Hit).
  destruct (IH Hl) as (rest & -> & Hrest).
  eexists. split; [done|]. by rewrite !brace_free_app, Hit, Hrest.
Qed.

Lemma skills_html_plain skills :
  plain_skills skills = true -> brace_free (skills_html T skills) = true.
Proof.
  destruct skills as [d|l|s]; [|done..]. cbn [plain_skills skills_html].
  intros H. apply brace_free_concat_str.
  induction d as [|[category v] d IH]; [done|]. cbn [forallb map] in *.
  apply andb_true_iff in H as [[Hc Hv]%andb_true_iff Hd].
  apply andb_true_iff. split; [|by apply IH].
  rewrite brace_free_app. apply andb_true_iff. split; [|done]. apply fills_nil.
  fill "skills"; [by apply skill_value_text_plain|].
  fill "category"; [done|]. apply templates_ok_fills.
Qed.

Lemma skills_section_plain r :
  plain_resume r = true -> brace_free (skills_section T r) = true.
Proof.
  intros H. unfold plain_resume in H. repeat (apply andb_true_iff in H as [H ?]).
  unfold skills_section. apply fills_nil.
  fill "skills"; [by apply skills_html_plain|]. apply templates_ok_fills.
Qed.

Lemma education_section_plain r :
  plain_resume r = true -> brace_free (education_section T r) = true.
Proof.
  intros H. unfold plain_resume in H. repeat (apply andb_true_iff in H as [H ?]).
  unfold education_section, plain_education in *.
  destruct (Resume.education r) as [e| |]; [|done..].
  match goal with H : _ && _ = true |- _ =>
    repeat (apply andb_true_iff in H as [H ?]) end.
  apply fills_nil.
  fill "description"; [by apply get_plain|]. fill "period"; [by apply get_plain|].
  fill "university"; [by apply get_plain|]. fill "degree"; [by apply get_plain|].
  apply templates_ok_fills.
Qed.

Lemma reference_item_plain ref :
  plain_ref ref = true -> brace_free (reference_item T ref) = true.
Proof.
  intros H. unfold plain_ref in H. repeat (apply andb_true_iff in H as [H ?]).
  unfold reference_item. apply fills_nil.
  fill "link"; [by apply get_plain|]. fill "text"; [by apply get_plain|].
  fill "name"; [by apply get_plain|]. apply templates_ok_fills.
Qed.

Lemma references_section_plain r :
  plain_resume r = true -> brace_free (references_section T r) = true.
Proof.
  intros H. unfold plain_resume in H. repeat (apply andb_true_iff in H as [H ?]).
  unfold references_section.
  destruct (Resume.references r) as [[|ref refs]|]; [done| |done].
  apply fills_nil. fill "references"; [|apply templates_ok_fills].
  apply brace_free_concat_str.
  match goal with H : forallb plain_ref _ = true |- _ => revert H end.
  generalize (ref :: refs). intros l. induction l as [|x l IH]; [done|].
  cbn [forallb map]. intros [Hx Hl]%andb_true_iff.
  apply andb_true_iff. split; [by apply reference_item_plain | by apply IH].
Qed.

Lemma assemble_plain r experiences_section :
  plain_resume r = true -> brace_free experiences_section = true ->
  brace_free (assemble T r experiences_section) = true.
Proof.
  intros H He. unfold assemble. apply fills_nil.
  fill "education_section"; [by apply education_section_plain|].
  fill "skills_section"; [by apply skills_section_plain|].
  fill "experiences_section"; [done|].
  fill "references_section"; [by apply references_section_plain|].
  fill "summary_section"; [by apply summary_section_plain|].
  fill "top_section"; [by apply top_section_plain|].
  apply templates_ok_fills.
Qed.

(** The renderer returns, and its output is free of braces. *)
Lemma markdown_of_plain r :
  plain_resume r = true ->
  exists out, markdown_of T r = Return out /\ brace_free out = true.
Proof.
  intros H. unfold markdown_of.
  destruct (experiences_plain (Resume.experience r)) as (exps & -> & Hexps).
  { unfold plain_resume in H. by repeat (apply andb_true_iff in H as [H ?]). }
  eexists. split; [done|]. apply assemble_plain; [done|].
  apply fills_nil. fill "experiences"; [done|]. apply templates_ok_fills.
Qed.

End RenderingFacts.

Section MarkdownFacts.

#[local] Arguments String.append !_ _ / : simpl nomatch.

(** C2 (as amended).  For fragment templates made of brace-free text and
    of the placeholders the renderer substitutes in each fragment, and for
    a resume whose education is a mapping and none of whose strings holds
    a brace: the renderer returns markdown without any brace, hence
    without any {{...}} token; substituting any placeholder in it again
    leaves it unchanged; and a missing or empty references list, or a
    missing or empty contact location, gives the empty string for its
    section. *)
Theorem markdown_without_placeholders (S : TemplateSegments) (r : Resume.t) (w : world) :
  templates_ok S = true ->
  plain_resume r = true ->
  load_templates w = (w, Return (render_templates S)) ->
  exists out,
    convert_json_to_markdown r w
    = (World (<["output/tailored_resume_markdown_" +:+ now (env w) +:+ ".md" := out]>
                (files w)) (env w),
       Return out)
    /\ brace_free out = true
    /\ (forall name, contains (placeholder name) out = false)
    /\ (forall name value, replace (placeholder name) value out = out)
    /\ match Resume.references r with
       | Some (_ :: _) => True
       | _ => references_section (render_templates S) r = ""
       end
    /\ match lookup_key "location" (Resume.contact r) with
       | Some (String _ _) => True
       | _ => location_section (render_templates S) (Resume.contact r) = ""
       end.
Proof.
  intros HS Hr Hload.
  destruct (markdown_of_plain S HS r Hr) as (out & Hout & Hfree).
  exists out. split; [|split; [done|split; [|split; [|split]]]].
  - unfold convert_json_to_markdown, mbind, M_mbind, M_bind.
    rewrite Hload. unfold lift. by rewrite Hout.
  - intros name. destruct (contains (placeholder name) out) eqn:E; [|done].
    apply contains_true in E as (a & b & E). apply partition_sound in E.
    rewrite E, !brace_free_app in Hfree. unfold placeholder in Hfree.
    by rewrite andb_false_r in Hfree.
  - intros name value. by apply replace_brace_free.
  - unfold references_section. by destruct (Resume.references r) as [[|??]|].
  - unfold location_section.
    by destruct (lookup_key "location" (Resume.contact r)) as [[|??]|].
Qed.

End MarkdownFacts.

(** ** Where a substituted value ends up *)

Section OccurrenceFacts.

#[local] Arguments String.append !_ _ / : simpl nomatch.

Implicit Types (s t v n h : string) (segs : list segment).

Lemma contains_trans a b c :
  contains a b = true -> contains b c = true -> contains a c = true.
Proof.
  intros (x & y & ->%partition_sound)%contains_true
         (u & z & ->%partition_sound)%contains_true.
  replace (u +:+ (x +:+ a +:+ y) +:+ z) with ((u +:+ x) +:+ a +:+ (y +:+ z))
    by (by rewrite !append_assoc).
  apply contains_app_mid.
Qed.






End OccurrenceFacts.

(** ** Education defaults *)

Section EducationFacts.

#[local] Arguments String.append !_ _ / : simpl nomatch.

Variable S : TemplateSegments.
Hypothesis HS : templates_ok S = true.

#[local] Abbreviation T := (render_templates S).


Lemma edu_key_default_plain k : brace_free (edu_key_default k) = true.
Proof. by destruct k. Qed.



End EducationFacts.

Section EducationClaim.

#[local] Arguments String.append !_ _ / : simpl nomatch.


End EducationClaim.

(** * Further properties of the code *)

(** ** More on cutting and trimming *)

Section MoreStringFacts.

#[local] Arguments String.append !_ _ / : simpl nomatch.

Implicit Types (s t a b sep p : string) (c : ascii).

Lemma startswith_app_r p s t :
  startswith p s = true -> startswith p (s +:+ t) = true.
Proof.
  intros [r ->]%startswith_inv. rewrite append_assoc. apply startswith_app.
Qed.

Lemma contains_cons sep c s :
  contains sep (String c s) = startswith sep (String c s) || contains sep s.
Proof.
  unfold contains. rewrite partition_unfold.
  destruct (startswith sep (String c s)); [done|].
  by destruct (partition sep s) as [[??]|].
Qed.

(** What [partition] puts before the cut ends where the leftmost
    occurrence starts. *)
Lemma partition_first_at_inv sep s a b :
  partition sep s = Some (a, b) -> first_at sep a = true.
Proof.
  revert a b. induction s as [|c s IH]; intros a b; rewrite partition_unfold.
  - destruct (startswith sep ""); [|done]. by intros [= <- _].
  - destruct (startswith sep (String c s)) eqn:E; [by intros [= <- _]|].
    destruct (partition sep s) as [[a' b']|] eqn:P; [|done].
    intros [= <- <-]. cbn [first_at]. rewrite (IH _ _ eq_refl), andb_true_r.
    apply negb_true_iff.
    destruct (startswith sep (String c a' +:+ sep)) eqn:E'; [|done].
    apply (startswith_app_r _ _ b') in E'.
    rewrite append_assoc in E'.
    change (String c a' +:+ sep +:+ b') with (String c (a' +:+ sep +:+ b')) in E'.
    rewrite <- (partition_sound _ _ _ _ P) in E'. congruence.
Qed.

Lemma first_at_absent sep a :
  sep <> "" -> first_at sep a = true -> contains sep a = false.
Proof.
  intros Hsep. induction a as [|c a IH]; intros H.
  - destruct sep; [done|]. done.
  - cbn [first_at] in H. apply andb_true_iff in H as [H1 H2].
    apply negb_true_iff in H1. rewrite contains_cons, (IH H2), orb_false_r.
    destruct (startswith sep (String c a)) eqn:E; [|done].
    apply (startswith_app_r _ _ sep) in E. congruence.
Qed.

(** The text before the cut holds no separator. *)
Lemma partition_before_absent sep s a b :
  sep <> "" -> partition sep s = Some (a, b) -> contains sep a = false.
Proof.
  intros Hsep H. apply first_at_absent; [done|].
  by apply (partition_first_at_inv _ _ _ _ H).
Qed.

(** What does not occur in a string does not occur inside it. *)
Lemma contains_absent_mid sep l m r :
  contains sep (l +:+ m +:+ r) = false -> contains sep m = false.
Proof.
  intros H. destruct (contains sep m) eqn:E; [|done].
  rewrite (contains_trans sep m (l +:+ m +:+ r) E) in H; [done|].
  apply contains_app_mid.
Qed.

Lemma lstrip_suffix s : exists l, s = l +:+ lstrip s.
Proof.
  induction s as [|c s [l IH]]; [by exists ""|]. cbn [lstrip].
  destruct (isspace c); [|by exists ""].
  exists (String c l). simpl. by rewrite <- IH.
Qed.

Lemma rstrip_prefix s : exists r, s = rstrip s +:+ r.
Proof.
  induction s as [|c s [r IH]]; [by exists ""|]. cbn [rstrip].
  destruct (rstrip s) as [|d u] eqn:E.
  - destruct (isspace c); [by exists (String c s)|].
    exists s. done.
  - exists r. simpl. by rewrite IH at 1.
Qed.

(** Trimming brings in no occurrence. *)
Lemma contains_absent_strip sep s :
  contains sep s = false -> contains sep (strip s) = false.
Proof.
  intros H. unfold strip.
  destruct (lstrip_suffix s) as [l Hl].
  destruct (rstrip_prefix (lstrip s)) as [r Hr].
  rewrite Hl, Hr in H. by apply contains_absent_mid in H.
Qed.


End MoreStringFacts.

(** ** The extraction beyond tagged blocks *)

Section MoreExtractionFacts.

#[local] Arguments String.append !_ _ / : simpl nomatch.

Ltac run_outcome :=
  cbn [item lookup list_lookup mbind mret outcome_mbind outcome_bind outcome_ret].

Lemma fenced_by_absent sep text :
  contains sep text = false -> fenced_by sep text = Return false.
Proof. intros H. unfold fenced_by. by rewrite H. Qed.




(** X2.  The [elif] branch: without any ```json in the response, the block
    between the two leftmost fences is cut out and trimmed. *)
Theorem untagged_block_extracted prefix body suffix :
  contains fence_json (prefix +:+ fence +:+ body +:+ fence +:+ suffix) = false ->
  contains fence prefix = false ->
  ends_with_char "`" prefix = false ->
  contains fence body = false ->
  ends_with_char "`" body = false ->
  extract_json_str (prefix +:+ fence +:+ body +:+ fence +:+ suffix)
  = Return (strip body).
Proof.
  intros Hj Hp Hpe Hb Hbe.
  pose proof (first_at_fence _ Hp Hpe) as Fp.
  pose proof (first_at_fence _ Hb Hbe) as Fb.
  unfold extract_json_str. rewrite (fenced_by_absent fence_json) by done.
  run_outcome. unfold fenced_by, fence_interior.
  rewrite (contains_first_at _ _ _ Fp), (split1_first_at _ _ _ Fp). run_outcome.
  rewrite (contains_first_at _ _ _ Fb). run_outcome.
  by rewrite (split1_first_at _ _ _ Fb).
Qed.

(** X3.  A fence that is never closed is not a block: the whole text is
    returned, untrimmed. *)
Theorem unclosed_fence_ignored a b :
  contains fence_json (a +:+ fence +:+ b) = false ->
  contains fence a = false ->
  ends_with_char "`" a = false ->
  contains fence b = false ->
  extract_json_str (a +:+ fence +:+ b) = Return (a +:+ fence +:+ b).
Proof.
  intros Hj Ha Hae Hb. pose proof (first_at_fence _ Ha Hae) as Fa.
  unfold extract_json_str. rewrite (fenced_by_absent fence_json) by done.
  run_outcome. unfold fenced_by.
  rewrite (contains_first_at _ _ _ Fa), (split1_first_at _ _ _ Fa). run_outcome.
  by rewrite Hb.
Qed.

End MoreExtractionFacts.

Section AnalysisNeverRaises.


End AnalysisNeverRaises.

(** ** Cleaning a cover letter *)

Section CoverLetterFacts.

#[local] Arguments String.append !_ _ / : simpl nomatch.

Lemma fence_nonempty : fence <> "".
Proof. done. Qed.

(** A prefix without backtick is looked for in vain across a backtick. *)
Lemma startswith_before_backtick p b r :
  contains "`" p = false ->
  startswith p (b +:+ String "`" r) = startswith p b.
Proof.
  revert b. induction p as [|c p IH]; intros b H; [done|].
  apply contains_cons_false in H as [H1 H2].
  destruct b as [|d b]; cbn [startswith String.append].
  - cbn [startswith] in H1. apply andb_false_iff in H1 as [H1|H1]; [|done].
    by rewrite Ascii.eqb_sym, H1.
  - by rewrite IH.
Qed.

Lemma first_code_block_fence_free text body :
  first_code_block text = Some body -> contains fence body = false.
Proof.
  unfold first_code_block. destruct (partition fence text) as [[a rest]|]; [|done].
  destruct (partition fence (if startswith "markdown" rest then drop_str 8 rest else rest))
    as [[b after]|] eqn:E; [|done].
  intros [= <-]. by apply (partition_before_absent fence _ b after fence_nonempty E).
Qed.

Lemma clean_cover_letter_fence_free text :
  contains fence text = false -> clean_cover_letter text = text.
Proof. intros H. unfold clean_cover_letter. by rewrite H. Qed.

(** X5.  Cleaning a cleaned letter changes nothing. *)
Theorem clean_cover_letter_idempotent text :
  clean_cover_letter (clean_cover_letter text) = clean_cover_letter text.
Proof.
  assert (H : clean_cover_letter text = text
              \/ contains fence (clean_cover_letter text) = false).
  { unfold clean_cover_letter.
    destruct (contains fence text) eqn:E; [|by left].
    destruct (first_code_block text) as [body|] eqn:B; [|by left].
    right. apply contains_absent_strip. by apply (first_code_block_fence_free text). }
  destruct H as [H|H].
  - by rewrite H.
  - by apply clean_cover_letter_fence_free.
Qed.

(** X6.  The first fenced block of a letter is unwrapped and trimmed, whether
    it is tagged [markdown] or not; the prose around it is dropped. *)
Theorem cover_letter_block_unwrapped (tagged : bool) prefix body suffix :
  contains fence prefix = false ->
  ends_with_char "`" prefix = false ->
  contains fence body = false ->
  ends_with_char "`" body = false ->
  (tagged = false -> startswith "markdown" body = false) ->
  clean_cover_letter
    (prefix +:+ fence +:+ (if tagged then "markdown" else "") +:+ body +:+ fence +:+ suffix)
  = strip body.
Proof.
  intros Hp Hpe Hb Hbe Ht.
  pose proof (first_at_fence _ Hp Hpe) as Fp.
  pose proof (first_at_fence _ Hb Hbe) as Fb.
  unfold clean_cover_letter, first_code_block.
  rewrite (contains_first_at _ _ _ Fp), (partition_first_at _ _ _ Fp).
  destruct tagged.
  - change (startswith "markdown" ("markdown" +:+ body +:+ fence +:+ suffix))
      with (startswith "markdown" ("markdown" +:+ (body +:+ fence +:+ suffix))).
    rewrite startswith_app.
    change (drop_str 8 ("markdown" +:+ body +:+ fence +:+ suffix))
      with (body +:+ fence +:+ suffix).
    by rewrite (partition_first_at _ _ _ Fb).
  - change ("" +:+ body +:+ fence +:+ suffix) with (body +:+ fence +:+ suffix).
    change (fence +:+ suffix) with (String "`" ("``" +:+ suffix)).
    rewrite startswith_before_backtick by done. rewrite (Ht eq_refl).
    change (String "`" ("``" +:+ suffix)) with (fence +:+ suffix).
    by rewrite (partition_first_at _ _ _ Fb).
Qed.

End CoverLetterFacts.

(** ** What the company and period splits leave in their parts *)

Section SplitParts.

#[local] Arguments String.append !_ _ / : simpl nomatch.

(** Replacing a character by nothing leaves no occurrence of it. *)
Lemma replace_char_removes c s :
  contains (String c "") (replace (String c "") "" s) = false.
Proof.
  unfold replace. induction s as [|d s IH]; [done|].
  rewrite replace_from_unfold. cbn [startswith String.length Nat.sub].
  destruct (Ascii.eqb c d) eqn:E; cbn [andb].
  - done.
  - rewrite contains_cons. cbn [startswith]. by rewrite E, IH.
Qed.

(** X7.  The location never keeps a closing parenthesis, and when the company
    string has one, the name keeps no opening parenthesis. *)
Theorem split_company_parts_clean company :
  exists name location,
    split_company company = Return (name, location)
    /\ contains ")" location = false
    /\ (contains ")" company = true -> contains "(" name = false).
Proof.
  unfold split_company.
  destruct (contains "(" company) eqn:E; cbn [andb].
  - destruct (contains ")" company) eqn:E'.
    + apply contains_true in E as (a & b & E). unfold split1. rewrite E.
      eexists _, _. split; [done|]. split.
      * apply contains_absent_strip, replace_char_removes.
      * intros _. apply contains_absent_strip.
        by apply (partition_before_absent "(" company a b).
    + by eexists _, _.
  - by eexists _, _.
Qed.

(** X8.  The start of a period never keeps a dash. *)
Theorem split_period_from_clean period :
  exists from_date to_date,
    split_period period = Return (from_date, to_date)
    /\ contains "-" from_date = false
    /\ (to_date <> "" -> contains "-" period = true).
Proof.
  unfold split_period.
  destruct (contains "-" period) eqn:E.
  - pose proof E as E'. apply contains_true in E as (a & b & E).
    unfold split1. rewrite E.
    eexists _, _. split; [done|]. split; [|done].
    apply contains_absent_strip. by apply (partition_before_absent "-" period a b).
  - by eexists _, _.
Qed.

End SplitParts.

(** ** Reading the fragment templates *)

Section MarkdownFacts.

#[local] Arguments String.append !_ _ / : simpl nomatch.

Lemma read_package_file_bind {B : Type} rel (f : string -> M B) w :
  (content ← read_package_file rel; f content) w
  = match package_files !! rel with
    | Some content => f content w
    | None => (w, Raise (FileNotFoundError rel))
    end.
Proof.
  unfold read_package_file, mbind, M_mbind, M_bind.
  by destruct (package_files !! rel).
Qed.

Ltac read_next :=
  rewrite read_package_file_bind;
  match goal with
  | |- context [package_files !! ?p] =>
      let E := fresh "E" in
      destruct (package_files !! p) eqn:E;
      [ | right; exists p; split; [repeat constructor | by split] ]
  end.

(** Loading the templates either finds all thirteen files or stops at the
    first missing one. *)
Lemma load_templates_outcome w :
  (exists T, load_templates w = (w, Return T)
             /\ forall p, p ∈ template_paths -> is_Some (package_files !! p))
  \/ (exists p, p ∈ template_paths /\ package_files !! p = None
                /\ load_templates w = (w, Raise (FileNotFoundError p))).
Proof.
  unfold load_templates, load_template.
  do 13 (read_next; []).
  left. eexists. split; [done|].
  intros p Hp. unfold template_paths in Hp.
  repeat (apply elem_of_cons in Hp as [->|Hp]; [by eexists|]).
  by apply elem_of_nil in Hp.
Qed.

(** The experience entries never make the renderer raise: the index into
    the split company and period is guarded. *)
Lemma experience_item_returns T exp : exists s, experience_item T exp = Return s.
Proof.
  unfold experience_item.
  destruct (split_company_plain (get "" (Exp.company exp))) as (c & l & -> & _).
  destruct (split_period_plain (get "" (Exp.period exp))) as (f & t & -> & _).
  by eexists.
Qed.

Lemma experiences_returns T l : exists s, experiences T l = Return s.
Proof.
  induction l as [|exp l [s IH]]; [by eexists|]. cbn [experiences].
  destruct (experience_item_returns T exp) as [it ->]. rewrite IH. by eexists.
Qed.

Lemma markdown_of_returns T r : exists md, markdown_of T r = Return md.
Proof.
  unfold markdown_of. destruct (experiences_returns T (Resume.experience r)) as [s ->].
  by eexists.
Qed.

(** X9.  With the thirteen template files in place the conversion succeeds for
    every resume record, and writes exactly the timestamped markdown
    file, holding the text it returns. *)
Theorem markdown_conversion_succeeds r w :
  (forall p, p ∈ template_paths -> is_Some (package_files !! p)) ->
  exists md,
    convert_json_to_markdown r w
    = (World (<[output_path ("tailored_resume_markdown_" +:+ now (env w) +:+ ".md") := md]>
                (files w))
             (env w),
       Return md).
Proof.
  intros Hall. unfold convert_json_to_markdown.
  destruct (load_templates_outcome w) as [(T & HT & _)|(p & Hp & Hnone & _)].
  - destruct (markdown_of_returns T r) as [md Hmd]. exists md.
    unfold mbind, M_mbind, M_bind at 1. rewrite HT.
    unfold M_bind, lift, strftime_now, write_file, mret, M_mret, M_ret.
    rewrite Hmd. done.
  - destruct (Hall p Hp) as [c Hc]. congruence.
Qed.



End MarkdownFacts.

(** ** Signing in and the token check *)

Section AuthFacts.

#[local] Arguments String.append !_ _ / : simpl nomatch.

Ltac run :=
  repeat first
    [ progress unfold mbind, mret, M_mbind, M_mret, M_bind, M_ret, lift, raise,
        exists_file
    | progress cbn beta iota delta [files env authorization target fst snd] ].

Lemma find_user_some username user :
  find (fun u : string * string => String.eqb (fst u) username) users = Some user ->
  user ∈ users /\ fst user = username.
Proof.
  intros [Hin Heq]%find_some. split; [by apply list_elem_of_In|].
  by apply String.eqb_eq.
Qed.

Lemma find_user_none username user :
  find (fun u : string * string => String.eqb (fst u) username) users = None ->
  user ∈ users -> fst user <> username.
Proof.
  intros Hnone Hin%list_elem_of_In Heq.
  pose proof (find_none _ _ Hnone _ Hin) as H. cbn beta in H.
  apply String.eqb_neq in H. done.
Qed.

(** X12.  The token check changes nothing; it returns a listed user whose name
    is the subject of the token, and raises the 401 credentials error
    exactly when no listed user bears that name (or the token does not
    decode to a subject). *)
Theorem current_user_is_token_subject credentials w :
  exists r,
    get_current_user credentials w = (w, r)
    /\ match r with
       | Return user =>
           user ∈ users /\ jwt_decode credentials = Some (Some (fst user))
       | Raise e =>
           e = credentials_exception
           /\ forall user, user ∈ users ->
                jwt_decode credentials <> Some (Some (fst user))
       end.
Proof.
  unfold get_current_user.
  destruct (jwt_decode credentials) as [[username|]|] eqn:D; run.
  - destruct (find _ users) as [user|] eqn:F; run.
    + apply find_user_some in F as [Hin <-]. by eexists (Return user).
    + eexists (Raise _). split; [done|]. split; [done|].
      intros user Hin [= Heq]. by apply (find_user_none _ _ F Hin).
  - eexists (Raise _). by repeat split.
  - eexists (Raise _). by repeat split.
Qed.

Lemma authenticate_user_listed username password :
  authenticate_user username password
  = if bool_decide ((username, password) ∈ users)
    then Some (username, password) else None.
Proof.
  unfold authenticate_user.
  destruct (find _ users) as [[u p]|] eqn:F.
  - apply find_some in F as [Hin [Hu Hp]%andb_true_iff]. cbn [fst snd] in *.
    apply String.eqb_eq in Hu as ->. apply String.eqb_eq in Hp as ->.
    rewrite bool_decide_eq_true_2; [done|]. by apply list_elem_of_In.
  - rewrite bool_decide_eq_false_2; [done|]. intros Hin%list_elem_of_In.
    pose proof (find_none _ _ F _ Hin) as H. cbn [fst snd] in H.
    by rewrite !String.eqb_refl in H.
Qed.

(** X13.  Signing in compares the password as stored: a listed pair of name and
    password gets a token for that name, any other pair the 401 error;
    the state stays as it was. *)
Theorem signin_checks_listed_pair auth username password w :
  serve (MkRequest auth (Signin username password)) w
  = (w, if bool_decide ((username, password) ∈ users)
        then Token (create_access_token (env w) username) username
        else HTTPException 401 "Incorrect username or password").
Proof.
  unfold serve, dispatch, signin. cbn [target].
  rewrite authenticate_user_listed.
  by destruct (bool_decide ((username, password) ∈ users)).
Qed.

(** X14.  A token obtained by signing in opens the protected routes, provided
    the decoder reads back the subject of the token just issued. *)
Theorem signin_token_accepted username password w :
  (username, password) ∈ users ->
  jwt_decode (create_access_token (env w) username) = Some (Some username) ->
  exists token,
    serve (MkRequest None (Signin username password)) w = (w, Token token username)
    /\ serve (MkRequest (Some token) GetTemplates) w
       = (w, TemplateList listdir_resume_templates).
Proof.
  intros Hin Hdec. exists (create_access_token (env w) username). split.
  - unfold serve, dispatch, signin. cbn [target].
    rewrite authenticate_user_listed. by rewrite bool_decide_eq_true_2.
  - unfold serve, dispatch, security, get_current_user, get_templates. run.
    rewrite Hdec. run.
    destruct (find _ users) as [user|] eqn:F; [done|].
    by destruct (find_user_none _ _ F Hin).
Qed.

Lemma get_current_user_pure credentials w :
  (exists user, get_current_user credentials w = (w, Return user))
  \/ (exists e, get_current_user credentials w = (w, Raise e)).
Proof.
  unfold get_current_user.
  destruct (jwt_decode credentials) as [[username|]|]; run.
  - destruct (find _ users); run; [left|right]; by eexists.
  - right. by eexists.
  - right. by eexists.
Qed.

(** The endpoints that only read hand back the world they were given. *)
Lemma read_only_dispatch req w :
  read_only (target req) = true -> exists o, dispatch req w = (w, o).
Proof.
  intros H. unfold dispatch.
  destruct (target req) as [|u p|j|f m|f m| |f]; try discriminate H.
  - by eexists.
  - unfold signin. destruct (authenticate_user u p); by eexists.
  - unfold download_resume. run.
    destruct (bool_decide (is_Some (files w !! output_path f))); [|by eexists].
    destruct (name_before_returns "_resume" "tailored" (basename (output_path f)) w)
      as [tn ->].
    destruct (bool_decide (m = Some "download")); by eexists.
  - unfold download_cover_letter. run.
    destruct (bool_decide (is_Some (files w !! output_path f))); [|by eexists].
    destruct (name_before_returns "_cover_letter" "default" (basename (output_path f)) w)
      as [tn ->].
    destruct (bool_decide (m = Some "download")); by eexists.
  - unfold security. destruct (authorization req) as [c|]; run; [|by eexists].
    destruct (get_current_user_pure c w) as [[u ->]|[e ->]]; by eexists.
  - unfold security. destruct (authorization req) as [c|]; run; [|by eexists].
    destruct (get_current_user_pure c w) as [[u ->]|[e ->]]; [|by eexists].
    unfold get_cover_letter_content. destruct (files w !! _); by eexists.
Qed.

(** X15.  Every route but the tailoring one (root, signin, the two
    downloads, the template list, the cover-letter content) leaves the
    output directory and the oracle as they were, whatever it answers and
    whether or not the request is authenticated. *)
Theorem read_only_routes_change_nothing req w :
  read_only (target req) = true -> (serve req w).1 = w.
Proof.
  intros H. unfold serve.
  destruct (read_only_dispatch req w H) as [o ->].
  destruct o as [r|e]; [done|]. by destruct e.
Qed.

End AuthFacts.

(** ** No request deletes a file *)

Section KeepFacts.

#[local] Arguments String.append !_ _ / : simpl nomatch.

Context {A B : Type}.

Lemma keeps_files_ret (a : A) : keeps_files (M_ret a).
Proof. intros w w' r p [= <- _] H. done. Qed.

Lemma keeps_files_mret (a : A) : keeps_files (mret a).
Proof. apply keeps_files_ret. Qed.

Lemma keeps_files_raise e : keeps_files (raise e : M A).
Proof. intros w w' r p [= <- _] H. done. Qed.

Lemma keeps_files_lift (o : outcome A) : keeps_files (lift o).
Proof. intros w w' r p [= <- _] H. done. Qed.

Lemma keeps_files_bind (m : M A) (f : A -> M B) :
  keeps_files m -> (forall a, keeps_files (f a)) -> keeps_files (m ≫= f).
Proof.
  intros Hm Hf w w' r p H Hp. unfold mbind, M_mbind, M_bind in H.
  destruct (m w) as [w1 [a|e]] eqn:E.
  - apply (Hf a _ _ _ p H). by apply (Hm _ _ _ p E).
  - injection H as <- _. by apply (Hm _ _ _ p E).
Qed.

Lemma keeps_files_try_except (body : M A) select handler :
  keeps_files body -> (forall e, keeps_files (handler e)) ->
  keeps_files (try_except body select handler).
Proof.
  intros Hb Hh w w' r p H Hp. unfold try_except in H.
  destruct (body w) as [w1 [a|e]] eqn:E.
  - injection H as <- _. by apply (Hb _ _ _ p E).
  - destruct (select e).
    + apply (Hh e _ _ _ p H). by apply (Hb _ _ _ p E).
    + injection H as <- _. by apply (Hb _ _ _ p E).
Qed.

End KeepFacts.

Section KeepSteps.

#[local] Arguments String.append !_ _ / : simpl nomatch.

(** Writing a file creates or rewrites it; the others stay. *)
Lemma keeps_files_write_file path content : keeps_files (write_file path content).
Proof.
  intros w w' r p [= <- _] H. cbn [files].
  destruct (decide (path = p)) as [->|Hne].
  - rewrite lookup_insert_eq. by eexists.
  - by rewrite lookup_insert_ne.
Qed.

Lemma keeps_files_strftime_now : keeps_files strftime_now.
Proof. intros w w' r p [= <- _] H. done. Qed.

Lemma keeps_files_call_model prompt : keeps_files (call_model prompt).
Proof.
  intros w w' r p H Hp. unfold call_model in H.
  destruct (generate_content (env w) prompt) as [e' o]. by injection H as <- _.
Qed.

Lemma keeps_files_loads s : keeps_files (loads s).
Proof.
  unfold loads. destruct (json_loads s);
    [apply keeps_files_ret | apply keeps_files_raise].
Qed.

Lemma keeps_files_read_package_file rel : keeps_files (read_package_file rel).
Proof.
  unfold read_package_file. destruct (package_files !! rel);
    [apply keeps_files_ret | apply keeps_files_raise].
Qed.

Ltac keep_step :=
  first
    [ apply keeps_files_mret
    | apply keeps_files_ret
    | apply keeps_files_raise
    | apply keeps_files_lift
    | apply keeps_files_strftime_now
    | apply keeps_files_call_model
    | apply keeps_files_loads
    | apply keeps_files_read_package_file
    | apply keeps_files_write_file
    | assumption
    | apply keeps_files_try_except; [|intros ?]
    | apply keeps_files_bind; [|intros ?]
    | match goal with
      | |- keeps_files (let '(_, _) := ?x in _) => destruct x
      | |- keeps_files (match ?x with _ => _ end) => destruct x
      end ].

Ltac keep := repeat keep_step.

Lemma keeps_files_tailor_resume job_description template :
  keeps_files (tailor_resume job_description template).
Proof. unfold tailor_resume. keep. Qed.

Lemma keeps_files_convert_json_to_text r : keeps_files (convert_json_to_text r).
Proof. unfold convert_json_to_text. keep. Qed.

Lemma keeps_files_convert_json_to_markdown r : keeps_files (convert_json_to_markdown r).
Proof. unfold convert_json_to_markdown, load_templates, load_template. keep. Qed.

Lemma keeps_files_generate_pdf_from_markdown markdown path :
  keeps_files (generate_pdf_from_markdown markdown path).
Proof. unfold generate_pdf_from_markdown, save_pdf. keep. Qed.

Lemma keeps_files_generate_pdf_from_json r path :
  keeps_files (generate_pdf_from_json r path).
Proof.
  pose proof (keeps_files_convert_json_to_markdown r).
  unfold generate_pdf_from_json, save_pdf. keep.
Qed.

Lemma keeps_files_generate_cover_letter r job_description timestamp :
  keeps_files (generate_cover_letter r job_description timestamp).
Proof.
  unfold generate_cover_letter.
  apply keeps_files_bind; [destruct timestamp; keep|]. intros t.
  apply keeps_files_bind; [keep|]. intros text.
  apply keeps_files_bind; [keep|]. intros _.
  apply keeps_files_bind; [apply keeps_files_generate_pdf_from_markdown|].
  intros ?. keep.
Qed.

Lemma keeps_files_answer_questions r job_description questions answers :
  keeps_files (answer_questions r job_description questions answers).
Proof.
  revert answers. induction questions as [|q qs IH]; intros answers;
    cbn [answer_questions]; [apply keeps_files_mret|].
  apply keeps_files_bind; [apply keeps_files_call_model|]. intros text. apply IH.
Qed.

Lemma keeps_files_tailor_resume_endpoint job_data :
  keeps_files (tailor_resume_endpoint job_data).
Proof.
  unfold tailor_resume_endpoint.
  apply keeps_files_try_except; [|intros; apply keeps_files_raise].
  apply keeps_files_bind; [apply keeps_files_tailor_resume|].
  intros [json_path tailored_json].
  apply keeps_files_bind; [apply keeps_files_lift|]. intros tailored_resume.
  apply keeps_files_bind; [apply keeps_files_convert_json_to_text|].
  intros [text_path full_text].
  apply keeps_files_bind; [apply keeps_files_generate_pdf_from_json|]. intros _.
  apply keeps_files_bind.
  { destruct (pyval_truthy tailored_json); [|apply keeps_files_mret].
    apply keeps_files_bind; [|intros; apply keeps_files_mret].
    apply keeps_files_generate_cover_letter. }
  intros cover_letter_url. apply keeps_files_bind; [|intros; apply keeps_files_mret].
  destruct (questions job_data) as [[|q qs]|]; try apply keeps_files_mret.
  apply keeps_files_bind; [|intros; apply keeps_files_mret].
  apply keeps_files_answer_questions.
Qed.

(** X16.  Whatever the request and its outcome, a file that was in the output
    directory before is still there afterwards (possibly rewritten). *)
Theorem serve_deletes_nothing req w w' r p :
  serve req w = (w', r) -> is_Some (files w !! p) -> is_Some (files w' !! p).
Proof.
  intros H Hp.
  destruct (read_only (target req)) eqn:R.
  - destruct (read_only_dispatch req w R) as [o Ho].
    unfold serve in H. rewrite Ho in H.
    assert (w' = w) as -> by (destruct o as [a|e]; [|destruct e]; by injection H).
    done.
  - assert (Hd : keeps_files (dispatch req)).
    { unfold dispatch. destruct (target req) as [|u pw|j|f m|f m| |f];
        try discriminate R.
      unfold security, get_current_user.
      apply keeps_files_bind; [destruct (authorization req); keep|]. intros c.
      apply keeps_files_bind; [|intros; apply keeps_files_tailor_resume_endpoint].
      apply keeps_files_bind.
      - destruct (jwt_decode c) as [[u|]|]; keep.
      - intros u. destruct (find _ users); keep. }
    unfold serve in H.
    destruct (dispatch req w) as [w1 [a|e]] eqn:E.
    + injection H as <- _. by apply (Hd _ _ _ p E).
    + assert (w' = w1) as -> by (destruct e; by injection H).
      by apply (Hd _ _ _ p E).
Qed.

End KeepSteps.

(** ** File names under the output directory *)

Section PathFacts.

#[local] Arguments String.append !_ _ / : simpl nomatch.

Lemma contains_char_app c a b :
  contains (String c "") (a +:+ b) = contains (String c "") a || contains (String c "") b.
Proof.
  induction a as [|d a IH]; [done|].
  change (String d a +:+ b) with (String d (a +:+ b)).
  rewrite !contains_cons, IH. cbn [startswith]. by rewrite orb_assoc.
Qed.

Lemma basename_slash_free p : contains "/" (basename p) = false.
Proof.
  induction p as [|c p IH]; [done|]. cbn [basename].
  destruct (Ascii.eqb c "/") eqn:E; [done|].
  destruct (contains "/" p) eqn:E'; [done|].
  rewrite contains_cons. cbn [startswith]. rewrite Ascii.eqb_sym, E. by rewrite E'.
Qed.

Lemma basename_id s : contains "/" s = false -> basename s = s.
Proof.
  destruct s as [|c s]; [done|]. rewrite contains_cons. cbn [startswith basename].
  intros [H1 H2]%orb_false_iff. rewrite andb_true_r, Ascii.eqb_sym in H1.
  by rewrite H1, H2.
Qed.

Lemma basename_after_slash a name :
  contains "/" name = false -> basename (a +:+ "/" +:+ name) = name.
Proof.
  intros H. induction a as [|c a IH].
  - change ("" +:+ "/" +:+ name) with (String "/" name). cbn [basename].
    rewrite Ascii.eqb_refl. by apply basename_id.
  - change (String c a +:+ "/" +:+ name) with (String c (a +:+ "/" +:+ name)).
    cbn [basename]. rewrite contains_app_mid, IH. by destruct (Ascii.eqb c "/").
Qed.

(** [(Path("output") / name).name] is [name] when it holds no slash. *)
Lemma basename_output_path name :
  contains "/" name = false -> basename (output_path name) = name.
Proof.
  intros H. unfold output_path.
  change ("output/" +:+ name) with ("output" +:+ "/" +:+ name).
  by apply basename_after_slash.
Qed.

Lemma rpartition_char_sound x s a b :
  rpartition_char x s = Some (a, b) -> s = a +:+ String x b.
Proof.
  revert a. induction s as [|c s IH]; intros a; [done|]. cbn [rpartition_char].
  destruct (rpartition_char x s) as [[a' b']|].
  - intros [= <- <-]. by rewrite (IH a' eq_refl).
  - destruct (Ascii.eqb c x) eqn:E; [|done]. apply Ascii.eqb_eq in E as ->.
    by intros [= <- <-].
Qed.

Lemma splitext_root_slash_free name :
  contains "/" name = false -> contains "/" (splitext_root name) = false.
Proof.
  intros H. unfold splitext_root.
  destruct (rpartition_char "." name) as [[root ext]|] eqn:E; [|done].
  destruct (all_dots root); [done|].
  apply rpartition_char_sound in E. rewrite E, contains_char_app in H.
  by apply orb_false_iff in H as [H _].
Qed.

(** The template name the endpoint derives holds no slash, so the files
    named after it lie directly under the output directory. *)
Lemma template_name_slash_free t : contains "/" (template_name_of t) = false.
Proof.
  unfold template_name_of. destruct t as [t|]; [|done].
  destruct (truthy t); [|done].
  apply splitext_root_slash_free, basename_slash_free.
Qed.

Lemma cover_letter_prefix_slash_free name :
  contains "/" name = false -> contains "/" (cover_letter_prefix name) = false.
Proof.
  intros H. unfold cover_letter_prefix.
  destruct (truthy name && negb (startswith "2" name)).
  - by rewrite contains_char_app, H.
  - destruct (truthy name); [|done]. by rewrite contains_char_app, H.
Qed.

End PathFacts.

(** ** A successful tailoring request *)

Section SuccessFacts.

#[local] Arguments String.append !_ _ / : simpl nomatch.

Lemma bind_inv {A B : Type} (m : M A) (f : A -> M B) w w' b :
  (m ≫= f) w = (w', Return b) ->
  exists a w1, m w = (w1, Return a) /\ f a w1 = (w', Return b).
Proof.
  unfold mbind, M_mbind, M_bind. destruct (m w) as [w1 [a|e]]; [|done].
  intros H. by exists a, w1.
Qed.

Lemma try_except_inv {A : Type} (body : M A) select handler w w' a :
  (forall e w1 w2 b, handler e w1 <> (w2, Return b)) ->
  try_except body select handler w = (w', Return a) ->
  body w = (w', Return a).
Proof.
  intros Hh. unfold try_except. destruct (body w) as [w1 [x|e]]; [done|].
  destruct (select e); [|done]. intros H. by destruct (Hh _ _ _ _ H).
Qed.

Ltac inv_bind H :=
  let a := fresh "a" in
  let w1 := fresh "w" in
  let Hm := fresh "Hm" in
  apply bind_inv in H as (a & w1 & Hm & H).

Lemma write_file_inv path content w w' r :
  write_file path content w = (w', r) ->
  files w' !! path = Some content.
Proof. intros [= <- _]. cbn [files]. by rewrite lookup_insert_eq. Qed.

(** The JSON file [tailor_resume] names is there when it returns. *)
Lemma tailor_resume_written job_description template w w' json_path tailored :
  tailor_resume job_description template w = (w', Return (json_path, tailored)) ->
  files w' !! json_path = Some (json_dumps_indent tailored).
Proof.
  intros H. unfold tailor_resume in H.
  inv_bind H. inv_bind H. inv_bind H.
  apply try_except_inv in H.
  - inv_bind H. inv_bind H. inv_bind H. inv_bind H.
    injection H as <- <- <-.
    injection Hm4 as <- <-.
    by apply (write_file_inv _ _ _ _ _ Hm5).
  - intros e wa wb b Hr. inv_bind Hr. inv_bind Hr. done.
Qed.

Lemma convert_json_to_text_written r w w' text_path text :
  convert_json_to_text r w = (w', Return (text_path, text)) ->
  files w' !! text_path = Some text.
Proof.
  intros H. unfold convert_json_to_text in H.
  inv_bind H. inv_bind H. injection H as <- <- <-. injection Hm as <- <-.
  by apply (write_file_inv _ _ _ _ _ Hm0).
Qed.

Lemma save_pdf_written toc_level markdown css title author path w w' q :
  save_pdf toc_level markdown css title author path w = (w', Return q) ->
  q = path /\ is_Some (files w' !! path).
Proof.
  intros H. unfold save_pdf in H. inv_bind H. inv_bind H.
  injection H as <- <-. split; [done|].
  rewrite (write_file_inv _ _ _ _ _ Hm0). by eexists.
Qed.

Lemma generate_pdf_from_json_written r path w w' q :
  generate_pdf_from_json r (Some path) w = (w', Return q) ->
  q = path /\ is_Some (files w' !! path).
Proof.
  intros H. unfold generate_pdf_from_json in H.
  inv_bind H. inv_bind H. injection Hm0 as <- <-. inv_bind H.
  by apply save_pdf_written in H.
Qed.

Lemma generate_pdf_from_markdown_written markdown path w w' q :
  generate_pdf_from_markdown markdown (Some path) w = (w', Return q) ->
  q = path /\ is_Some (files w' !! path).
Proof.
  intros H. unfold generate_pdf_from_markdown in H.
  inv_bind H. injection Hm as <- <-. inv_bind H.
  by apply save_pdf_written in H.
Qed.

Lemma generate_cover_letter_written r job_description name w w' q :
  generate_cover_letter r job_description (Some name) w = (w', Return q) ->
  q = output_path (cover_letter_prefix name +:+ ".pdf")
  /\ is_Some (files w' !! q).
Proof.
  intros H. unfold generate_cover_letter in H.
  inv_bind H. injection Hm as <- <-. inv_bind H. inv_bind H. inv_bind H.
  injection H as <- <-. split; [done|].
  by apply generate_pdf_from_markdown_written in Hm1 as [_ ?].
Qed.

(** X17.  Every link of a successful answer resolves: the resume and the cover
    letter it names are files of the output directory (under the names the
    download routes look up), and so are the JSON and text paths when the
    answer carries them. *)
Theorem tailoring_answer_links_resolve auth job_data w w'
    resume_url cover_letter_url answers json_path text_path :
  serve (MkRequest auth (TailorResume job_data)) w
  = (w', TailoredResumeResponse resume_url cover_letter_url answers json_path text_path) ->
  (exists filename,
     resume_url = "/download/resume/" +:+ filename
     /\ is_Some (files w' !! output_path filename))
  /\ (forall url, cover_letter_url = Some url ->
      exists filename,
        url = "/download/cover_letter/" +:+ filename
        /\ is_Some (files w' !! output_path filename))
  /\ (forall p, json_path = Some p -> is_Some (files w' !! p))
  /\ (forall p, text_path = Some p -> is_Some (files w' !! p)).
Proof.
  intros H. unfold serve in H.
  destruct (dispatch _ w) as [w1 [resp|e]] eqn:E; [|by destruct e].
  injection H as -> ->.
  unfold dispatch in E. cbn [target] in E.
  inv_bind E. inv_bind E. clear Hm Hm0.
  unfold tailor_resume_endpoint in E.
  apply try_except_inv in E; [|done].
  inv_bind E. destruct a1 as [jp tj]. cbn beta iota in E.
  inv_bind E. inv_bind E. destruct a2 as [tp txt]. cbn beta iota in E.
  inv_bind E. inv_bind E. inv_bind E.
  pose proof (template_name_slash_free (template job_data)) as Hslash.
  set (tn := template_name_of (template job_data)) in *.
  apply tailor_resume_written in Hm as Hjson.
  apply convert_json_to_text_written in Hm1 as Htext.
  apply generate_pdf_from_json_written in Hm2 as Hpdf. destruct Hpdf as [_ Hpdf].
  assert (K3 : forall p, is_Some (files w4 !! p) -> is_Some (files w5 !! p)).
  { intros p. by apply (keeps_files_generate_pdf_from_json _ _ _ _ _ p Hm2). }
  assert (K4 : forall p, is_Some (files w5 !! p) -> is_Some (files w6 !! p)).
  { intros p. destruct (pyval_truthy tj).
    - inv_bind Hm3. injection Hm3 as <- _.
      by apply (keeps_files_generate_cover_letter _ _ _ _ _ _ p Hm5).
    - by injection Hm3 as <- _. }
  assert (K5 : forall p, is_Some (files w6 !! p) -> is_Some (files w7 !! p)).
  { intros p. destruct (questions job_data) as [[|q qs]|].
    - by injection Hm4 as <- _.
    - inv_bind Hm4. injection Hm4 as <- _.
      by apply (keeps_files_answer_questions _ _ _ _ _ _ _ p Hm5).
    - by injection Hm4 as <- _. }
  assert (K2 : forall p, is_Some (files w2 !! p) -> is_Some (files w4 !! p)).
  { intros p Hp. apply (keeps_files_convert_json_to_text _ _ _ _ p Hm1).
    by injection Hm0 as <- _. }
  assert (R : resume_url = "/download/resume/" +:+ tn +:+ "_resume.pdf"
              /\ cover_letter_url = a3
              /\ (forall p, json_path = Some p -> p = jp)
              /\ (forall p, text_path = Some p -> p = tp)
              /\ w' = w7).
  { rewrite basename_output_path in E
      by (by rewrite contains_char_app, Hslash).
    destruct (default false (return_json job_data));
      injection E as <- <- <- <- <- <-; repeat split; congruence. }
  destruct R as (-> & -> & Hj & Ht & ->).
  split; [|split; [|split]].
  - exists (tn +:+ "_resume.pdf"). split; [done|]. by apply K5, K4.
  - intros url ->. destruct (pyval_truthy tj); [|by injection Hm3].
    inv_bind Hm3. injection Hm3 as <- <-.
    apply generate_cover_letter_written in Hm5 as [-> Hcl].
    rewrite basename_output_path
      by (rewrite contains_char_app, cover_letter_prefix_slash_free; done).
    eexists. split; [done|]. by apply K5.
  - intros p ->%Hj. apply K5, K4, K3, K2. by rewrite Hjson.
  - intros p ->%Ht. apply K5, K4, K3. by rewrite Htext.
Qed.

End SuccessFacts.

(** ** How a tailoring request fails *)

Section FailureFacts.

#[local] Arguments String.append !_ _ / : simpl nomatch.

Ltac run :=
  repeat first
    [ progress unfold mbind, mret, M_mbind, M_mret, M_bind, M_ret, lift, raise,
        try_except, strftime_now, write_file, call_model, loads,
        read_package_file
    | progress cbn beta iota delta [files env is_JSONDecodeError authorization target] ].

Ltac inv_bind H :=
  let a := fresh "a" in
  let w1 := fresh "w" in
  let Hm := fresh "Hm" in
  apply bind_inv in H as (a & w1 & Hm & H).

(** With a valid token the dependency returns and changes nothing. *)
Lemma authenticated_dependency auth w :
  authenticated auth = true ->
  exists credentials user,
    auth = Some credentials /\ get_current_user credentials w = (w, Return user).
Proof.
  unfold authenticated. destruct auth as [c|]; [|done]. intros H. exists c.
  unfold get_current_user. destruct (jwt_decode c) as [[u|]|]; try done. run.
  destruct (find _ users) as [user|]; [|done]. by exists user.
Qed.

Lemma dispatch_tailoring auth job_data w :
  authenticated auth = true ->
  dispatch (MkRequest auth (TailorResume job_data)) w = tailor_resume_endpoint job_data w.
Proof.
  intros (c & u & -> & Hu)%(authenticated_dependency _ w).
  unfold dispatch, security. run. by rewrite Hu.
Qed.

(** What the endpoint returns is a tailored-resume answer. *)
Lemma endpoint_returns_answer job_data w w' r :
  tailor_resume_endpoint job_data w = (w', Return r) ->
  exists resume_url cover_letter_url answers json_path text_path,
    r = TailoredResumeResponse resume_url cover_letter_url answers json_path text_path.
Proof.
  intros E. unfold tailor_resume_endpoint in E.
  apply try_except_inv in E; [|done].
  inv_bind E. destruct a as [jp tj]. cbn beta iota in E.
  inv_bind E. inv_bind E. destruct a0 as [tp txt]. cbn beta iota in E.
  inv_bind E. inv_bind E. inv_bind E.
  destruct (default false (return_json job_data));
    injection E as _ <-; by eexists _, _, _, _, _.
Qed.

(** X18.  An authenticated tailoring request is answered with the tailored
    resume or with status 500 and a detail that starts with
    [Error tailoring resume: ]; no other error reaches the client,
    whatever fails inside. *)
Theorem tailoring_answers_or_500 auth job_data w :
  authenticated auth = true ->
  (exists resume_url cover_letter_url answers json_path text_path,
     (serve (MkRequest auth (TailorResume job_data)) w).2
     = TailoredResumeResponse resume_url cover_letter_url answers json_path text_path)
  \/ (exists e,
        (serve (MkRequest auth (TailorResume job_data)) w).2
        = HTTPException 500 ("Error tailoring resume: " +:+ exn_str e)).
Proof.
  intros Hauth. unfold serve. rewrite (dispatch_tailoring _ _ _ Hauth).
  destruct (tailor_resume_endpoint job_data w) as [w' [r|e]] eqn:E.
  - left. by apply (endpoint_returns_answer job_data w w').
  - right. unfold tailor_resume_endpoint, try_except in E.
    match type of E with
    | match ?body with _ => _ end = _ => destruct body as [w1 [a|x]]
    end; [done|].
    injection E as _ <-. by exists x.
Qed.

(** X19.  A request that names a template file which is not there (or names no
    template at all, which looks for [resume_templates/None]) is answered
    with a 500 before the oracle is asked and before anything is
    written. *)
Theorem tailoring_without_template auth job_data w :
  authenticated auth = true ->
  package_files !! ("resume_templates/" +:+ fmt_opt (template job_data)) = None ->
  serve (MkRequest auth (TailorResume job_data)) w
  = (w, HTTPException 500
          ("Error tailoring resume: "
           +:+ exn_str (FileNotFoundError
                          ("resume_templates/" +:+ fmt_opt (template job_data))))).
Proof.
  intros Hauth Hnone. unfold serve. rewrite (dispatch_tailoring _ _ _ Hauth).
  unfold tailor_resume_endpoint, tailor_resume. run. rewrite Hnone. by run.
Qed.

(** X20.  When the oracle fails on the tailoring prompt, the request is answered
    with a 500 that carries the oracle's error, and no file is written. *)
Theorem tailoring_oracle_failure auth job_data w content resume_structure e' x :
  authenticated auth = true ->
  package_files !! ("resume_templates/" +:+ fmt_opt (template job_data)) = Some content ->
  json_loads content = Some resume_structure ->
  generate_content (env w)
    (tailoring_prompt (job_description job_data) (json_dumps_indent resume_structure))
  = (e', Raise x) ->
  serve (MkRequest auth (TailorResume job_data)) w
  = (World (files w) e',
     HTTPException 500 ("Error tailoring resume: " +:+ exn_str x)).
Proof.
  intros Hauth Hf Hc Hg. unfold serve. rewrite (dispatch_tailoring _ _ _ Hauth).
  unfold tailor_resume_endpoint, tailor_resume. run.
  rewrite Hf. run. rewrite Hc. run. rewrite Hg. by run.
Qed.

End FailureFacts.

(** ** Serving what was generated *)

Section ServingFacts.

#[local] Arguments String.append !_ _ / : simpl nomatch.

Ltac run :=
  repeat first
    [ progress unfold mbind, mret, M_mbind, M_mret, M_bind, M_ret, lift, raise,
        exists_file
    | progress cbn beta iota delta [files env authorization target] ].







(** X22.  A resume PDF named after a template is offered for download under
    its own name, provided the template name does not itself contain
    [_resume]. *)
Theorem resume_download_keeps_name auth name w :
  contains "/" name = false ->
  contains "_resume" name = false ->
  is_Some (files w !! output_path (name +:+ "_resume.pdf")) ->
  serve (MkRequest auth (DownloadResume (name +:+ "_resume.pdf") (Some "download"))) w
  = (w, FileResponse (output_path (name +:+ "_resume.pdf"))
          (Some (name +:+ "_resume.pdf")) false).
Proof.
  intros Hslash Hname Hfile.
  assert (F : first_at "_resume" name = true) by (by apply first_at_no_border).
  unfold serve, dispatch, download_resume. run.
  rewrite bool_decide_eq_true_2 by done.
  rewrite basename_output_path by (by rewrite contains_char_app, Hslash).
  unfold name_before.
  change (name +:+ "_resume.pdf") with (name +:+ "_resume" +:+ ".pdf").
  rewrite (contains_first_at _ _ _ F), (split1_first_at _ _ _ F). run.
  cbn [item lookup list_lookup]. by rewrite bool_decide_eq_true_2.
Qed.

End ServingFacts.

(** ** Names, headings and highlights *)

Section NamingFacts.

#[local] Arguments String.append !_ _ / : simpl nomatch.

Lemma rpartition_char_absent x s :
  contains (String x "") s = false -> rpartition_char x s = None.
Proof.
  induction s as [|c s IH]; [done|]. rewrite contains_cons. cbn [startswith].
  intros [H1 H2]%orb_false_iff. rewrite andb_true_r, Ascii.eqb_sym in H1.
  cbn [rpartition_char]. by rewrite (IH H2), H1.
Qed.

Lemma rpartition_char_last x a b :
  contains (String x "") b = false ->
  rpartition_char x (a +:+ String x b) = Some (a, b).
Proof.
  intros H. induction a as [|c a IH].
  - change ("" +:+ String x b) with (String x b). cbn [rpartition_char].
    by rewrite (rpartition_char_absent _ _ H), Ascii.eqb_refl.
  - change (String c a +:+ String x b) with (String c (a +:+ String x b)).
    cbn [rpartition_char]. by rewrite IH.
Qed.

(** X23.  The name under which the artifacts of a request are stored is
    the file name of the template without its directory and without its
    extension: for a template [name.ext], alone or behind a directory, it
    is [name], whenever [name] holds no slash and is not made of dots
    only and [ext] holds neither dot nor slash. *)
Theorem template_name_drops_directory_and_extension (dir : option string) name ext :
  contains "/" name = false ->
  all_dots name = false ->
  contains "." ext = false ->
  contains "/" ext = false ->
  template_name_of
    (Some (match dir with Some d => d +:+ "/" | None => "" end +:+ name +:+ "." +:+ ext))
  = name.
Proof.
  intros Hname Hdots Hext Hslash. unfold template_name_of.
  assert (Hfile : contains "/" (name +:+ "." +:+ ext) = false)
    by (by rewrite !contains_char_app, Hname, Hslash).
  assert (Hbase : basename (match dir with Some d => d +:+ "/" | None => "" end
                            +:+ name +:+ "." +:+ ext)
                  = name +:+ "." +:+ ext).
  { destruct dir as [d|].
    - rewrite append_assoc. by apply basename_after_slash.
    - by apply basename_id. }
  assert (Ht : truthy (match dir with Some d => d +:+ "/" | None => "" end
                       +:+ name +:+ "." +:+ ext) = true).
  { destruct dir as [d|]; [by destruct d|]. by destruct name. }
  rewrite Ht, Hbase. unfold splitext_root.
  change (name +:+ "." +:+ ext) with (name +:+ String "." ext).
  by rewrite (rpartition_char_last _ _ _ Hext), Hdots.
Qed.

(** X24.  In the plain text of every resume the fixed lines come in one
    order: the name, the rule, SUMMARY and the summary, EXPERIENCE,
    SKILLS, EDUCATION. *)
Theorem text_headings_in_order (r : Resume.t) :
  [Resume.name r; "----"; "SUMMARY"; Resume.summary r; "EXPERIENCE"; "SKILLS"; "EDUCATION"]
  `sublist_of` text_content r.
Proof.
  unfold text_content. cbn [app].
  apply sublist_skip. apply sublist_inserts_l.
  do 3 apply sublist_skip. apply sublist_cons.
  apply sublist_inserts_l. apply sublist_skip.
  apply sublist_inserts_l. apply sublist_skip.
  apply sublist_inserts_l. apply sublist_cons. apply sublist_skip.
  apply sublist_nil_l.
Qed.

Lemma strip_truthy h : truthy (strip h) = true -> truthy h = true.
Proof. by destruct h. Qed.

Lemma filter_nonblank_twice (hs : list string) :
  filter (fun highlight => truthy highlight && truthy (strip highlight))
         (filter (fun highlight => truthy (strip highlight)) hs)
  = filter (fun highlight => truthy highlight && truthy (strip highlight)) hs.
Proof.
  induction hs as [|h hs IH]; [done|].
  rewrite !filter_cons.
  destruct (truthy (strip h)) eqn:E.
  - rewrite (strip_truthy _ E).
    rewrite decide_True by done.
    rewrite filter_cons. rewrite (strip_truthy _ E), E.
    rewrite !decide_True by done. by rewrite IH.
  - rewrite andb_false_r, !decide_False by (intros H; exact H). done.
Qed.

Lemma existsb_nonblank (hs : list string) :
  match hs with [] => false | _ => true end
  && existsb (fun h => truthy (strip h)) hs
  = existsb (fun h => truthy (strip h)) hs.
Proof. by destruct hs. Qed.

Lemma existsb_filter_nonblank (hs : list string) :
  existsb (fun h => truthy (strip h)) (filter (fun h => truthy (strip h)) hs)
  = existsb (fun h => truthy (strip h)) hs.
Proof.
  induction hs as [|h hs IH]; [done|]. rewrite filter_cons.
  destruct (truthy (strip h)) eqn:E.
  - rewrite decide_True by done. cbn [existsb]. by rewrite E.
  - rewrite decide_False by (intros H; exact H). cbn [existsb]. by rewrite E, IH.
Qed.

Lemma highlights_html_nonblank T title company period summary hs skills :
  highlights_html T (Exp.Make title company period summary (Some hs) skills)
  = highlights_html T
      (Exp.Make title company period summary
         (Some (filter (fun highlight => truthy (strip highlight)) hs)) skills).
Proof.
  unfold highlights_html. cbn [Exp.highlights default id].
  by rewrite !existsb_nonblank, existsb_filter_nonblank, filter_nonblank_twice.
Qed.

(** X25.  Highlights that are empty or only white space never reach the
    markdown: an experience entry renders the same with them and with
    them removed from its list. *)
Theorem blank_highlights_ignored T title company period summary hs skills :
  experience_item T (Exp.Make title company period summary (Some hs) skills)
  = experience_item T
      (Exp.Make title company period summary
         (Some (filter (fun highlight => truthy (strip highlight)) hs)) skills).
Proof.
  unfold experience_item, experience_skills_text.
  cbn [Exp.title Exp.company Exp.period Exp.summary Exp.skills].
  destruct (split_company_plain (get "" company)) as (c & l & -> & _).
  destruct (split_period_plain (get "" period)) as (f & t & -> & _).
  cbn [mbind mret outcome_mbind outcome_bind outcome_ret].
  by rewrite highlights_html_nonblank.
Qed.

End NamingFacts.

End Service.

(** * The service on concrete responses *)

Import Sample.

(** C1, a run of the theorem: the oracle answers every prompt with a
    refusal in prose. *)
Lemma unparsable_response_outcomes_witness :
  extract_json_str refusal = Return refusal
  /\ JsonRef.loads refusal = None
  /\ analyze_job_description (constant_oracle refusal) JsonRef.loads job (World ∅ 0)
     = (World ∅ 1,
        Return (PDict [("raw_analysis", PStr refusal);
                       ("job_title", PStr "Unknown");
                       ("required_skills", PList []);
                       ("keywords", PList [])]))
  /\ tailor_resume (constant_oracle refusal) clock JsonRef.loads
       JsonRef.dumps package_files job "resume_templates/base.json" (World ∅ 0)
     = (World {["output/tailored_resume_raw_20250301_090001.txt" := refusal]} 1,
        Raise (Exception
          "Failed to parse tailored resume as JSON. Raw output saved to output/tailored_resume_raw_20250301_090001.txt")).
Proof.
  split; [reflexivity|]. split; [reflexivity|].
  apply (unparsable_response_outcomes
           (constant_oracle refusal) clock JsonRef.loads JsonRef.dumps
           package_files job "resume_templates/base.json" (World ∅ 0)
           (JsonRef.dumps base_document) base_document
           refusal refusal 1 1);
    vm_compute; reflexivity.
Defined.

(** C1 as stated fails on [tailor_resume]: on a response that is not JSON
    it returns no degraded result, it raises. *)
Lemma tailor_resume_raises_on_unparsable :
  (s ← extract_json_str refusal; mret (JsonRef.loads s)) = Return None
  /\ (tailor_resume (constant_oracle refusal) clock JsonRef.loads
        JsonRef.dumps package_files job "resume_templates/base.json" (World ∅ 0)).2
     = Raise (Exception
         "Failed to parse tailored resume as JSON. Raw output saved to output/tailored_resume_raw_20250301_090001.txt").
Proof. split; vm_compute; reflexivity. Qed.

(** C3, a run of the theorem: the base document in a tagged block between
    two lines of prose. *)
Lemma fenced_object_recovered_witness :
  contains fence_json fenced_prefix = false
  /\ contains fence fenced_body = false
  /\ ends_with_char "`" fenced_body = false
  /\ JsonRef.loads (strip fenced_body) = Some base_document
  /\ extract_json_str fenced_response = Return (strip fenced_body)
  /\ analyze_job_description (constant_oracle fenced_response) JsonRef.loads job (World ∅ 0)
     = (World ∅ 1, Return base_document)
  /\ tailor_resume (constant_oracle fenced_response) clock JsonRef.loads JsonRef.dumps
       package_files job "resume_templates/base.json" (World ∅ 0)
     = (World {["output/tailored_resume_20250301_090001.json"
                := JsonRef.dumps base_document]} 1,
        Return ("output/tailored_resume_20250301_090001.json", base_document)).
Proof.
  split; [reflexivity|]. split; [vm_compute; reflexivity|].
  split; [vm_compute; reflexivity|]. split; [vm_compute; reflexivity|].
  apply (fenced_object_recovered
           (constant_oracle fenced_response) clock JsonRef.loads JsonRef.dumps package_files
           fenced_prefix fenced_body fenced_suffix base_document
           job "resume_templates/base.json" (World ∅ 0)
           (JsonRef.dumps base_document) base_document 1 1);
    vm_compute; reflexivity.
Defined.

(** C3 as stated fails.  An object whose string value holds a fence sits
    alone in a tagged block, and the block is cut at that inner fence;
    prose that mentions the tag before the block makes the cut start
    there.  Both times the embedded object decodes, and the analysis
    returns the raw-text fallback instead of it. *)
Lemma fenced_object_not_recovered :
  (JsonRef.loads (JsonRef.dumps fence_note) = Some fence_note
   /\ fence_note_response
      = "" +:+ fence_json +:+ (nl +:+ JsonRef.dumps fence_note +:+ nl) +:+ fence +:+ ""
   /\ (analyze_job_description (constant_oracle fence_note_response) JsonRef.loads
         job (World ∅ 0)).2
      = Return (raw_analysis_fallback fence_note_response)
   /\ raw_analysis_fallback fence_note_response <> fence_note)
  /\ (JsonRef.loads "{}" = Some (PDict [])
      /\ tagged_prose_response
         = "I put it in a ```json block: " +:+ fence_json +:+ (nl +:+ "{}" +:+ nl)
           +:+ fence +:+ ""
      /\ (analyze_job_description (constant_oracle tagged_prose_response) JsonRef.loads
            job (World ∅ 0)).2
         = Return (raw_analysis_fallback tagged_prose_response)
      /\ raw_analysis_fallback tagged_prose_response <> PDict []).
Proof.
  split; (split; [|split; [|split]]);
    first [ vm_compute; reflexivity | discriminate ].
Qed.

(** C4, a run of the theorem on the two strings of the specification. *)
Lemma split_company_first_paren_witness :
  contains "(" "Acme Corp " = false
  /\ contains ")" "Remote" = false
  /\ split_company "Acme Corp (Remote)" = Return ("Acme Corp", "Remote")
  /\ contains "(" "Acme Corp" = false
  /\ split_company "Acme Corp" = Return ("Acme Corp", "").
Proof.
  split; [reflexivity|]. split; [reflexivity|]. split; [|split; [reflexivity|]].
  - apply (split_company_first_paren "Acme Corp " "Remote"); reflexivity.
  - apply (split_company_first_paren "Acme Corp" ""); reflexivity.
Defined.

(** C4 as stated fails: with a second clause, or with text after the
    clause, the location is not what lies between the first ["("] and the
    last [")"]. *)
Lemma split_company_not_first_last :
  (split_company "Acme Corp (APAC) (Remote)" = Return ("Acme Corp", "APAC (Remote")
   /\ split_company_first_last "Acme Corp (APAC) (Remote)" = ("Acme Corp", "APAC) (Remote"))
  /\ (split_company "Acme Corp (Remote) Ltd" = Return ("Acme Corp", "Remote Ltd")
      /\ split_company_first_last "Acme Corp (Remote) Ltd" = ("Acme Corp", "Remote")).
Proof. split; split; vm_compute; reflexivity. Qed.

(** C5, a run of the theorem on the two periods of the specification. *)
Lemma split_period_first_dash_witness :
  contains "-" "Jan 2020 " = false
  /\ split_period "Jan 2020 - Mar 2022" = Return ("Jan 2020", "Mar 2022")
  /\ contains "-" "2022" = false
  /\ split_period "2022" = Return ("2022", "").
Proof.
  split; [reflexivity|]. split; [|split; [reflexivity|]].
  - apply (split_period_first_dash "Jan 2020 " " Mar 2022"); reflexivity.
  - apply (split_period_first_dash "2022" ""); reflexivity.
Defined.


(** The service in the sample setting. *)
Abbreviation serve_sample :=
  (serve oracle clock JsonRef.loads JsonRef.dumps package_files markdown_pdf
     JsonRef.dumps jwt_decode issue_token users 403 ["base.json"] exn_str
     ResumeRef.resume_of).

Abbreviation after_once := (serve_sample tailor_request (World ∅ 0)).1.
Abbreviation after_twice := (serve_sample tailor_request after_once).1.



(** C9, a run of the theorem: a forged token downloads an existing
    resume, gets a 404 for a missing one, and is refused the template
    list. *)
Lemma downloads_skip_authentication_witness :
  authenticated jwt_decode users (Some "forged") = false
  /\ protected GetTemplates = true
  /\ serve_sample (MkRequest (Some "forged") (DownloadResume "base_resume.pdf" None))
       (World {["output/base_resume.pdf" := "%PDF"]} 0)
     = (World {["output/base_resume.pdf" := "%PDF"]} 0,
        FileResponse "output/base_resume.pdf" None true)
  /\ serve_sample (MkRequest (Some "forged") (DownloadCoverLetter "base_resume.pdf" None))
       (World {["output/base_resume.pdf" := "%PDF"]} 0)
     = (World {["output/base_resume.pdf" := "%PDF"]} 0,
        FileResponse "output/base_resume.pdf" None true)
  /\ serve_sample (MkRequest (Some "forged") GetTemplates)
       (World {["output/base_resume.pdf" := "%PDF"]} 0)
     = (World {["output/base_resume.pdf" := "%PDF"]} 0,
        HTTPException 401 "Could not validate credentials").
Proof.
  split; [reflexivity|]. split; [reflexivity|].
  destruct (downloads_skip_authentication
              oracle clock JsonRef.loads JsonRef.dumps package_files markdown_pdf
              JsonRef.dumps jwt_decode issue_token users 403 ["base.json"] exn_str
              ResumeRef.resume_of
              (Some "forged") "base_resume.pdf" None GetTemplates
              (World {["output/base_resume.pdf" := "%PDF"]} 0)
              eq_refl eq_refl) as ([tn1 H1] & [tn2 H2] & H3).
  split; [|split].
  - rewrite H1. vm_compute. reflexivity.
  - rewrite H2. vm_compute. reflexivity.
  - exact H3.
Defined.

(** The same download for a file that does not exist. *)
Example download_missing_resume :
  serve_sample (MkRequest None (DownloadResume "other_resume.pdf" (Some "download")))
    (World {["output/base_resume.pdf" := "%PDF"]} 0)
  = (World {["output/base_resume.pdf" := "%PDF"]} 0,
     HTTPException 404 "Resume not found").
Proof. vm_compute. reflexivity. Qed.

(** C10 at work: an education mapping without any of the four keys is
    rendered with the four fixed strings, not with empty ones. *)
Example education_defaults_example :
  education_section templates
    (set_education base_resume (EducationDict (Edu.Make None None None None)))
  = "## Education
Bachelor of Information Technology, James Cook University, Singapore, Jan 2009 - Dec 2011. Major concentration in Software Development, Algorithm Design, and Database Management Systems with distinction.
"
  /\ education_section templates
       (set_education base_resume
          (EducationDict (Edu.Make (Some "") (Some "") (Some "") (Some ""))))
     = "## Education
, , . 
".
Proof. split; vm_compute; reflexivity. Qed.

(** The sample templates are the rendering of the sample sequences. *)
Example sample_templates_rendered : render_templates segments = templates.
Proof. reflexivity. Qed.

(** C2, a run of the theorem on the base resume and the sample
    templates. *)
Lemma markdown_without_placeholders_witness :
  templates_ok segments = true
  /\ plain_resume base_resume = true
  /\ load_templates package_files (World ∅ 0) = (World ∅ 0, Return (render_templates segments))
  /\ exists out,
       convert_json_to_markdown clock package_files base_resume (World ∅ 0)
       = (World {["output/tailored_resume_markdown_20250301_090000.md" := out]} 0,
          Return out)
       /\ brace_free out = true
       /\ replace "{{name}}" "Ada Park" out = out.
Proof.
  split; [reflexivity|]. split; [reflexivity|]. split; [vm_compute; reflexivity|].
  destruct (markdown_without_placeholders clock package_files segments base_resume
              (World ∅ 0) eq_refl eq_refl)
    as (out & H1 & H2 & _ & H4 & _).
  { vm_compute. reflexivity. }
  exists out. split; [exact H1|]. split; [exact H2|]. exact (H4 "name" "Ada Park").
Defined.

(** C2 as stated fails.  A summary that quotes a placeholder leaves the
    token {{name}} in the output, and substituting the name again changes
    the output; an education given as a list leaves the education
    fragment unsubstituted, its {{degree}} placeholder dangling although
    the degree is populated. *)
Lemma markdown_keeps_placeholders :
  (exists out,
     markdown_of templates quoting_resume = Return out
     /\ contains "{{name}}" out = true
     /\ replace "{{name}}" (Resume.name quoting_resume) out <> out)
  /\ (exists out,
        markdown_of templates listed_education_resume = Return out
        /\ contains "{{degree}}" out = true).
Proof.
  split.
  - eexists. split; [vm_compute; reflexivity|]. split; [vm_compute; reflexivity|].
    vm_compute. discriminate.
  - eexists. split; [vm_compute; reflexivity|]. vm_compute; reflexivity.
Qed.


(** ** The string primitives on small inputs *)

Example split1_fence :
  split1 "```json" "Sure: ```json {} ``` done" = ["Sure: "; " {} ``` done"].
Proof. reflexivity. Qed.

Example strip_both : strip "  Jan 2020 " = "Jan 2020".
Proof. reflexivity. Qed.

Example replace_twice : replace "ab" "x" "cababab!" = "cxxx!".
Proof. reflexivity. Qed.

Example replace_overlap : replace "aa" "b" "aaa" = "ba".
Proof. reflexivity. Qed.

Example replace_empty : replace "" "-" "abc" = "-a-b-c-".
Proof. reflexivity. Qed.

Example extract_plain : extract_json_str "``` [1] ```" = Return "[1]".
Proof. reflexivity. Qed.

Example extract_bare : extract_json_str " {} " = Return " {} ".
Proof. reflexivity. Qed.

Example cover_letter_unwrapped :
  clean_cover_letter "Here it is: ```markdown
Dear Hiring Manager
``` Good luck" = "Dear Hiring Manager".
Proof. reflexivity. Qed.

Example template_name_of_file : template_name_of (Some "michael.json") = "michael".
Proof. reflexivity. Qed.

Example cover_letter_prefix_of_template : cover_letter_prefix "michael" = "michael_cover_letter".
Proof. reflexivity. Qed.

Example cover_letter_prefix_of_timestamp :
  cover_letter_prefix "20250301_090000" = "cover_letter_20250301_090000".
Proof. reflexivity. Qed.

(** * Further runs on concrete responses *)


(** A block without tag, between two pieces of prose. *)
Lemma untagged_block_extracted_witness :
  extract_json_str ("Result: " +:+ fence +:+ " [1, 2] " +:+ fence +:+ " as asked.")
  = Return "[1, 2]".
Proof.
  apply (untagged_block_extracted "Result: " " [1, 2] " " as asked.");
    vm_compute; reflexivity.
Defined.

(** A fence that is opened and never closed. *)
Lemma unclosed_fence_ignored_witness :
  extract_json_str ("see " +:+ fence +:+ " {} and so on")
  = Return ("see " +:+ fence +:+ " {} and so on").
Proof.
  apply (unclosed_fence_ignored "see " " {} and so on"); vm_compute; reflexivity.
Defined.


(** A letter in an untagged block after a line of prose. *)
Lemma cover_letter_block_unwrapped_witness :
  clean_cover_letter
    ("Here is the letter:" +:+ fence +:+ "" +:+ " Dear Hiring Manager, " +:+ fence
     +:+ " Good luck!")
  = "Dear Hiring Manager,".
Proof.
  apply (cover_letter_block_unwrapped false "Here is the letter:"
           " Dear Hiring Manager, " " Good luck!");
    try (intros _); vm_compute; reflexivity.
Defined.

(** The sample package holds the thirteen templates. *)
Lemma markdown_conversion_succeeds_witness :
  exists md,
    convert_json_to_markdown clock package_files base_resume (World ∅ 0)
    = (World (<[output_path ("tailored_resume_markdown_" +:+ clock 0 +:+ ".md") := md]> ∅) 0,
       Return md).
Proof.
  apply (markdown_conversion_succeeds clock package_files base_resume (World ∅ 0)).
  apply Forall_forall. vm_compute. repeat constructor; by eexists.
Defined.



(** The sample user signs in and lists the templates with the token. *)
Lemma signin_token_accepted_witness :
  exists token,
    serve_sample (MkRequest None (Signin "ada" "secret")) (World ∅ 0)
    = (World ∅ 0, Token token "ada")
    /\ serve_sample (MkRequest (Some token) GetTemplates) (World ∅ 0)
       = (World ∅ 0, TemplateList ["base.json"]).
Proof.
  apply (signin_token_accepted oracle clock JsonRef.loads JsonRef.dumps package_files
           markdown_pdf JsonRef.dumps jwt_decode issue_token users 403 ["base.json"]
           exn_str ResumeRef.resume_of "ada" "secret" (World ∅ 0)).
  - apply list_elem_of_here.
  - vm_compute; reflexivity.
Defined.

(** A download of a missing file leaves the world alone. *)
Lemma read_only_routes_change_nothing_witness :
  (serve_sample (MkRequest None (DownloadResume "base_resume.pdf" None)) (World ∅ 0)).1
  = World ∅ 0.
Proof.
  apply (read_only_routes_change_nothing oracle clock JsonRef.loads JsonRef.dumps
           package_files markdown_pdf JsonRef.dumps jwt_decode issue_token users 403
           ["base.json"] exn_str ResumeRef.resume_of
           (MkRequest None (DownloadResume "base_resume.pdf" None)) (World ∅ 0)).
  reflexivity.
Defined.

(** A resume PDF of an earlier request is rewritten, not removed. *)
Lemma serve_deletes_nothing_witness :
  is_Some (files (serve_sample tailor_request
                    (World {["output/base_resume.pdf" := "%PDF old"]} 0)).1
           !! "output/base_resume.pdf").
Proof.
  apply (serve_deletes_nothing oracle clock JsonRef.loads JsonRef.dumps
           package_files markdown_pdf JsonRef.dumps jwt_decode issue_token users 403
           ["base.json"] exn_str ResumeRef.resume_of
           tailor_request
           (World {["output/base_resume.pdf" := "%PDF old"]} 0)
           (serve_sample tailor_request
              (World {["output/base_resume.pdf" := "%PDF old"]} 0)).1
           (serve_sample tailor_request
              (World {["output/base_resume.pdf" := "%PDF old"]} 0)).2
           "output/base_resume.pdf").
  - vm_compute; reflexivity.
  - vm_compute. by eexists.
Defined.

(** The links of the sample answer. *)
Lemma tailoring_answer_links_resolve_witness :
  (exists filename,
     "/download/resume/base_resume.pdf" = "/download/resume/" +:+ filename
     /\ is_Some (files after_once !! output_path filename))
  /\ (forall url, Some "/download/cover_letter/base_cover_letter.pdf" = Some url ->
      exists filename,
        url = "/download/cover_letter/" +:+ filename
        /\ is_Some (files after_once !! output_path filename))
  /\ (forall p, Some "output/tailored_resume_20250301_090001.json" = Some p ->
      is_Some (files after_once !! p))
  /\ (forall p, Some "output/tailored_resume_text_20250301_090001.txt" = Some p ->
      is_Some (files after_once !! p)).
Proof.
  apply (tailoring_answer_links_resolve oracle clock JsonRef.loads JsonRef.dumps
           package_files markdown_pdf JsonRef.dumps jwt_decode issue_token users 403
           ["base.json"] exn_str ResumeRef.resume_of
           (Some "token-of-ada")
           (MkJobSubmission job (Some three_questions) (Some "base.json") (Some true))
           (World ∅ 0) after_once
           "/download/resume/base_resume.pdf"
           (Some "/download/cover_letter/base_cover_letter.pdf")
           (Some ["Answer 02"; "Answer 03"; "Answer 04"])
           (Some "output/tailored_resume_20250301_090001.json")
           (Some "output/tailored_resume_text_20250301_090001.txt")).
  vm_compute; reflexivity.
Defined.

(** A request without template is answered with a 500. *)
Lemma tailoring_answers_or_500_witness :
  (exists resume_url cover_letter_url answers json_path text_path,
     (serve_sample (MkRequest (Some "token-of-ada")
                      (TailorResume (MkJobSubmission job None None None))) (World ∅ 0)).2
     = TailoredResumeResponse resume_url cover_letter_url answers json_path text_path)
  \/ (exists e,
        (serve_sample (MkRequest (Some "token-of-ada")
                         (TailorResume (MkJobSubmission job None None None))) (World ∅ 0)).2
        = HTTPException 500 ("Error tailoring resume: " +:+ exn_str e)).
Proof.
  apply (tailoring_answers_or_500 oracle clock JsonRef.loads JsonRef.dumps
           package_files markdown_pdf JsonRef.dumps jwt_decode issue_token users 403
           ["base.json"] exn_str ResumeRef.resume_of
           (Some "token-of-ada") (MkJobSubmission job None None None) (World ∅ 0)).
  reflexivity.
Defined.

(** Without a template name the file looked for is resume_templates/None. *)
Lemma tailoring_without_template_witness :
  serve_sample (MkRequest (Some "token-of-ada")
                  (TailorResume (MkJobSubmission job None None None))) (World ∅ 0)
  = (World ∅ 0,
     HTTPException 500
       "Error tailoring resume: No such file or directory: resume_templates/None").
Proof.
  apply (tailoring_without_template oracle clock JsonRef.loads JsonRef.dumps
           package_files markdown_pdf JsonRef.dumps jwt_decode issue_token users 403
           ["base.json"] exn_str ResumeRef.resume_of
           (Some "token-of-ada") (MkJobSubmission job None None None) (World ∅ 0));
    vm_compute; reflexivity.
Defined.

(** The oracle is out of service: one call, no file. *)
Lemma tailoring_oracle_failure_witness :
  serve failing_oracle clock JsonRef.loads JsonRef.dumps package_files markdown_pdf
    JsonRef.dumps jwt_decode issue_token users 403 ["base.json"] exn_str
    ResumeRef.resume_of tailor_request (World ∅ 0)
  = (World ∅ 1, HTTPException 500 "Error tailoring resume: error").
Proof.
  apply (tailoring_oracle_failure failing_oracle clock JsonRef.loads JsonRef.dumps
           package_files markdown_pdf JsonRef.dumps jwt_decode issue_token users 403
           ["base.json"] exn_str ResumeRef.resume_of
           (Some "token-of-ada")
           (MkJobSubmission job (Some three_questions) (Some "base.json") (Some true))
           (World ∅ 0) (JsonRef.dumps base_document) base_document 1
           (OracleError "service unavailable"));
    vm_compute; reflexivity.
Defined.


(** The resume of the template [base] keeps its name on download. *)
Lemma resume_download_keeps_name_witness :
  serve_sample (MkRequest None (DownloadResume ("base" +:+ "_resume.pdf") (Some "download")))
    (World {["output/base_resume.pdf" := "%PDF"]} 0)
  = (World {["output/base_resume.pdf" := "%PDF"]} 0,
     FileResponse (output_path ("base" +:+ "_resume.pdf"))
       (Some ("base" +:+ "_resume.pdf")) false).
Proof.
  apply (resume_download_keeps_name oracle clock JsonRef.loads JsonRef.dumps
           package_files markdown_pdf JsonRef.dumps jwt_decode issue_token users 403
           ["base.json"] exn_str ResumeRef.resume_of
           None "base" (World {["output/base_resume.pdf" := "%PDF"]} 0));
    try (vm_compute; reflexivity).
  vm_compute. by eexists.
Defined.

(** A template in a directory. *)
Lemma template_name_drops_directory_and_extension_witness :
  template_name_of (Some ("resume_templates" +:+ "/" +:+ "michael" +:+ "." +:+ "json"))
  = "michael".
Proof.
  apply (template_name_drops_directory_and_extension (Some "resume_templates")
           "michael" "json");
    vm_compute; reflexivity.
Defined.
